(** * pdftitan: the PDF filling core of [backend-py]

    A shallow embedding of [services/pdf_service.py] (overlay renderer and
    compositor), of the named-field filler and its caller in
    [routers/backflow.py], and of the save handler of
    [routers/attachments.py], with the properties the specification states
    about them.

    Conventions of the embedding.
    - A Python value is a [PyVal]; a [dict] with string keys is a
      [gmap string PyVal].
    - A Python [float] is idealised as an exact rational ([Q]); rounding,
      infinities and NaN are outside the model.  Equalities between
      coordinates are therefore stated with [==].
    - Code that raises, prints or draws runs in the monad [M W]: a state
      [W] threaded through, and a result that is either a raised exception
      or a value.  State changes made before an exception is raised are
      kept, as in Python.
    - What pypdf, reportlab, Pillow, [base64] and the conversion of a string
      to a float compute is taken through the interface [Libs]. *)

From Stdlib Require Import ZArith QArith Qminmax Lqa String Ascii List.
From Stdlib Require Import Strings.Byte.
From stdpp Require Import base strings list gmap pretty.

#[local] Open Scope Z_scope.

(** ** Python values *)

#[warnings="-register-all"]
Inductive PyVal : Type :=
  | VNone
  | VBool (b : bool)
  | VInt (n : Z)
  | VFloat (q : Q)
  | VStr (s : string)
  | VList (l : list PyVal)
  | VDict (d : gmap string PyVal).

Abbreviation dict := (gmap string PyVal).

(** [bool(v)]. *)
Definition truthy (v : PyVal) : bool :=
  match v with
  | VNone => false
  | VBool b => b
  | VInt n => negb (n =? 0)
  | VFloat q => negb (Qeq_bool q 0)
  | VStr s => negb (String.eqb s "")
  | VList l => match l with [] => false | _ => true end
  | VDict d => negb (bool_decide (d = ∅))
  end.

(** [a or b]. *)
Definition py_or (a b : PyVal) : PyVal := if truthy a then a else b.

(** [d.get(k)] and [d.get(k, default)]. *)
Definition get (d : dict) (k : string) : PyVal := default VNone (d !! k).
Definition get_d (d : dict) (k : string) (dflt : PyVal) : PyVal := default dflt (d !! k).

(** [v == s] for a string literal [s]. *)
Definition py_eq_str (v : PyVal) (s : string) : bool :=
  match v with VStr s' => String.eqb s' s | _ => false end.

(** [v == n] for an integer [n]: integers, floats and booleans compare by
    value ([True == 1], [1.0 == 1]); nothing else equals a number. *)
Definition py_eq_int (v : PyVal) (n : Z) : bool :=
  match v with
  | VBool b => (if b then 1 else 0) =? n
  | VInt m => m =? n
  | VFloat q => Qeq_bool q (inject_Z n)
  | _ => false
  end.

(** [v is True]. *)
Definition py_is_True (v : PyVal) : bool :=
  match v with VBool true => true | _ => false end.

(** [isinstance(v, str)]. *)
Definition isinstance_str (v : PyVal) : bool :=
  match v with VStr _ => true | _ => false end.

(** ** Strings *)

(** The characters [str.strip()] removes, within ASCII. *)
Definition is_space (a : ascii) : bool :=
  let n := nat_of_ascii a in
  orb (andb (9 <=? n)%nat (n <=? 13)%nat)
      (orb (andb (28 <=? n)%nat (n <=? 31)%nat) (n =? 32)%nat).

Fixpoint lstrip (s : string) : string :=
  match s with
  | String a s' => if is_space a then lstrip s' else s
  | EmptyString => EmptyString
  end.

Fixpoint rstrip (s : string) : string :=
  match s with
  | EmptyString => EmptyString
  | String a s' =>
      match rstrip s' with
      | EmptyString => if is_space a then EmptyString else String a EmptyString
      | r => String a r
      end
  end.

Definition strip (s : string) : string := rstrip (lstrip s).

(** [s.split(sep)] for a one-character separator. *)
Fixpoint split_on (sep : ascii) (s : string) : list string :=
  match s with
  | EmptyString => [EmptyString]
  | String a s' =>
      if Ascii.eqb a sep then EmptyString :: split_on sep s'
      else match split_on sep s' with
           | hd :: tl => String a hd :: tl
           | [] => [String a EmptyString]
           end
  end.

Definition newline : ascii := ascii_of_nat 10.

(** [s.startswith(p)]. *)
Definition startswith (s p : string) : bool := String.prefix p s.

Definition is_lower (a : ascii) : bool :=
  let n := nat_of_ascii a in andb (97 <=? n)%nat (n <=? 122)%nat.

Fixpoint drop_lower (s : string) : string :=
  match s with
  | String a s' => if is_lower a then drop_lower s' else s
  | EmptyString => EmptyString
  end.

Definition drop_prefix (p s : string) : option string :=
  if String.prefix p s
  then Some (String.substring (String.length p) (String.length s - String.length p) s)
  else None.

(** [re.sub(r"^data:image/[a-z]+;base64,", "", content)]: the prefix is
    removed when it is there, and the string is left as it is otherwise. *)
Definition strip_data_uri (content : string) : string :=
  match drop_prefix "data:image/" content with
  | Some rest =>
      let rest' := drop_lower rest in
      if negb (String.length rest' =? String.length rest)%nat
      then match drop_prefix ";base64," rest' with
           | Some data => data
           | None => content
           end
      else content
  | None => content
  end.

(** ** Exceptions and the monad of effectful code *)

Inductive PyExc : Type :=
  | TypeError
  | ValueError
  | AttributeError
  | ZeroDivisionError
  | BinasciiError
  | UnidentifiedImageError
  | OSError
  | FileNotFoundError
  | IndexError
  | KeyError
  | NetworkError
  | PdfReadError
  | HTTPException (status_code : Z) (detail : string).

Definition M (W A : Type) : Type := W → (PyExc + A) * W.

Definition ret {W A} (a : A) : M W A := λ w, (inr a, w).
Definition raise {W A} (e : PyExc) : M W A := λ w, (inl e, w).
Definition bind {W A B} (m : M W A) (k : A → M W B) : M W B :=
  λ w, match m w with
       | (inr a, w') => k a w'
       | (inl e, w') => (inl e, w')
       end.

(** [try: body except Exception as e: handler(e)]. *)
Definition try_except {W A} (body : M W A) (handler : PyExc → M W A) : M W A :=
  λ w, match body w with
       | (inl e, w') => handler e w'
       | r => r
       end.

Definition modify {W} (f : W → W) : M W unit := λ w, (inr tt, f w).
Definition gets {W A} (f : W → A) : M W A := λ w, (inr (f w), w).

(** A value that is there, or the exception raised when it is not. *)
Definition lift {W A} (r : PyExc + A) : M W A := λ w, (r, w).
Definition or_raise {W A} (e : PyExc) (o : option A) : M W A :=
  match o with Some a => ret a | None => raise e end.

#[global] Instance M_ret W : MRet (M W) := @ret W.
#[global] Instance M_bind W : MBind (M W) := λ A B k m, bind m k.

(** [for a in l: body(a)]. *)
Fixpoint for_each {W A} (l : list A) (body : A → M W unit) : M W unit :=
  match l with
  | [] => ret tt
  | a :: l' => bind (body a) (λ _, for_each l' body)
  end.

(** [enumerate(l, start)]. *)
Fixpoint enumerate {A} (start : Z) (l : list A) : list (Z * A) :=
  match l with
  | [] => []
  | a :: l' => (start, a) :: enumerate (start + 1) l'
  end.

(** ** Numbers *)

(** [a / b] on floats, and on integers converted by true division. *)
Definition py_div {W} (a b : Q) : M W Q :=
  if Qeq_bool b 0 then raise ZeroDivisionError else ret (a / b)%Q.

(** [a < b] on floats. *)
Definition Qltb (a b : Q) : bool := negb (Qle_bool b a).

(** [min(a, b)]: the first argument unless the second is smaller. *)
Definition py_min (a b : Q) : Q := if Qltb b a then b else a.

(** ** reportlab: colours and the canvas *)

(** A colour by its three channels, each in 0..255 (reportlab keeps
    channel/255). *)
Record Color := mkColor { red : Z; green : Z; blue : Z }.

Definition black : Color := mkColor 0 0 0.

Definition hex_digit (a : ascii) : option Z :=
  let n := Z.of_nat (nat_of_ascii a) in
  if (48 <=? n) && (n <=? 57) then Some (n - 48)
  else if (97 <=? n) && (n <=? 102) then Some (n - 87)
  else if (65 <=? n) && (n <=? 70) then Some (n - 55)
  else None.

(** The digits of [int(s, 16)], with single underscores between them. *)
Fixpoint hex_digits (acc : Z) (after_digit : bool) (s : string) : option Z :=
  match s with
  | EmptyString => if after_digit then Some acc else None
  | String a s' =>
      if Ascii.eqb a "_"%char
      then (if after_digit then
              match s' with
              | EmptyString => None
              | _ => hex_digits acc false s'
              end
            else None)
      else match hex_digit a with
           | Some d => hex_digits (16 * acc + d) true s'
           | None => None
           end
  end.

(** [int(s, 16)]: surrounding white space, a sign and a [0x] prefix are
    accepted; [None] stands for [ValueError]. *)
Definition int_base16 (s : string) : option Z :=
  let s := strip s in
  let '(neg, s) :=
    match s with
    | String "-"%char s' => (true, s')
    | String "+"%char s' => (false, s')
    | _ => (false, s)
    end in
  let '(prefixed, s) :=
    match s with
    | String "0"%char (String "x"%char s') => (true, s')
    | String "0"%char (String "X"%char s') => (true, s')
    | _ => (false, s)
    end in
  let s :=
    match s with
    | String "_"%char s' => if prefixed then s' else s
    | _ => s
    end in
  match hex_digits 0 false s with
  | Some n => Some (if neg then - n else n)
  | None => None
  end.

(** [HexColor(val)] of reportlab on a string that starts with [#]: the rest
    is read as a base-16 integer whose three low bytes are the channels.
    The caller below always passes such a string; [None] stands for the
    exception raised on anything else. *)
Definition HexColor (val : string) : option Color :=
  match val with
  | String "#"%char rest =>
      match int_base16 rest with
      | Some n =>
          Some (mkColor (Z.land (Z.shiftr n 16) 255)
                        (Z.land (Z.shiftr n 8) 255)
                        (Z.land n 255))
      | None => None
      end
  | _ => None
  end.

(** What the canvas has drawn: the value given as text, with the font and
    fill colour in force when it was drawn, or an image. *)
Inductive DrawOp : Type :=
  | DrawString (x y : Q) (text : PyVal) (font : string) (size : Q) (fill : Color)
  | DrawImage (x y width height : Q) (png : list byte).

(** The state of a [reportlab.pdfgen.canvas.Canvas]: the operations of the
    current page in [code], the pages already shown in [shown]. *)
Record Canvas := mkCanvas {
  pagesize : Q * Q;
  fillColor : Color;
  fontName : string;
  fontSize : Q;
  code : list DrawOp;
  shown : list (list DrawOp)
}.

(** [Canvas(buf, pagesize=...)]: black fill, Helvetica 12. *)
Definition Canvas_new (size : Q * Q) : Canvas :=
  mkCanvas size black "Helvetica" 12%Q [] [].

Definition Canvas_setFillColor (col : Color) (c : Canvas) : Canvas :=
  mkCanvas (pagesize c) col (fontName c) (fontSize c) (code c) (shown c).

Definition Canvas_setFont (name : string) (size : Q) (c : Canvas) : Canvas :=
  mkCanvas (pagesize c) (fillColor c) name size (code c) (shown c).

Definition Canvas_emit (op : DrawOp) (c : Canvas) : Canvas :=
  mkCanvas (pagesize c) (fillColor c) (fontName c) (fontSize c) (code c ++ [op]) (shown c).

Definition Canvas_drawString (x y : Q) (text : PyVal) (c : Canvas) : Canvas :=
  Canvas_emit (DrawString x y text (fontName c) (fontSize c) (fillColor c)) c.

Definition Canvas_drawImage (x y width height : Q) (png : list byte) (c : Canvas) : Canvas :=
  Canvas_emit (DrawImage x y width height png) c.

(** [c.showPage()]: the current page is closed and the next one starts
    with the initial colour and font. *)
Definition Canvas_showPage (c : Canvas) : Canvas :=
  mkCanvas (pagesize c) black "Helvetica" 12%Q [] (shown c ++ [code c]).

(** The document a saved canvas holds, as its pages. *)
Definition OverlayPdf : Type := list (list DrawOp).

(** [c.save()]: the current page is shown if something is on it. *)
Definition Canvas_save (c : Canvas) : OverlayPdf :=
  match code c with
  | [] => shown c
  | ops => shown c ++ [ops]
  end.

(** ** The state of [pdf_service] *)

(** What the service prints: the two messages of [_build_overlay] and
    [_draw_signature], with the exception in place of its text. *)
Inductive LogLine : Type :=
  | ElementRenderError (el_type : PyVal) (e : PyExc)
  | SignatureRenderError (e : PyExc).

(** The standard output and the canvas [c] of the overlay being built. *)
Record World := mkWorld {
  stdout : list LogLine;
  canvas : Canvas
}.

Definition print (l : LogLine) : M World unit :=
  modify (λ w, mkWorld (stdout w ++ [l]) (canvas w)).

Definition on_canvas (f : Canvas → Canvas) : M World unit :=
  modify (λ w, mkWorld (stdout w) (f (canvas w))).

Definition setFillColor (col : Color) : M World unit :=
  on_canvas (Canvas_setFillColor col).

Definition setFont (name : string) (size : Q) : M World unit :=
  on_canvas (Canvas_setFont name size).

Definition drawString (x y : Q) (text : string) : M World unit :=
  on_canvas (Canvas_drawString x y (VStr text)).

Definition drawImage (x y width height : Q) (png : list byte) : M World unit :=
  on_canvas (Canvas_drawImage x y width height png).

(** ** pypdf: documents and pages *)

(** What a page shows: the content it came with, then the overlays merged
    onto it, in order. *)
Inductive PageContent : Type :=
  | SourceContent (stream : list byte)
  | OverlayContent (ops : list DrawOp).

(** A page: its size, what it shows, and the values of the form fields
    (widget annotations) on it, by field name. *)
Record Page := mkPage {
  mediabox_width : Q;
  mediabox_height : Q;
  contents : list PageContent;
  fields : gmap string PyVal
}.

(** [page.merge_page(overlay_page)]: the overlay is drawn on top. *)
Definition merge_page (page : Page) (overlay : list DrawOp) : Page :=
  mkPage (mediabox_width page) (mediabox_height page)
         (contents page ++ [OverlayContent overlay]) (fields page).

(** A decoded image: its size in pixels and its data. *)
Record Image := mkImage {
  img_width : Z;
  img_height : Z;
  img_data : list byte
}.

(** ** The libraries the service calls *)

Class Libs := {
  (** [PdfReader(io.BytesIO(b))] and [PdfWriter(clone_from=...)]: the pages
      of the document, or nothing when [b] is not a PDF document. *)
  pdf_parse : list byte → option (list Page);
  (** [writer.write(output); output.getvalue()]. *)
  pdf_write : list Page → list byte;
  (** [float(s)] on a string; nothing stands for [ValueError]. *)
  float_of_str : string → option Q;
  (** [str(v)] on a float, a list or a dict. *)
  repr : PyVal → string;
  (** [base64.b64decode(s)]. *)
  b64decode : string → option (list byte);
  (** [Image.open(io.BytesIO(b))]. *)
  Image_open : list byte → option Image;
  (** [img.save(img_io, format="PNG")]. *)
  Image_save_png : Image → option (list byte);
  (** [a == b] between two lists or two dicts. *)
  compound_eq : PyVal → PyVal → bool;
  (** [c.save(); buf.getvalue()]: the bytes of a saved canvas. *)
  canvas_getvalue : Q * Q → OverlayPdf → list byte
}.

(** ** [services/pdf_service.py] *)

Section pdf_service.
Context `{Libs}.

(** [str(v)]. *)
Definition py_str (v : PyVal) : string :=
  match v with
  | VStr s => s
  | VNone => "None"
  | VBool true => "True"
  | VBool false => "False"
  | VInt n => pretty n
  | _ => repr v
  end.

(** [float(v)]. *)
Definition py_float {W} (v : PyVal) : M W Q :=
  match v with
  | VBool b => ret (if b then 1%Q else 0%Q)
  | VInt n => ret (inject_Z n)
  | VFloat q => ret q
  | VStr s => or_raise ValueError (float_of_str s)
  | _ => raise TypeError
  end.

(** [_draw_text(c, content, x, pdf_y, font_size, color_str)]. *)
Definition _draw_text (content : PyVal) (x pdf_y font_size : Q) (color_str : string)
  : M World unit :=
  if negb (truthy content) || String.eqb (strip (py_str content)) ""
  then ret tt
  else
    color ← try_except (or_raise ValueError (HexColor color_str)) (λ _, ret black);
    setFillColor color;;
    setFont "Helvetica" font_size;;
    let content_str := py_str content in
    let lines := split_on newline content_str in
    for_each (enumerate 0 lines) (λ '(i, line),
      if negb (String.eqb (strip line) "")
      then drawString x (pdf_y - inject_Z i * font_size)%Q (strip line)
      else ret tt).

(** Lines 126 to 135 of [_draw_signature]: the size at which an image of
    [img_w] by [img_h] pixels is drawn. *)
Definition _draw_signature_size {W} (img_w img_h : Z) (x width height page_width : Q)
  : M W (Q * Q) :=
  img_ratio ← py_div (inject_Z img_w) (inject_Z img_h);
  let draw_width := py_min width (page_width - x - 10)%Q in
  let draw_height := py_min height 60%Q in
  exceeds ← (if Qltb 0 draw_height
             then (h ← py_div draw_width img_ratio; ret (Qltb draw_height h))
             else ret false);
  if exceeds : bool
  then ret ((draw_height * img_ratio)%Q, draw_height)
  else
    draw_height_final ← (if Qltb 0 img_ratio then py_div draw_width img_ratio
                         else ret draw_height);
    ret (draw_width, draw_height_final).

(** [_draw_signature(c, content, x, pdf_y, width, height, page_width)]. *)
Definition _draw_signature (content : string) (x pdf_y width height page_width : Q)
  : M World unit :=
  try_except
    (let base64_data := strip_data_uri content in
     img_bytes ← or_raise BinasciiError (b64decode base64_data);
     img ← or_raise UnidentifiedImageError (Image_open img_bytes);
     '(draw_width_final, draw_height_final) ←
       _draw_signature_size (img_width img) (img_height img) x width height page_width;
     png ← or_raise OSError (Image_save_png img);
     drawImage x pdf_y draw_width_final draw_height_final png)
    (λ e, print (SignatureRenderError e)).

(** [color_str = element.get("color") or "#1e3a8a"], then the leading [#]
    is added when it is missing; a value that is not a string has no
    [startswith]. *)
Definition element_color_str {W} (element : dict) : M W string :=
  match py_or (get element "color") (VStr "#1e3a8a") with
  | VStr color_str =>
      ret (if negb (startswith color_str "#") then "#" +:+ color_str else color_str)
  | _ => raise AttributeError
  end.

(** [content is True or content == "true" or content == 1]. *)
Definition is_checked (content : PyVal) : bool :=
  py_is_True content || py_eq_str content "true" || py_eq_int content 1.

(** The coordinate conversion of line 61. *)
Definition pdf_y_of (page_height y height : Q) : Q :=
  (page_height - y - height + 1)%Q.

(** The body of the [try] of [_build_overlay], lines 47 to 77: one
    element is read and drawn. *)
Definition render_element (element : dict) (page_height page_width : Q) : M World unit :=
  let el_type := get_d element "type" (VStr "") in
  x ← py_float (py_or (get element "x") (VInt 0));
  y ← py_float (py_or (get element "y") (VInt 0));
  width ← py_float (py_or (get element "width") (VInt 100));
  height ← py_float (py_or (get element "height") (VInt 20));
  let content := get_d element "content" (VStr "") in
  font_size ← py_float (py_or (get element "fontSize") (VInt 11));
  color_str ← element_color_str element;
  let pdf_y := pdf_y_of page_height y height in
  if py_eq_str el_type "text" || py_eq_str el_type "date" || py_eq_str el_type "timestamp"
  then _draw_text content x pdf_y font_size color_str
  else if py_eq_str el_type "checkbox"
  then
    if is_checked content
    then _draw_text (VStr "X") x pdf_y font_size color_str
    else ret tt
  else if py_eq_str el_type "signature"
  then
    match content with
    | VStr s =>
        if truthy content && isinstance_str content && startswith s "data:image/"
        then _draw_signature s x pdf_y width height page_width
        else ret tt
    | _ => ret tt
    end
  else ret tt.

(** The [try] statement of the loop of [_build_overlay], lines 46 to 80. *)
Definition guarded_element (page_height page_width : Q) (element : dict) : M World unit :=
  try_except
    (render_element element page_height page_width)
    (λ e, print (ElementRenderError (get element "type") e)).

(** [_build_overlay(elements, page_height, page_width)]: the saved canvas
    stands for the bytes it is written to. *)
Definition _build_overlay (elements : list dict) (page_height page_width : Q)
  : M World OverlayPdf :=
  modify (λ w, mkWorld (stdout w) (Canvas_new (page_width, page_height)));;
  for_each elements (guarded_element page_height page_width);;
  gets (λ w, Canvas_save (canvas w)).

(** [[o for o in objects if o.get("page", 1) == page_num]]. *)
Definition page_elements_of (objects : list dict) (page_num : Z) : list dict :=
  List.filter (λ o, py_eq_int (get_d o "page" (VInt 1)) page_num) objects.

(** One turn of the loop of [generate_filled_pdf] on [page]. *)
Definition fill_page (objects : list dict) (page_num : Z) (page : Page) : M World Page :=
  let page_elements := page_elements_of objects page_num in
  match page_elements with
  | [] => ret page
  | _ =>
      let page_height := mediabox_height page in
      let page_width := mediabox_width page in
      overlay_reader ← _build_overlay page_elements page_height page_width;
      match overlay_reader with
      | overlay :: _ => ret (merge_page page overlay)
      | [] => ret page
      end
  end.

(** [for page_num, page in enumerate(writer.pages, start=page_num)]. *)
Fixpoint fill_pages (objects : list dict) (page_num : Z) (pages : list Page)
  : M World (list Page) :=
  match pages with
  | [] => ret []
  | page :: rest =>
      page' ← fill_page objects page_num page;
      rest' ← fill_pages objects (page_num + 1) rest;
      ret (page' :: rest')
  end.

(** [generate_filled_pdf(original_pdf_bytes, objects)]. *)
Definition generate_filled_pdf (original_pdf_bytes : list byte) (objects : list dict)
  : M World (list byte) :=
  writer_pages ← or_raise PdfReadError (pdf_parse original_pdf_bytes);
  pages' ← fill_pages objects 1 writer_pages;
  ret (pdf_write pages').

End pdf_service.

(** ** [routers/attachments.py] *)

(** What [httpx] hands back for a request. *)
Record Response := mkResponse {
  is_success : bool;
  status_code : Z;
  resp_content : list byte
}.

#[global] Instance byte_eq_decision : EqDecision byte := Byte.byte_eq_dec.

(** [b"%PDF"]. *)
Definition PDF_MAGIC : list byte := list_byte_of_string "%PDF".

Section attachments.
Context `{Libs}.

(** The elements of a request body as [generate_filled_pdf] is annotated to
    take them: a list of dicts. *)
Fixpoint as_objects (l : list PyVal) : option (list dict) :=
  match l with
  | [] => Some []
  | VDict d :: l' => option_map (cons d) (as_objects l')
  | _ => None
  end.

(** [generate_filled_pdf] on whatever the body holds.  On a value that is
    not a list of dicts the comprehension of the first page raises:
    [TypeError] when the value cannot be iterated, [AttributeError] at the
    first entry without a [get]. *)
Definition generate_filled_pdf_of (original_pdf_bytes : list byte) (editable_elements : PyVal)
  : M World (list byte) :=
  let untyped (e : PyExc) : M World (list byte) :=
    writer_pages ← or_raise PdfReadError (pdf_parse original_pdf_bytes);
    match writer_pages with
    | [] => ret (pdf_write [])
    | _ => raise e
    end in
  match editable_elements with
  | VList l =>
      match as_objects l with
      | Some objects => generate_filled_pdf original_pdf_bytes objects
      | None => untyped AttributeError
      end
  | VStr _ | VDict _ => untyped AttributeError
  | _ => untyped TypeError
  end.

(** Steps 1 and 2 of [save_attachment], from the response of the download
    to the filled bytes; the renaming and the upload that follow are not
    modelled.  The exception a failed fill is wrapped in keeps the text
    ["PDF generation failed"] without the text of its cause. *)
Definition save_attachment (body : dict) (pdf_response : Response) : M World (list byte) :=
  let editable_elements := py_or (get body "editableElements") (VList []) in
  if negb (truthy editable_elements)
  then raise (HTTPException 400 "No form elements provided")
  else if negb (is_success pdf_response)
  then raise (HTTPException 500 "Failed to download original PDF")
  else
    let original_pdf_bytes := resp_content pdf_response in
    if bool_decide (original_pdf_bytes = [])
       || negb (bool_decide (take 4 original_pdf_bytes = PDF_MAGIC))
    then raise (HTTPException 500 "Downloaded file is not a valid PDF")
    else
      try_except
        (generate_filled_pdf_of original_pdf_bytes editable_elements)
        (λ e, raise (HTTPException 500 "PDF generation failed")).

End attachments.

(** ** [routers/backflow.py] and [services/excel_parser.py] *)

(** What the upload to ServiceTitan comes to: an exception anywhere in the
    [try], a response that is not a success, or a success with the [id] of
    its JSON body. *)
Inductive UploadOutcome : Type :=
  | UploadRaised (e : PyExc)
  | UploadRefused (status : Z)
  | UploadDone (id : PyVal).

Inductive BackflowLog : Type :=
  | TceqFillError (e : PyExc)
  | PdfUploaded (id : PyVal)
  | UploadFailed (status : Z)
  | UploadError (e : PyExc).

(** The module globals of the router, and what it reads from outside: the
    city table of [excel_parser], the template file [forms/TCEQ.pdf] when
    it is there, ServiceTitan's answer to an upload and the clock. *)
Record Backflow := mkBackflow {
  _devices : list dict;
  _test_records : list dict;
  _generated_pdfs : list dict;
  _pdf_counter : Z;
  _cities : gmap string dict;
  TCEQ_pdf : option (list byte);
  st_upload : PyVal → string → list byte → UploadOutcome;
  utcnow : string;
  bf_stdout : list BackflowLog
}.

Definition bf_print (l : BackflowLog) : M Backflow unit :=
  modify (λ w, mkBackflow (_devices w) (_test_records w) (_generated_pdfs w) (_pdf_counter w)
                          (_cities w) (TCEQ_pdf w) (st_upload w) (utcnow w)
                          (bf_stdout w ++ [l])).

(** [next(_pdf_counter)]. *)
Definition next_pdf_counter : M Backflow Z :=
  λ w, (inr (_pdf_counter w),
        mkBackflow (_devices w) (_test_records w) (_generated_pdfs w) (_pdf_counter w + 1)
                   (_cities w) (TCEQ_pdf w) (st_upload w) (utcnow w) (bf_stdout w)).

(** [_generated_pdfs.append(pdf_record)]. *)
Definition append_generated_pdf (pdf_record : dict) : M Backflow unit :=
  modify (λ w, mkBackflow (_devices w) (_test_records w) (_generated_pdfs w ++ [pdf_record])
                          (_pdf_counter w) (_cities w) (TCEQ_pdf w) (st_upload w) (utcnow w)
                          (bf_stdout w)).

Definition lower_ascii (a : ascii) : ascii :=
  let n := nat_of_ascii a in
  if andb (65 <=? n)%nat (n <=? 90)%nat then ascii_of_nat (n + 32) else a.

(** [s.lower()], within ASCII. *)
Fixpoint lower (s : string) : string :=
  match s with
  | EmptyString => EmptyString
  | String a s' => String (lower_ascii a) (lower s')
  end.

(** [letter] of [reportlab.lib.pagesizes]. *)
Definition letter : Q * Q := (612%Q, 792%Q).

(** The colour [HexColor("#1e3a8a")]. *)
Definition brand_blue : Color := mkColor 30 58 138.

(** [writer.update_page_form_field_values(page, values)]: every field of
    the page named in [values] takes its value; a name the page does not
    have changes nothing. *)
Definition update_page_form_field_values (page : Page) (values : gmap string PyVal) : Page :=
  mkPage (mediabox_width page) (mediabox_height page) (contents page)
         ((values ∩ fields page) ∪ fields page).

(** [d[k] = v] on a dict kept in insertion order. *)
Fixpoint setitem (k : string) (v : PyVal) (d : list (string * PyVal)) : list (string * PyVal) :=
  match d with
  | [] => [(k, v)]
  | (k', v') :: d' => if String.eqb k' k then (k, v) :: d' else (k', v') :: setitem k v d'
  end.

Definition type_checkbox_map : gmap string string :=
  list_to_map
    [("DC", "Check Box_2"); ("RPZ", "Check Box_2_1"); ("DCDA", "Check Box_2_4");
     ("RPDA", "Check Box_2_5"); ("PVB", "Check Box_2_7"); ("SVB", "Check Box_2_8");
     ("DCDA Type II", "Check Box_2_3"); ("RPDA Type II", "Check Box_2_6")].

Section backflow.
Context `{Libs}.

Definition py_num (v : PyVal) : option Q :=
  match v with
  | VBool b => Some (if b then 1%Q else 0%Q)
  | VInt n => Some (inject_Z n)
  | VFloat q => Some q
  | _ => None
  end.

(** [a == b]. *)
Definition py_eq (a b : PyVal) : bool :=
  match a, b with
  | VNone, VNone => true
  | VStr s, VStr t => String.eqb s t
  | VList _, VList _ | VDict _, VDict _ => compound_eq a b
  | _, _ =>
      match py_num a, py_num b with
      | Some x, Some y => Qeq_bool x y
      | _, _ => false
      end
  end.

(** The dict behind a value whose [get] is called; a value that is not a
    dict has no [get]. *)
Definition as_dict {W} (v : PyVal) : M W dict :=
  match v with
  | VDict d => ret d
  | _ => raise AttributeError
  end.

(** [excel_parser.get_city_info(city_code)]. *)
Definition get_city_info (city_code : PyVal) : M Backflow (option dict) :=
  if negb (truthy city_code) then ret None
  else match city_code with
       | VStr s => cities ← gets _cities; ret (cities !! lower s)
       | _ => raise AttributeError
       end.

(** [next((d for d in l if d["id"] == id), None)]. *)
Fixpoint find_by_id {W} (l : list dict) (id : PyVal) : M W (option dict) :=
  match l with
  | [] => ret None
  | d :: l' =>
      d_id ← or_raise KeyError (d !! "id");
      if py_eq d_id id then ret (Some d) else find_by_id l' id
  end.

(** [next((g for g in gauges if g.get("type") == gauge_type), {})] on a
    list. *)
Fixpoint find_gauge {W} (gauges : list PyVal) (gauge_type : PyVal) : M W PyVal :=
  match gauges with
  | [] => ret (VDict ∅)
  | g :: rest =>
      g_d ← as_dict g;
      if py_eq (get g_d "type") gauge_type then ret g else find_gauge rest gauge_type
  end.

(** The same on any value: a string or a dict that is not empty yields
    strings, which have no [get]; a number cannot be iterated. *)
Definition find_gauge_in {W} (gauges gauge_type : PyVal) : M W PyVal :=
  match gauges with
  | VList l => find_gauge l gauge_type
  | VStr _ | VDict _ => if truthy gauges then raise AttributeError else ret (VDict ∅)
  | _ => raise TypeError
  end.

(** [str(d.get(k, "") or "")]. *)
Definition str_or_blank (d : dict) (k : string) : PyVal :=
  VStr (py_str (py_or (get_d d k (VStr "")) (VStr ""))).

(** The dict [text_values] of [_fill_tceq_pdf] as it is first built. *)
Definition tceq_text_values (device test technician company city_info : dict)
    (customer_name service_address : PyVal) : gmap string PyVal :=
  let blank := VStr "" in
  list_to_map
    [ ("Text Field", get_d city_info "pwsName" blank);
      ("Text Field_1", get_d city_info "pwsId" blank);
      ("Text Field_2", get_d city_info "pwsAddress" blank);
      ("Text Field_3", get_d city_info "pwsContact" blank);
      ("Text Field_4", service_address);
      ("Text Field_5", customer_name);
      ("Text Field_6", get_d device "manufacturerMain" blank);
      ("Text Field_6_1_2", get_d device "modelMain" blank);
      ("Text Field_6_1_2_5", get_d device "sizeMain" blank);
      ("Text Field_6_1_2_5_1", get_d device "serialMain" blank);
      ("Text Field_6_1", get_d device "manufacturerBypass" blank);
      ("Text Field_6_1_2_1", get_d device "modelBypass" blank);
      ("Text Field_6_1_2_3", get_d device "serialBypass" blank);
      ("Text Field_6_1_1", get_d device "bpaLocation" blank);
      ("Text Field_6_1_2_2", get_d device "bpaServes" blank);
      ("Text Field_6_1_2_3_1", get_d device "sizeBypass" blank);
      ("Text Field_6_1_2_3_2", get_d test "oldSerial" blank);
      ("Text Field_6_1_2_4_1", get_d test "testDateInitial" blank);
      ("Text Field_6_1_2_4", get_d test "testTimeInitial" blank);
      ("Text Field_6_1_2_3_2_1", str_or_blank test "firstCheckReadingInitial");
      ("Text Field_6_1_2_3_2_1_1", str_or_blank test "secondCheckReadingInitial");
      ("Text Field_6_1_2_3_2_1_1_1", str_or_blank test "reliefValveReadingInitial");
      ("Text Field_6_1_2_3_2_1_1_2", str_or_blank test "typeIIBypassCheckReadingInitial");
      ("Text Field_6_1_2_3_2_1_1_2_1", str_or_blank test "airInletReadingInitial");
      ("Text Field_6_1_2_3_2_1_1_2_3", str_or_blank test "checkValveReadingInitial");
      ("Text Field_6_1_2_3_2_1_1_2_10_1_5", get_d test "repairsMain" blank);
      ("Text Field_6_1_2_3_2_1_1_2_10_1_5_1", get_d test "repairsBypass" blank);
      ("Text Field_6_1_2_3_2_1_1_2_4", str_or_blank test "firstCheckReadingAfterRepair");
      ("Text Field_6_1_2_3_2_1_1_2_5", str_or_blank test "secondCheckReadingAfterRepair");
      ("Text Field_6_1_2_3_2_1_1_2_6", str_or_blank test "reliefValveReadingAfterRepair");
      ("Text Field_6_1_2_3_2_1_1_2_7", str_or_blank test "typeIIBypassCheckReadingAfterRepair");
      ("Text Field_6_1_2_3_2_1_1_2_8", str_or_blank test "airInletReadingAfterRepair");
      ("Text Field_6_1_2_3_2_1_1_2_9", str_or_blank test "checkValveReadingAfterRepair");
      ("Text Field_6_1_2_4_1_1", get_d test "testDateAfterRepair" blank);
      ("Text Field_6_1_2_4_1_1_1", get_d test "testTimeAfterRepair" blank);
      ("Text Field_6_1_2_3_2_1_1_2_10", get_d company "name" blank);
      ("Text Field_6_1_2_3_2_1_1_2_10_1", get_d company "phone" blank);
      ("Text Field_6_1_2_3_2_1_1_2_10_1_1", get_d test "testDateInitial" blank);
      ("Text Field_6_1_2_3_2_1_1_2_10_1_5_2", get_d company "address" blank);
      ("Text Field_6_1_2_3_2_1_1_2_10_1_2", get_d technician "bpatLicenseNumber" blank);
      ("Text Field_6_1_2_3_2_1_1_2_10_1_3", get_d technician "licenseExpirationDate" blank);
      ("Text Field_6_1_2_3_2_1_1_2_10_1_4", get_d technician "name" blank) ].

(** [{k: v for k, v in text_values.items() if v}]. *)
Definition drop_blank (text_values : gmap string PyVal) : gmap string PyVal :=
  filter (λ kv, truthy kv.2 = true) text_values.

(** The first entry of the dict [check_values] of [_fill_tceq_pdf]: the
    checkbox of the device type.  A [typeMain] that is a list or a dict
    cannot be looked up in a dict. *)
Definition check_device_type {W} (device : dict) (check_values : list (string * PyVal))
  : M W (list (string * PyVal)) :=
  let device_type := get_d device "typeMain" (VStr "") in
  match device_type with
  | VStr s =>
      ret (match type_checkbox_map !! s with
           | Some box => setitem box (VBool true) check_values
           | None => check_values
           end)
  | VList _ | VDict _ => raise TypeError
  | _ => ret check_values
  end.

(** The entries that follow, from the answers of the test. *)
Definition check_test_answers (test : dict) (gauge_type : PyVal)
    (check_values : list (string * PyVal)) : list (string * PyVal) :=
  let reason := get_d test "reasonForTest" (VStr "Existing") in
  let check_values :=
    if py_eq_str reason "New" then setitem "Check Box" (VBool true) check_values
    else if py_eq_str reason "Existing" then setitem "Check Box_1" (VBool true) check_values
    else check_values in
  let check_values :=
    if py_eq_str (get test "installedPerCode") "Yes"
    then setitem "Check Box_2_27" (VBool true) check_values else check_values in
  let check_values :=
    if py_eq_str (get test "installedOnNonPotableAuxiliary") "Yes"
    then setitem "Check Box_2_28" (VBool true) check_values else check_values in
  let check_values :=
    if py_eq_str (get test "firstCheckClosedTightInitial") "Closed Tight"
    then setitem "Check Box_2_11" (VBool true) check_values
    else setitem "Check Box_2_12" (VBool true) check_values in
  let check_values :=
    if py_eq_str (get test "secondCheckClosedTightInitial") "Closed Tight"
    then setitem "Check Box_2_9" (VBool true) check_values
    else setitem "Check Box_2_10" (VBool true) check_values in
  let check_values :=
    if py_eq_str (get test "reliefValveDidNotOpenInitial") "Did not open"
    then setitem "Check Box_2_13" (VBool true) check_values else check_values in
  let check_values :=
    if py_eq_str (get test "airInletDidNotOpenInitial") "Yes"
    then setitem "Check Box_2_14" (VBool true) check_values else check_values in
  let check_values :=
    if py_eq_str (get test "checkValveLeakedInitial") "No"
    then setitem "Check Box_2_15" (VBool true) check_values else check_values in
  let check_values :=
    if py_eq_str (get test "firstCheckClosedTightAfterRepair") "Closed Tight"
    then setitem "Check Box_2_16" (VBool true) check_values
    else if py_eq_str (get test "firstCheckClosedTightAfterRepair") "Leaked"
    then setitem "Check Box_2_17" (VBool true) check_values
    else check_values in
  let check_values :=
    if py_eq_str (get test "secondCheckClosedTightAfterRepair") "Closed Tight"
    then setitem "Check Box_2_18" (VBool true) check_values
    else if py_eq_str (get test "secondCheckClosedTightAfterRepair") "Leaked"
    then setitem "Check Box_2_19" (VBool true) check_values
    else check_values in
  let check_values :=
    if py_eq_str (get test "typeIIBypassClosedTightAfterRepair") "Closed Tight"
    then setitem "Check Box_2_21" (VBool true) check_values else check_values in
  let check_values :=
    if py_eq_str gauge_type "Potable"
    then setitem "Check Box_2_32" (VBool true) check_values
    else setitem "Check Box_2_33" (VBool true) check_values in
  check_values.

(** The dict [check_values] of [_fill_tceq_pdf], in insertion order. *)
Definition tceq_check_values {W} (device test : dict) (gauge_type : PyVal)
  : M W (list (string * PyVal)) :=
  check_values ← check_device_type device [];
  ret (check_test_answers test gauge_type check_values).

(** The loop that applies the checkboxes: one update per checked name. *)
Definition apply_check_values (page : Page) (check_values : list (string * PyVal)) : Page :=
  foldl (λ page '(field_name, checked),
           if truthy checked
           then update_page_form_field_values page {[ field_name := VStr "/Yes" ]}
           else page)
        page check_values.

(** [_fill_tceq_pdf(device, test, technician, company, city_info,
    customer_name, service_address)]. *)
Definition _fill_tceq_pdf (device test : dict) (technician company : PyVal)
    (city_info : dict) (customer_name service_address : PyVal) : M Backflow (list byte) :=
  template ← gets TCEQ_pdf;
  template_bytes ← or_raise FileNotFoundError template;
  writer_pages ← or_raise PdfReadError (pdf_parse template_bytes);
  let gauge_type := get_d test "differentialPressureGaugeType" (VStr "Potable") in
  technician_d ← as_dict technician;
  gauge ← find_gauge_in (py_or (get technician_d "gauges") (VList [])) gauge_type;
  company_d ← as_dict company;
  let text_values :=
    tceq_text_values device test technician_d company_d city_info
                     customer_name service_address in
  let text_values := drop_blank text_values in
  match writer_pages with
  | [] => raise IndexError
  | page0 :: rest =>
      let page0 := update_page_form_field_values page0 text_values in
      check_values ← tceq_check_values device test gauge_type;
      let page0 := apply_check_values page0 check_values in
      ret (pdf_write (page0 :: rest))
  end.

(** The local state of [_generate_reference_pdf]: the canvas [c] and the
    [y] of the next line. *)
Record Sheet := mkSheet {
  sheet_c : Canvas;
  sheet_y : Q
}.

(** A call of the canvas [c]. *)
Definition sheet_canvas (f : Canvas → Canvas) : M Sheet unit :=
  modify (λ s, mkSheet (f (sheet_c s)) (sheet_y s)).

(** [c.drawString(x, y, text)]: reportlab draws a [str]; of any other
    value it calls [decode], which a number, a bool, a list or a dict does
    not have. *)
Definition sheet_drawString (x : Q) (text : PyVal) : M Sheet unit :=
  match text with
  | VStr _ => y ← gets sheet_y; sheet_canvas (Canvas_drawString x y text)
  | _ => raise AttributeError
  end.

(** [y -= d] and [y = v]. *)
Definition move_down (d : Q) : M Sheet unit :=
  modify (λ s, mkSheet (sheet_c s) (sheet_y s - d)%Q).

Definition set_y (v : Q) : M Sheet unit := modify (λ s, mkSheet (sheet_c s) v).

(** [draw_field(label, value)] of [_generate_reference_pdf]. *)
Definition draw_field (label : string) (value : PyVal) : M Sheet unit :=
  let h := snd letter in
  sheet_canvas (Canvas_setFont "Helvetica-Bold" 10%Q);;
  sheet_drawString 50%Q (VStr label);;
  sheet_canvas (Canvas_setFont "Helvetica" 10%Q);;
  sheet_drawString 250%Q (py_or value (VStr "N/A"));;
  move_down 20%Q;;
  y ← gets sheet_y;
  if Qltb y 50%Q then sheet_canvas Canvas_showPage;; set_y (h - 50)%Q else ret tt.

(** A section heading of the reference sheet: bold 12, in the brand
    colour, then back to black. *)
Definition draw_heading (title : string) : M Sheet unit :=
  sheet_canvas (Canvas_setFont "Helvetica-Bold" 12%Q);;
  sheet_canvas (Canvas_setFillColor brand_blue);;
  sheet_drawString 50%Q (VStr title);;
  move_down 20%Q;;
  sheet_canvas (Canvas_setFillColor black).

(** A reading of the reference sheet, drawn only when it is there. *)
Definition draw_reading (label : string) (test : dict) (k : string) : M Sheet unit :=
  if truthy (get test k)
  then draw_field label (VStr (py_str (get test k) +:+ " PSI"))
  else ret tt.

(** The statements of [_generate_reference_pdf] between the creation of
    the canvas and [c.save()]. *)
Definition reference_sheet (device test city_info : dict) (city_code : PyVal)
  : M Sheet unit :=
  sheet_canvas (Canvas_setFont "Helvetica-Bold" 14%Q);;
  sheet_canvas (Canvas_setFillColor brand_blue);;
  sheet_drawString 50%Q (VStr "Online Form Reference Sheet");;
  move_down 25%Q;;
  sheet_canvas (Canvas_setFont "Helvetica" 11%Q);;
  sheet_canvas (Canvas_setFillColor black);;
  sheet_drawString 50%Q
    (VStr ("City: " +:+ py_str city_code +:+ " | Device: "
           +:+ py_str (get_d device "serialMain" (VStr ""))));;
  move_down 30%Q;;
  draw_heading "PUBLIC WATER SUPPLIER INFORMATION";;
  draw_field "Public Water Supplier:" (py_or (get city_info "pwsName") city_code);;
  draw_field "PWS ID#:" (py_or (get city_info "pwsId") (VStr ""));;
  draw_field "PWS Address:" (py_or (get city_info "pwsAddress") (VStr ""));;
  draw_field "PWS Contact:" (py_or (get city_info "pwsContact") (VStr ""));;
  move_down 10%Q;;
  draw_heading "DEVICE INFORMATION";;
  draw_field "Type:" (py_or (get device "typeMain") (VStr ""));;
  draw_field "Manufacturer:" (py_or (get device "manufacturerMain") (VStr ""));;
  draw_field "Model:" (py_or (get device "modelMain") (VStr ""));;
  draw_field "Serial Number:" (py_or (get device "serialMain") (VStr ""));;
  draw_field "Size:" (py_or (get device "sizeMain") (VStr ""));;
  move_down 10%Q;;
  draw_heading "TEST INFORMATION";;
  draw_field "Test Date:" (py_or (get test "testDateInitial") (VStr ""));;
  draw_field "Test Time:" (py_or (get test "testTimeInitial") (VStr ""));;
  draw_field "Result:" (py_or (get test "testResult") (VStr "Not Tested"));;
  draw_reading "1st Check Reading:" test "firstCheckReadingInitial";;
  draw_reading "2nd Check Reading:" test "secondCheckReadingInitial";;
  draw_reading "Relief Valve Reading:" test "reliefValveReadingInitial".

(** [_generate_reference_pdf(device, test, city_info, city_code)]: the
    bytes of the saved canvas, or the exception of a [drawString]. *)
Definition _generate_reference_pdf (device test city_info : dict) (city_code : PyVal)
  : PyExc + list byte :=
  let h := snd letter in
  match reference_sheet device test city_info city_code
          (mkSheet (Canvas_new letter) (h - 50)%Q) with
  | (inl e, _) => inl e
  | (inr _, s) => inr (canvas_getvalue letter (Canvas_save (sheet_c s)))
  end.

(** The [try] statement of [generate_pdf], lines 557 to 561: the filled
    form, or the reference sheet when filling raises.  The handler is not
    in a [try] of its own. *)
Definition tceq_or_reference (device test : dict) (technician company : PyVal)
    (city_info : dict) (customer_name service_address city_code : PyVal)
  : M Backflow (list byte) :=
  try_except
    (_fill_tceq_pdf device test technician company city_info customer_name service_address)
    (λ e,
       bf_print (TceqFillError e);;
       lift (_generate_reference_pdf device test city_info city_code)).

(** What the upload prints: one line in each of its three outcomes. *)
Definition upload_log (outcome : UploadOutcome) : BackflowLog :=
  match outcome with
  | UploadDone id => PdfUploaded id
  | UploadRefused status => UploadFailed status
  | UploadRaised e => UploadError e
  end.

(** [generate_pdf(body)], the handler of [/api/backflow-pdfs/generate]. *)
Definition generate_pdf (body : dict) : M Backflow dict :=
  let device_id := get body "deviceId" in
  let test_record_id := get body "testRecordId" in
  let job_id := get body "jobId" in
  let city_code := get_d body "cityCode" (VStr "") in
  let technician := py_or (get body "technician") (VDict ∅) in
  let company := py_or (get body "company") (VDict ∅) in
  let customer_name := get_d body "customerName" (VStr "") in
  let service_address := get_d body "serviceAddress" (VStr "") in
  devices ← gets _devices;
  device ← find_by_id devices device_id;
  test_records ← gets _test_records;
  test ← find_by_id test_records test_record_id;
  match device, test with
  | Some device, Some test =>
      if negb (truthy (VDict device)) || negb (truthy (VDict test))
      then raise (HTTPException 404 "Device or test not found")
      else
        found ← get_city_info city_code;
        let city_info :=
          match found with
          | Some d => if truthy (VDict d) then d else ∅
          | None => ∅
          end in
        pdf_bytes ← tceq_or_reference device test technician company city_info
                                      customer_name service_address city_code;
        let serial := get_d device "serialMain" (VStr "unknown") in
        let date := get_d test "testDateInitial" (VStr "unknown") in
        let file_name := "TCEQ_" +:+ py_str serial +:+ "_" +:+ py_str date +:+ ".pdf" in
        upload ← gets st_upload;
        let outcome := upload job_id file_name pdf_bytes in
        bf_print (upload_log outcome);;
        let st_attachment_id := match outcome with UploadDone id => id | _ => VNone end in
        n ← next_pdf_counter;
        now ← gets utcnow;
        let pdf_record : dict :=
          list_to_map
            [("id", VStr ("pdf-" +:+ pretty n));
             ("deviceId", device_id);
             ("testRecordId", test_record_id);
             ("jobId", job_id);
             ("fileName", VStr file_name);
             ("cityCode", city_code);
             ("serviceTitanAttachmentId", st_attachment_id);
             ("createdAt", VStr now)] in
        append_generated_pdf pdf_record;;
        ret (list_to_map [("success", VBool true); ("data", VDict pdf_record)])
  | _, _ => raise (HTTPException 404 "Device or test not found")
  end.

End backflow.

(** ** What the renderer is observed to do *)

(** Where an operation is drawn, and in what colour a string is. *)
Definition op_y (op : DrawOp) : Q :=
  match op with
  | DrawString _ y _ _ _ _ => y
  | DrawImage _ y _ _ _ => y
  end.

Definition op_fill (op : DrawOp) : option Color :=
  match op with
  | DrawString _ _ _ _ _ fill => Some fill
  | DrawImage _ _ _ _ _ => None
  end.

(** An operation placed from the anchor [pdf_y]: an image at the anchor,
    a string some whole number of lines of its font size below it. *)
Definition anchored_at (pdf_y : Q) (op : DrawOp) : Prop :=
  match op with
  | DrawString _ y _ _ size _ => ∃ i : Z, 0 ≤ i ∧ (y == pdf_y - inject_Z i * size)%Q
  | DrawImage _ y _ _ _ => (y == pdf_y)%Q
  end.

(** The strings [_draw_text] draws for the numbered lines of a text. *)
Definition line_ops (x pdf_y font_size : Q) (color : Color) (lines : list (Z * string))
  : list DrawOp :=
  flat_map (λ '(i, line),
              if negb (String.eqb (strip line) "")
              then [DrawString x (pdf_y - inject_Z i * font_size)%Q (VStr (strip line))
                               "Helvetica" font_size color]
              else [])
           lines.

(** The colour [_draw_text] fills with. *)
Definition text_color (color_str : string) : Color := default black (HexColor color_str).

(** The canvas after [_draw_text] has drawn [ops] in [color] at [font_size]. *)
Definition Canvas_after_text (color : Color) (font_size : Q) (ops : list DrawOp) (c : Canvas)
  : Canvas :=
  mkCanvas (pagesize c) color "Helvetica" font_size (code c ++ ops) (shown c).

Section observed.
Context `{Libs}.

(** [_draw_text] draws nothing for a content that is falsy or blank. *)
Definition text_skipped (content : PyVal) : bool :=
  negb (truthy content) || String.eqb (strip (py_str content)) "".

(** The fields of an element as lines 47 to 58 read them. *)
Record ElementFields := mkElementFields {
  ef_x : Q;
  ef_y : Q;
  ef_width : Q;
  ef_height : Q;
  ef_font_size : Q;
  ef_color_str : string
}.

Definition element_fields (element : dict) : PyExc + ElementFields :=
  fst ((x ← py_float (py_or (get element "x") (VInt 0));
        y ← py_float (py_or (get element "y") (VInt 0));
        width ← py_float (py_or (get element "width") (VInt 100));
        height ← py_float (py_or (get element "height") (VInt 20));
        font_size ← py_float (py_or (get element "fontSize") (VInt 11));
        color_str ← element_color_str element;
        ret (mkElementFields x y width height font_size color_str)) tt).

(** The anchor of an element whose fields are [f]. *)
Definition element_pdf_y (page_height : Q) (f : ElementFields) : Q :=
  pdf_y_of page_height (ef_y f) (ef_height f).

(** Lines 63 to 77: the element is placed according to its type. *)
Definition place_element (element : dict) (f : ElementFields) (page_height page_width : Q)
  : M World unit :=
  let el_type := get_d element "type" (VStr "") in
  let content := get_d element "content" (VStr "") in
  let pdf_y := element_pdf_y page_height f in
  if py_eq_str el_type "text" || py_eq_str el_type "date" || py_eq_str el_type "timestamp"
  then _draw_text content (ef_x f) pdf_y (ef_font_size f) (ef_color_str f)
  else if py_eq_str el_type "checkbox"
  then
    if is_checked content
    then _draw_text (VStr "X") (ef_x f) pdf_y (ef_font_size f) (ef_color_str f)
    else ret tt
  else if py_eq_str el_type "signature"
  then
    match content with
    | VStr s =>
        if truthy content && isinstance_str content && startswith s "data:image/"
        then _draw_signature s (ef_x f) pdf_y (ef_width f) (ef_height f) page_width
        else ret tt
    | _ => ret tt
    end
  else ret tt.

(** The mark of a checked box whose fields are [f]. *)
Definition checkbox_mark (page_height : Q) (f : ElementFields) : DrawOp :=
  DrawString (ef_x f) (element_pdf_y page_height f - inject_Z 0 * ef_font_size f)%Q
             (VStr "X") "Helvetica" (ef_font_size f) (text_color (ef_color_str f)).

End observed.

(** Each page of the output is the page of the source at the same place:
    same size, same form fields, and the content it had, with at most
    overlays after it. *)
Definition page_kept (src out : Page) : Prop :=
  mediabox_width out = mediabox_width src
  ∧ mediabox_height out = mediabox_height src
  ∧ fields out = fields src
  ∧ ∃ overlays, contents out = contents src ++ map OverlayContent overlays.

(** ** An instance of the libraries, for the examples *)

(** Decimal digits read as a number; anything else is refused. *)
Fixpoint digits_value (acc : Z) (s : string) : option Z :=
  match s with
  | EmptyString => Some acc
  | String a s' =>
      let n := Z.of_nat (nat_of_ascii a) in
      if (48 <=? n) && (n <=? 57) then digits_value (10 * acc + (n - 48)) s' else None
  end.

Definition example_float_of_str (s : string) : option Q :=
  match strip s with
  | EmptyString => None
  | s' => option_map inject_Z (digits_value 0 s')
  end.

Definition example_fields : gmap string PyVal :=
  list_to_map [("Text Field_6_1_2", VStr "MODEL"); ("Text Field_4", VStr "ADDRESS");
               ("Check Box_2_32", VStr "/Off")].

(** A document is one letter page when the bytes start with the magic. *)
Definition example_pdf_parse (b : list byte) : option (list Page) :=
  if bool_decide (take 4 b = PDF_MAGIC)
  then Some [mkPage 612%Q 792%Q [SourceContent b] example_fields]
  else None.

(** An image is two bytes of size, width then height, and its data. *)
Definition example_Image_open (b : list byte) : option Image :=
  match b with
  | w :: h :: rest => Some (mkImage (Z.of_N (Byte.to_N w)) (Z.of_N (Byte.to_N h)) rest)
  | _ => None
  end.

Definition example_libs : Libs := {|
  pdf_parse := example_pdf_parse;
  pdf_write := λ _, PDF_MAGIC;
  float_of_str := example_float_of_str;
  repr := λ _, "?";
  b64decode := λ s, Some (list_byte_of_string s);
  Image_open := example_Image_open;
  Image_save_png := λ img, Some (img_data img);
  compound_eq := λ _ _, false;
  canvas_getvalue := λ _ _, PDF_MAGIC
|}.

(** The world before anything is printed or drawn. *)
Definition World_init : World := mkWorld [] (Canvas_new (0%Q, 0%Q)).

(** The text element of the test [test_text_field_renders]. *)
Definition hello_element : dict :=
  list_to_map
    [("type", VStr "text"); ("page", VInt 1); ("x", VInt 100); ("y", VInt 100);
     ("width", VInt 200); ("height", VInt 20); ("content", VStr "Hello World");
     ("fontSize", VInt 12); ("color", VStr "#000000")].

(** The types drawn as text. *)
Definition is_text_type (element : dict) : bool :=
  let el_type := get_d element "type" (VStr "") in
  py_eq_str el_type "text" || py_eq_str el_type "date" || py_eq_str el_type "timestamp".

(** An operation of an element placed from [pdf_y]: the lines of a text
    stack downward from it, a checkbox mark and a signature image are at
    it. *)
Definition placed_from (element : dict) (pdf_y : Q) (op : DrawOp) : Prop :=
  if is_text_type element then anchored_at pdf_y op else (op_y op == pdf_y)%Q.

(** A string drawn in [color]; an image has no fill colour. *)
Definition filled_with (color : Color) (op : DrawOp) : Prop :=
  match op_fill op with
  | Some c => c = color
  | None => True
  end.

(** The colour string of line 56 to 58 for a colour given as [s]. *)
Definition hashed (s : string) : string :=
  if negb (startswith s "#") then "#" +:+ s else s.

(** A checked box of height 0 at [y = 100]. *)
Definition zero_height_checkbox : dict :=
  list_to_map
    [("type", VStr "checkbox"); ("page", VInt 1); ("x", VInt 50); ("y", VInt 100);
     ("width", VInt 20); ("height", VInt 0); ("content", VBool true);
     ("fontSize", VInt 12); ("color", VStr "#000000")].

(** A checked box whose [x] is not a number. *)
Definition unreadable_checkbox : dict :=
  list_to_map
    [("type", VStr "checkbox"); ("page", VInt 1); ("x", VStr "abc"); ("y", VInt 100);
     ("width", VInt 20); ("height", VInt 20); ("content", VBool true);
     ("fontSize", VInt 12); ("color", VStr "#000000")].

(** The text of [hello_element] in a colour that is not hexadecimal. *)
Definition malformed_color_element : dict := <["color" := VStr "#zzzzzz"]> hello_element.

(** The same text with no colour at all, and with no page. *)
Definition no_color_element : dict := delete "color" hello_element.
Definition no_page_element : dict := delete "page" hello_element.

(** ** What the named-field filler is observed to do *)

(** The names of the two kinds of field of the TCEQ form. *)
Definition check_name (k : string) : Prop := String.prefix "Check" k = true.
Definition text_name (k : string) : Prop := String.prefix "Text" k = true.

(** A computation that leaves the state as it found it. *)
Definition stateless {W A} (m : M W A) : Prop := ∀ w, (m w).2 = w.

(** ** Inputs of the examples *)

(** Bytes that [example_libs] reads as a document, and bytes it does not. *)
Definition example_pdf : list byte := list_byte_of_string "%PDF-1.4".
Definition not_a_pdf : list byte := list_byte_of_string "<html>".

Definition example_pages : list Page :=
  [mkPage 612%Q 792%Q [SourceContent example_pdf] example_fields].

(** A signature whose image [example_libs] reads as 20 by 10 pixels. *)
Definition example_signature : string :=
  "data:image/png;base64," +:+ String (ascii_of_nat 20) (String (ascii_of_nat 10) "").

Definition example_image : Image := mkImage 20 10 [].

Definition example_device : dict :=
  list_to_map [("id", VStr "device-1"); ("typeMain", VStr "RPZ"); ("serialMain", VStr "A1")].

Definition example_test : dict :=
  list_to_map [("id", VStr "test-1"); ("testDateInitial", VStr "2026-02-26")].

(** The router with one device and one test record, and the template
    file given. *)
Definition example_backflow (template : option (list byte)) : Backflow :=
  mkBackflow [example_device] [example_test] [] 1 ∅ template
             (λ _ _ _, UploadDone (VInt 7)) "2026-02-26T00:00:00+00:00" [].

Definition example_body : dict :=
  list_to_map [("deviceId", VStr "device-1"); ("testRecordId", VStr "test-1");
               ("jobId", VInt 5)].

Definition example_save_body : dict :=
  list_to_map [("editableElements", VList [VDict hello_element])].

(** The text of [hello_element] made of white space only, and made of two
    lines with a blank line between them. *)
Definition blank_element : dict := <["content" := VStr "   "]> hello_element.

Definition two_lines : string := "a" +:+ String newline (String newline "b").

(** A signature that is a name, not an image. *)
Definition typed_signature : dict :=
  list_to_map
    [("type", VStr "signature"); ("page", VInt 1); ("x", VInt 100); ("y", VInt 200);
     ("width", VInt 150); ("height", VInt 50); ("content", VStr "John Doe")].

(** The text of [hello_element] on page 5. *)
Definition off_page_element : dict := <["page" := VInt 5]> hello_element.

(** The fields of [hello_element] as they are read. *)
Definition hello_fields : ElementFields :=
  mkElementFields 100%Q 100%Q 200%Q 20%Q 12%Q "#000000".

(** The checkboxes of [example_device] and [example_test] with a potable
    gauge, in the order the code sets them. *)
Definition example_check_values : list (string * PyVal) :=
  [("Check Box_2_1", VBool true); ("Check Box_1", VBool true);
   ("Check Box_2_12", VBool true); ("Check Box_2_10", VBool true);
   ("Check Box_2_32", VBool true)].

(** ** What the reference sheet is observed to draw *)

Section reference_observed.
Context `{Libs}.

(** A value [draw_field] can draw: a string, or a falsy value, in whose
    place it draws ["N/A"]. *)
Definition drawable (value : PyVal) : bool := isinstance_str (py_or value (VStr "N/A")).

(** The values [_generate_reference_pdf] hands to [draw_field], apart
    from the readings, which it formats itself. *)
Definition reference_values (device test city_info : dict) (city_code : PyVal)
  : list PyVal :=
  [py_or (get city_info "pwsName") city_code;
   py_or (get city_info "pwsId") (VStr "");
   py_or (get city_info "pwsAddress") (VStr "");
   py_or (get city_info "pwsContact") (VStr "");
   py_or (get device "typeMain") (VStr "");
   py_or (get device "manufacturerMain") (VStr "");
   py_or (get device "modelMain") (VStr "");
   py_or (get device "serialMain") (VStr "");
   py_or (get device "sizeMain") (VStr "");
   py_or (get test "testDateInitial") (VStr "");
   py_or (get test "testTimeInitial") (VStr "");
   py_or (get test "testResult") (VStr "Not Tested")].

(** A line of the sheet: the label in bold at 50, the value at 250. *)
Definition field_ops (y : Q) (label : string) (value : PyVal) : list DrawOp :=
  [DrawString 50%Q y (VStr label) "Helvetica-Bold" 10%Q black;
   DrawString 250%Q y (py_or value (VStr "N/A")) "Helvetica" 10%Q black].

Definition heading_op (y : Q) (title : string) : DrawOp :=
  DrawString 50%Q y (VStr title) "Helvetica-Bold" 12%Q brand_blue.

(** The readings of the test that are there, with their labels. *)
Definition readings_of (test : dict) : list (string * PyVal) :=
  omap (λ '(label, k),
          if truthy (get test k)
          then Some (label, VStr (py_str (get test k) +:+ " PSI"))
          else None)
       [("1st Check Reading:", "firstCheckReadingInitial");
        ("2nd Check Reading:", "secondCheckReadingInitial");
        ("Relief Valve Reading:", "reliefValveReadingInitial")].

(** The page of the reference sheet: the title at 742, the line of the
    city and the device at 717, then three sections whose lines are 20
    apart, and the readings that are there from 367 down. *)
Definition reference_sheet_ops (device test city_info : dict) (city_code : PyVal)
  : list DrawOp :=
  [DrawString 50%Q 742%Q (VStr "Online Form Reference Sheet") "Helvetica-Bold" 14%Q
              brand_blue;
   DrawString 50%Q 717%Q
              (VStr ("City: " +:+ py_str city_code +:+ " | Device: "
                     +:+ py_str (get_d device "serialMain" (VStr ""))))
              "Helvetica" 11%Q black;
   heading_op 687%Q "PUBLIC WATER SUPPLIER INFORMATION"]
  ++ field_ops 667%Q "Public Water Supplier:" (py_or (get city_info "pwsName") city_code)
  ++ field_ops 647%Q "PWS ID#:" (py_or (get city_info "pwsId") (VStr ""))
  ++ field_ops 627%Q "PWS Address:" (py_or (get city_info "pwsAddress") (VStr ""))
  ++ field_ops 607%Q "PWS Contact:" (py_or (get city_info "pwsContact") (VStr ""))
  ++ [heading_op 577%Q "DEVICE INFORMATION"]
  ++ field_ops 557%Q "Type:" (py_or (get device "typeMain") (VStr ""))
  ++ field_ops 537%Q "Manufacturer:" (py_or (get device "manufacturerMain") (VStr ""))
  ++ field_ops 517%Q "Model:" (py_or (get device "modelMain") (VStr ""))
  ++ field_ops 497%Q "Serial Number:" (py_or (get device "serialMain") (VStr ""))
  ++ field_ops 477%Q "Size:" (py_or (get device "sizeMain") (VStr ""))
  ++ [heading_op 447%Q "TEST INFORMATION"]
  ++ field_ops 427%Q "Test Date:" (py_or (get test "testDateInitial") (VStr ""))
  ++ field_ops 407%Q "Test Time:" (py_or (get test "testTimeInitial") (VStr ""))
  ++ field_ops 387%Q "Result:" (py_or (get test "testResult") (VStr "Not Tested"))
  ++ flat_map (λ '(i, (label, value)), field_ops (367 - 20 * inject_Z i)%Q label value)
              (enumerate 0 (readings_of test)).

End reference_observed.

(** Every value that the reference sheet would draw for a stored device
    and test record, and for a city that is known or not, is a string or
    falsy. *)
Definition sheet_values_drawable `{Libs} (w : Backflow) (city_code : PyVal) : Prop :=
  ∀ device test city_info,
    device ∈ _devices w → test ∈ _test_records w →
    city_info = ∅ ∨ (∃ k, _cities w !! k = Some city_info) →
    forallb drawable (reference_values device test city_info city_code) = true.

(** A string of the reference sheet: in the column of the labels or in
    the column of the values, between the first line at 742 and the last
    line a sheet can have, at 327. *)
Definition on_sheet (op : DrawOp) : Prop :=
  match op with
  | DrawString x y _ _ _ _ => (x = 50%Q ∨ x = 250%Q) ∧ (327 <= y)%Q ∧ (y <= 742)%Q
  | DrawImage _ _ _ _ _ => False
  end.

(** ** The device routes *)

Section backflow_devices.
Context `{Libs}.

(** [next((i for i, d in enumerate(l) if d["id"] == id), -1)], with
    [None] for -1. *)
Fixpoint find_index_by_id {W} (l : list dict) (id : PyVal) : M W (option nat) :=
  match l with
  | [] => ret None
  | d :: l' =>
      d_id ← or_raise KeyError (d !! "id");
      if py_eq d_id id then ret (Some 0%nat)
      else idx ← find_index_by_id l' id; ret (S <$> idx)
  end.

(** [_devices[idx] = device]. *)
Definition set_device (idx : nat) (device : dict) : M Backflow unit :=
  modify (λ w, mkBackflow (<[idx := device]> (_devices w)) (_test_records w)
                          (_generated_pdfs w) (_pdf_counter w) (_cities w) (TCEQ_pdf w)
                          (st_upload w) (utcnow w) (bf_stdout w)).

(** [update_device(device_id, body)], the handler of
    [PUT /api/backflow-devices/{device_id}]. *)
Definition update_device (device_id : string) (body : dict) : M Backflow dict :=
  devices ← gets _devices;
  idx ← find_index_by_id devices (VStr device_id);
  match idx with
  | None => raise (HTTPException 404 "Device not found")
  | Some idx =>
      old ← or_raise IndexError (devices !! idx);
      now ← gets utcnow;
      let device : dict := <["updatedAt" := VStr now]> (body ∪ old) in
      set_device idx device;;
      ret (list_to_map [("success", VBool true); ("data", VDict device)])
  end.

End backflow_devices.

(** Every stored dict has an [id]. *)
Definition have_ids (l : list dict) : Prop := Forall (λ d, is_Some (d !! "id")) l.

(** ** What an element adds to a page *)

Section element_observed.
Context `{Libs}.

(** What the [try] statement of the loop draws for an element on a fresh
    canvas of the size of the page. *)
Definition element_ops (page_height page_width : Q) (element : dict) : list DrawOp :=
  code (canvas (guarded_element page_height page_width element
                  (mkWorld [] (Canvas_new (page_width, page_height)))).2).

(** What the elements selected for a page draw, in their order. *)
Definition page_ops (objects : list dict) (page_num : Z) (page : Page) : list DrawOp :=
  flat_map (element_ops (mediabox_height page) (mediabox_width page))
           (page_elements_of objects page_num).

End element_observed.

(** A signature box 150 wide and 50 high at [x = 100], [y = 200], with
    the image of [example_signature]. *)
Definition example_signature_element : dict :=
  list_to_map
    [("type", VStr "signature"); ("page", VInt 1); ("x", VInt 100); ("y", VInt 200);
     ("width", VInt 150); ("height", VInt 50); ("content", VStr example_signature)].

(** The device of the examples with a number for its type, and the router
    that stores it, with no template file. *)
Definition numeric_type_device : dict := <["typeMain" := VInt 5]> example_device.

Definition numeric_type_backflow : Backflow :=
  mkBackflow [numeric_type_device] [example_test] [] 1 ∅ None
             (λ _ _ _, UploadDone (VInt 7)) "2026-02-26T00:00:00+00:00" [].

(** * Properties *)

Ltac unfold_monad :=
  unfold mbind, M_bind, mret, M_ret, bind, ret, raise, or_raise, try_except,
         modify, gets, lift in *.

Section monad_facts.
Context {W : Type}.

Lemma bind_inr {A B} (m : M W A) (k : A → M W B) w a w' :
  m w = (inr a, w') → bind m k w = k a w'.
Proof. unfold bind. by intros ->. Qed.

Lemma bind_inl {A B} (m : M W A) (k : A → M W B) w e w' :
  m w = (inl e, w') → bind m k w = (inl e, w').
Proof. unfold bind. by intros ->. Qed.

(** A loop whose body never raises runs through an appended list. *)
Lemma for_each_app {A} (body : A → M W unit) (l1 l2 : list A) w :
  (∀ a w0, ∃ w1, body a w0 = (inr tt, w1)) →
  for_each (l1 ++ l2) body w = for_each l2 body (for_each l1 body w).2.
Proof.
  intros Hbody. revert w. induction l1 as [|a l1 IH]; intros w; simpl; [done|].
  destruct (Hbody a w) as [w1 Hw1]. unfold bind. rewrite Hw1. apply IH.
Qed.

Lemma for_each_total {A} (body : A → M W unit) (l : list A) w :
  (∀ a w0, ∃ w1, body a w0 = (inr tt, w1)) →
  ∃ w', for_each l body w = (inr tt, w').
Proof.
  intros Hbody. revert w. induction l as [|a l IH]; intros w; simpl.
  - by exists w.
  - destruct (Hbody a w) as [w1 Hw1]. unfold bind. rewrite Hw1. apply IH.
Qed.

End monad_facts.

Section pdf_service_facts.
Context `{Libs}.

(** Reading a number touches no state. *)
Lemma py_float_pure {W} (v : PyVal) (w : W) :
  py_float v w = ((py_float v tt).1, w).
Proof.
  destruct v as [| [] | | | s | |]; try reflexivity.
  unfold py_float, or_raise. by destruct (float_of_str s).
Qed.

Lemma element_color_str_pure {W} (element : dict) (w : W) :
  element_color_str element w = ((element_color_str element tt).1, w).
Proof.
  unfold element_color_str. by destruct (py_or _ _).
Qed.

(** An element is read, then placed; when reading raises nothing has
    changed. *)
Lemma render_element_read_place (element : dict) (page_height page_width : Q) (w : World) :
  render_element element page_height page_width w =
  match element_fields element with
  | inl e => (inl e, w)
  | inr f => place_element element f page_height page_width w
  end.
Proof.
  unfold render_element, element_fields, place_element, element_pdf_y.
  unfold mbind, M_bind, bind.
  repeat (rewrite (py_float_pure _ w), (py_float_pure _ tt);
          destruct (py_float _ tt).1 as [?|?]; simpl; [reflexivity|]).
  rewrite (element_color_str_pure _ w), (element_color_str_pure _ tt).
  destruct (element_color_str _ tt).1 as [?|?]; simpl; reflexivity.
Qed.


(** The loop of [_draw_text] on a canvas whose colour and font are set. *)
Lemma draw_text_loop (x pdf_y fs : Q) (color : Color) (lines : list (Z * string))
    out ps ops sh :
  for_each lines
    (λ '(i, line),
       if negb (String.eqb (strip line) "")
       then drawString x (pdf_y - inject_Z i * fs)%Q (strip line)
       else ret tt)
    (mkWorld out (mkCanvas ps color "Helvetica" fs ops sh))
  = (inr tt, mkWorld out (mkCanvas ps color "Helvetica" fs
                                   (ops ++ line_ops x pdf_y fs color lines) sh)).
Proof.
  revert ops. induction lines as [|[i line] lines IH]; intros ops; simpl.
  - by rewrite app_nil_r.
  - unfold bind. destruct (negb (String.eqb (strip line) "")); simpl.
    + unfold Canvas_drawString, Canvas_emit; simpl.
      rewrite IH. by rewrite <- app_assoc.
    + apply IH.
Qed.

(** [_draw_text] never raises; it draws the lines of the text, in the
    colour of [text_color], unless the content is skipped. *)
Lemma draw_text_run (content : PyVal) (x pdf_y fs : Q) (color_str : string) (w : World) :
  _draw_text content x pdf_y fs color_str w =
  (inr tt,
   if text_skipped content then w
   else mkWorld (stdout w)
          (Canvas_after_text (text_color color_str) fs
             (line_ops x pdf_y fs (text_color color_str)
                       (enumerate 0 (split_on newline (py_str content))))
             (canvas w))).
Proof.
  unfold _draw_text, text_skipped.
  destruct (negb (truthy content) || String.eqb (strip (py_str content)) ""); [done|].
  destruct w as [out [ps fill fname fsize ops sh]].
  unfold mbind, M_bind, bind, try_except, or_raise, text_color.
  destruct (HexColor color_str) as [color|]; simpl; apply draw_text_loop.
Qed.

(** The size computation touches no state. *)
Lemma py_div_pure {W} (a b : Q) (w : W) : py_div a b w = ((py_div a b tt).1, w).
Proof. unfold py_div. by destruct (Qeq_bool b 0). Qed.

Lemma draw_signature_size_pure {W} img_w img_h x width height page_width (w : W) :
  _draw_signature_size img_w img_h x width height page_width w =
  ((_draw_signature_size img_w img_h x width height page_width tt).1, w).
Proof.
  unfold _draw_signature_size, mbind, M_bind, bind.
  rewrite (py_div_pure _ _ w), (py_div_pure _ _ tt).
  destruct (py_div _ _ tt).1 as [?|ratio]; simpl; [done|].
  destruct (Qltb 0 (py_min height 60)); simpl.
  - rewrite (py_div_pure _ _ w), (py_div_pure _ _ tt).
    destruct (py_div _ _ tt).1 as [?|h]; simpl; [done|].
    destruct (Qltb (py_min height 60) h); simpl; [done|].
    destruct (Qltb 0 ratio); simpl; [|done].
    rewrite (py_div_pure _ _ w), (py_div_pure _ _ tt).
    by destruct (py_div _ _ tt).1.
  - destruct (Qltb 0 ratio); simpl; [|done].
    rewrite (py_div_pure _ _ w), (py_div_pure _ _ tt).
    by destruct (py_div _ _ tt).1.
Qed.

(** [_draw_signature] never raises: it draws one image at the anchor, or
    prints why it did not. *)
Lemma draw_signature_run (content : string) (x pdf_y width height page_width : Q) (w : World) :
  (∃ dw dh png,
     _draw_signature content x pdf_y width height page_width w =
     (inr tt, mkWorld (stdout w) (Canvas_drawImage x pdf_y dw dh png (canvas w))))
  ∨ (∃ e,
     _draw_signature content x pdf_y width height page_width w =
     (inr tt, mkWorld (stdout w ++ [SignatureRenderError e]) (canvas w))).
Proof.
  unfold _draw_signature, try_except, mbind, M_bind, bind, or_raise.
  destruct (b64decode _) as [img_bytes|]; simpl; [|right; by eexists].
  destruct (Image_open img_bytes) as [img|]; simpl; [|right; by eexists].
  rewrite draw_signature_size_pure.
  destruct (_draw_signature_size _ _ _ _ _ _ tt).1 as [e|[dw dh]]; simpl;
    [right; by eexists|].
  destruct (Image_save_png img) as [png|]; simpl; [|right; by eexists].
  left. by exists dw, dh, png.
Qed.


(** Placing an element never raises. *)
Lemma place_element_total (element : dict) (f : ElementFields) ph pw (w : World) :
  ∃ w', place_element element f ph pw w = (inr tt, w').
Proof.
  unfold place_element.
  destruct (_ || _ || _); [rewrite draw_text_run; by eexists|].
  destruct (py_eq_str _ "checkbox").
  { destruct (is_checked _); [rewrite draw_text_run|]; by eexists. }
  destruct (py_eq_str _ "signature"); [|by eexists].
  destruct (get_d element "content" (VStr "")) as [| | | |s| |]; try by eexists.
  destruct (_ && _ && _); [|by eexists].
  destruct (draw_signature_run s (ef_x f) (element_pdf_y ph f) (ef_width f) (ef_height f) pw w)
    as [(dw & dh & png & ->)|(e & ->)]; by eexists.
Qed.

(** The exception of an element is the one raised while reading it. *)
Lemma render_element_raises (element : dict) ph pw (w : World) (e : PyExc) :
  (render_element element ph pw w).1 = inl e ↔ element_fields element = inl e.
Proof.
  rewrite render_element_read_place.
  destruct (element_fields element) as [e'|f]; simpl; [split; congruence|].
  destruct (place_element_total element f ph pw w) as [w' ->]. simpl. split; discriminate.
Qed.

(** An element that cannot be read is reported and leaves the canvas as
    it was. *)
Lemma guarded_element_raises (element : dict) ph pw (w : World) (e : PyExc) :
  element_fields element = inl e →
  guarded_element ph pw element w =
  (inr tt, mkWorld (stdout w ++ [ElementRenderError (get element "type") e]) (canvas w)).
Proof.
  intros Hf. unfold guarded_element, try_except.
  by rewrite render_element_read_place, Hf.
Qed.

Lemma guarded_element_reads (element : dict) ph pw (w : World) (f : ElementFields) :
  element_fields element = inr f →
  guarded_element ph pw element w = place_element element f ph pw w.
Proof.
  intros Hf. unfold guarded_element, try_except.
  rewrite render_element_read_place, Hf.
  by destruct (place_element_total element f ph pw w) as [w' ->].
Qed.

(** The [try] statement of the loop never raises. *)
Lemma guarded_element_total ph pw (element : dict) (w : World) :
  ∃ w', guarded_element ph pw element w = (inr tt, w').
Proof.
  destruct (element_fields element) as [e|f] eqn:Hf.
  - rewrite (guarded_element_raises _ _ _ _ _ Hf). by eexists.
  - rewrite (guarded_element_reads _ _ _ _ _ Hf). apply place_element_total.
Qed.

(** [_build_overlay] is the loop on a new canvas, then the saved canvas. *)
Lemma build_overlay_run (elements : list dict) ph pw (w : World) :
  let w' := (for_each elements (guarded_element ph pw)
                      (mkWorld (stdout w) (Canvas_new (pw, ph)))).2 in
  _build_overlay elements ph pw w = (inr (Canvas_save (canvas w')), w').
Proof.
  unfold _build_overlay, mbind, M_bind, bind, modify, gets. simpl.
  destruct (for_each_total (guarded_element ph pw) elements
              (mkWorld (stdout w) (Canvas_new (pw, ph)))
              (guarded_element_total ph pw)) as [w' ->].
  done.
Qed.

Lemma page_kept_refl (page : Page) : page_kept page page.
Proof. repeat split. exists []. simpl. by rewrite app_nil_r. Qed.

Lemma page_kept_merge (page : Page) (overlay : list DrawOp) :
  page_kept page (merge_page page overlay).
Proof. repeat split. by exists [overlay]. Qed.

Lemma fill_page_kept (objects : list dict) (page_num : Z) (page : Page) (w : World) :
  ∃ page' w', fill_page objects page_num page w = (inr page', w') ∧ page_kept page page'.
Proof.
  unfold fill_page.
  destruct (page_elements_of objects page_num) as [|o els].
  { exists page, w. split; [done|apply page_kept_refl]. }
  unfold mbind, M_bind, bind. rewrite build_overlay_run.
  destruct (Canvas_save _) as [|overlay ?]; eexists _, _; (split; [reflexivity|]).
  - apply page_kept_refl.
  - apply page_kept_merge.
Qed.

Lemma fill_pages_kept (objects : list dict) (pages : list Page) (page_num : Z) (w : World) :
  ∃ pages' w', fill_pages objects page_num pages w = (inr pages', w')
               ∧ Forall2 page_kept pages pages'.
Proof.
  revert page_num w. induction pages as [|page rest IH]; intros page_num w; simpl.
  { exists [], w. split; [done|constructor]. }
  destruct (fill_page_kept objects page_num page w) as (page' & w1 & Hp & Hk).
  destruct (IH (page_num + 1) w1) as (rest' & w2 & Hr & Hks).
  exists (page' :: rest'), w2. unfold mbind, M_bind, bind. rewrite Hp, Hr.
  split; [done|by constructor].
Qed.

(** The fill of a document that parses returns. *)
Lemma generate_filled_pdf_returns (original_pdf_bytes : list byte) (objects : list dict)
    (src_pages : list Page) (w : World) :
  pdf_parse original_pdf_bytes = Some src_pages →
  ∃ out_pages w',
    generate_filled_pdf original_pdf_bytes objects w = (inr (pdf_write out_pages), w')
    ∧ Forall2 page_kept src_pages out_pages.
Proof.
  intros Hparse. unfold generate_filled_pdf, mbind, M_bind, bind, or_raise.
  rewrite Hparse. simpl.
  destruct (fill_pages_kept objects src_pages 1 w) as (out & w' & -> & Hk).
  by exists out, w'.
Qed.

(** C1. For every source that parses as a document and every element
    list, [generate_filled_pdf] returns the written form of a document
    with as many pages as the source, each one the source page at the same
    position with nothing but overlays added to what it shows: no page is
    added, removed or moved. *)
Theorem generate_filled_pdf_keeps_pages (original_pdf_bytes : list byte)
    (objects : list dict) (src_pages : list Page) (w : World) :
  pdf_parse original_pdf_bytes = Some src_pages →
  ∃ out_pages w',
    generate_filled_pdf original_pdf_bytes objects w = (inr (pdf_write out_pages), w')
    ∧ length out_pages = length src_pages
    ∧ Forall2 page_kept src_pages out_pages.
Proof.
  intros Hparse.
  destruct (generate_filled_pdf_returns _ objects _ w Hparse) as (out & w' & Hrun & Hk).
  exists out, w'. split; [done|]. split; [|done].
  symmetry. by eapply Forall2_length.
Qed.

(** C3. When reading or drawing an element raises, the exception stays in
    that element's turn of the loop: [_build_overlay] reports it, leaves
    the canvas as the elements before had made it, goes on through every
    element after it and returns the overlay; and the fill of the document
    returns. *)
Theorem build_overlay_isolates_element_errors (before after : list dict) (bad : dict)
    (page_height page_width : Q) (e : PyExc) (w : World)
    (original_pdf_bytes : list byte) (src_pages : list Page) (objects : list dict) :
  let start := mkWorld (stdout w) (Canvas_new (page_width, page_height)) in
  let wb := (for_each before (guarded_element page_height page_width) start).2 in
  let reported :=
    mkWorld (stdout wb ++ [ElementRenderError (get bad "type") e]) (canvas wb) in
  let wa := (for_each after (guarded_element page_height page_width) reported).2 in
  (render_element bad page_height page_width wb).1 = inl e →
  pdf_parse original_pdf_bytes = Some src_pages →
  _build_overlay (before ++ bad :: after) page_height page_width w
    = (inr (Canvas_save (canvas wa)), wa)
  ∧ ∃ out w', generate_filled_pdf original_pdf_bytes objects w = (inr out, w').
Proof.
  intros start wb reported wa Hbad Hparse. split.
  - rewrite build_overlay_run. fold start.
    rewrite (for_each_app _ _ _ _ (guarded_element_total page_height page_width)).
    fold wb. simpl. unfold bind.
    apply render_element_raises in Hbad.
    rewrite (guarded_element_raises _ _ _ _ _ Hbad). by fold reported wa.
  - destruct (generate_filled_pdf_returns _ objects _ w Hparse) as (out & w' & Hrun & _).
    by eexists _, _.
Qed.

(** C5. On a source that does not parse as a document, the fill raises
    the document error at once: nothing has been printed or drawn, whatever
    the elements are.  The save handler does not swallow it: its caller
    gets an HTTP error 500, raised before the fill is called when the bytes
    are empty or do not start with [%PDF], and in place of the document
    error otherwise. *)
Theorem generate_filled_pdf_invalid_source (original_pdf_bytes : list byte)
    (objects : list dict) (body : dict) (pdf_response : Response) (w : World) :
  pdf_parse original_pdf_bytes = None →
  resp_content pdf_response = original_pdf_bytes →
  is_success pdf_response = true →
  truthy (py_or (get body "editableElements") (VList [])) = true →
  generate_filled_pdf original_pdf_bytes objects w = (inl PdfReadError, w)
  ∧ save_attachment body pdf_response w
    = (inl (HTTPException 500
              (if bool_decide (original_pdf_bytes = [])
                  || negb (bool_decide (take 4 original_pdf_bytes = PDF_MAGIC))
               then "Downloaded file is not a valid PDF"
               else "PDF generation failed")),
       w).
Proof.
  intros Hparse Hcontent Hok Hels.
  assert (Hgen : ∀ objs, generate_filled_pdf original_pdf_bytes objs w = (inl PdfReadError, w)).
  { intros objs. unfold generate_filled_pdf, mbind, M_bind, bind, or_raise.
    by rewrite Hparse. }
  split; [apply Hgen|].
  unfold save_attachment. rewrite Hels, Hok, Hcontent. simpl.
  destruct (_ || _); [done|].
  assert (Hof : ∀ v, generate_filled_pdf_of original_pdf_bytes v w = (inl PdfReadError, w)).
  { intros v. unfold generate_filled_pdf_of, mbind, M_bind, bind, or_raise.
    destruct v as [| | | | |l|]; rewrite ?Hparse; try done.
    destruct (as_objects l); [apply Hgen|done]. }
  unfold try_except. by rewrite Hof.
Qed.

End pdf_service_facts.

(** ** The page of an element *)

Section page_facts.
Context `{Libs}.

(** What [_draw_signature] adds to the canvas does not depend on the
    canvas: one image, or nothing. *)
Lemma draw_signature_adds (content : string) (x pdf_y width height page_width : Q) :
  ∃ ops, ∀ w,
    code (canvas (_draw_signature content x pdf_y width height page_width w).2)
      = code (canvas w) ++ ops
    ∧ shown (canvas (_draw_signature content x pdf_y width height page_width w).2)
      = shown (canvas w).
Proof.
  unfold _draw_signature, try_except, mbind, M_bind, bind, or_raise.
  destruct (b64decode (strip_data_uri content)) as [img_bytes|];
    [|exists []; intros w; cbn; rewrite app_nil_r; split; reflexivity].
  cbn -[_draw_signature_size].
  destruct (Image_open img_bytes) as [img|];
    [|exists []; intros w; cbn; rewrite app_nil_r; split; reflexivity].
  cbn -[_draw_signature_size].
  destruct (_draw_signature_size (img_width img) (img_height img) x width height
              page_width tt).1 as [e|[dw dh]] eqn:Hsize.
  { exists []. intros w.
    rewrite draw_signature_size_pure, Hsize. cbn. rewrite app_nil_r. split; reflexivity. }
  destruct (Image_save_png img) as [png|].
  - exists [DrawImage x pdf_y dw dh png]. intros w.
    rewrite draw_signature_size_pure, Hsize. split; reflexivity.
  - exists []. intros w.
    rewrite draw_signature_size_pure, Hsize. cbn. rewrite app_nil_r. split; reflexivity.
Qed.

Lemma place_element_adds (element : dict) (f : ElementFields) (ph pw : Q) :
  ∃ ops, ∀ w,
    code (canvas (place_element element f ph pw w).2) = code (canvas w) ++ ops
    ∧ shown (canvas (place_element element f ph pw w).2) = shown (canvas w).
Proof.
  assert (Hnone : ∃ ops : list DrawOp, ∀ w : World,
            code (canvas (ret (W:=World) tt w).2) = code (canvas w) ++ ops
            ∧ shown (canvas (ret (W:=World) tt w).2) = shown (canvas w)).
  { exists []. intros w. simpl. rewrite app_nil_r. split; reflexivity. }
  assert (Htext : ∀ content x pdf_y fs color_str,
            ∃ ops : list DrawOp, ∀ w : World,
              code (canvas (_draw_text content x pdf_y fs color_str w).2)
                = code (canvas w) ++ ops
              ∧ shown (canvas (_draw_text content x pdf_y fs color_str w).2)
                = shown (canvas w)).
  { intros content x pdf_y fs color_str.
    destruct (text_skipped content) eqn:Hskip.
    - exists []. intros w. rewrite draw_text_run, Hskip. simpl. rewrite app_nil_r.
      split; reflexivity.
    - eexists. intros w. rewrite draw_text_run, Hskip. simpl. split; reflexivity. }
  unfold place_element.
  destruct (_ || _ || _); [apply Htext|].
  destruct (py_eq_str _ "checkbox"); [destruct (is_checked _); [apply Htext|exact Hnone]|].
  destruct (py_eq_str _ "signature"); [|exact Hnone].
  destruct (get_d element "content" (VStr "")) as [| | | |s| |]; try exact Hnone.
  destruct (_ && _ && _); [|exact Hnone].
  apply draw_signature_adds.
Qed.

(** What the [try] statement of the loop adds to the canvas is what it
    draws on a fresh one. *)
Lemma guarded_element_adds (ph pw : Q) (element : dict) (w : World) :
  code (canvas (guarded_element ph pw element w).2)
    = code (canvas w) ++ element_ops ph pw element
  ∧ shown (canvas (guarded_element ph pw element w).2) = shown (canvas w).
Proof.
  assert (Hadds : ∃ ops, ∀ w,
            code (canvas (guarded_element ph pw element w).2) = code (canvas w) ++ ops
            ∧ shown (canvas (guarded_element ph pw element w).2) = shown (canvas w)).
  { destruct (element_fields element) as [e|f] eqn:Hf.
    - exists []. intros w0. rewrite (guarded_element_raises _ _ _ _ _ Hf). simpl.
      rewrite app_nil_r. split; reflexivity.
    - destruct (place_element_adds element f ph pw) as [ops Hops]. exists ops.
      intros w0. rewrite (guarded_element_reads _ _ _ _ _ Hf). apply Hops. }
  destruct Hadds as [ops Hops].
  assert (element_ops ph pw element = ops) as ->; [|apply Hops].
  unfold element_ops. by rewrite (proj1 (Hops _)).
Qed.

Lemma for_each_elements_add (ph pw : Q) (elements : list dict) (w : World) :
  code (canvas (for_each elements (guarded_element ph pw) w).2)
    = code (canvas w) ++ flat_map (element_ops ph pw) elements
  ∧ shown (canvas (for_each elements (guarded_element ph pw) w).2) = shown (canvas w).
Proof.
  revert w. induction elements as [|element elements IH]; intros w; simpl.
  { rewrite app_nil_r. split; reflexivity. }
  unfold mbind, M_bind, bind.
  destruct (guarded_element_total ph pw element w) as [w1 Hw1].
  pose proof (guarded_element_adds ph pw element w) as [Hcode Hshown].
  rewrite Hw1 in Hcode, Hshown |- *. simpl in Hcode, Hshown.
  destruct (IH w1) as [-> ->]. by rewrite Hcode, Hshown, app_assoc.
Qed.

(** The overlay of a page: one page with what its elements draw, or no
    page when they draw nothing. *)
Lemma build_overlay_ops (elements : list dict) (ph pw : Q) (w : World) :
  ∃ w', _build_overlay elements ph pw w
        = (inr match flat_map (element_ops ph pw) elements with
               | [] => []
               | ops => [ops]
               end, w').
Proof.
  pose proof (build_overlay_run elements ph pw w) as Hrun. cbv zeta in Hrun.
  rewrite Hrun. eexists. f_equal. f_equal.
  destruct (for_each_elements_add ph pw elements
              (mkWorld (stdout w) (Canvas_new (pw, ph)))) as [Hcode Hshown].
  unfold Canvas_save. rewrite Hcode, Hshown. simpl.
  by destruct (flat_map _ _).
Qed.

(** One turn of the loop merges onto the page what its elements draw. *)
Lemma fill_page_ops (objects : list dict) (page_num : Z) (page : Page) (w : World) :
  ∃ w', fill_page objects page_num page w
        = (inr match page_ops objects page_num page with
               | [] => page
               | ops => merge_page page ops
               end, w').
Proof.
  unfold fill_page, page_ops.
  destruct (page_elements_of objects page_num) as [|o els] eqn:Hels; [by eexists|].
  unfold mbind, M_bind.
  destruct (build_overlay_ops (o :: els) (mediabox_height page) (mediabox_width page) w)
    as [w' Hbuild].
  erewrite bind_inr by exact Hbuild. exists w'.
  by destruct (flat_map _ _).
Qed.

(** C10. An element with no ["page"] key belongs to page 1 and to no
    other page, and it is rendered there: when the source parses, the
    first page of the output is the first page of the source with the
    overlay of what the elements of page 1 draw merged onto it, and
    everything this element draws - what the [try] statement of the loop
    adds to the canvas for it, whatever was drawn before - is in that
    overlay. *)
Theorem element_without_page_is_on_page_1 (original_pdf_bytes : list byte)
    (objects : list dict) (o : dict) (page1 : Page) (rest : list Page) (w : World) :
  pdf_parse original_pdf_bytes = Some (page1 :: rest) →
  o ∈ objects →
  o !! "page" = None →
  let page_height := mediabox_height page1 in
  let page_width := mediabox_width page1 in
  (∀ page_num : Z, o ∈ page_elements_of objects page_num ↔ page_num = 1)
  ∧ (∀ w0, code (canvas (guarded_element page_height page_width o w0).2)
           = code (canvas w0) ++ element_ops page_height page_width o)
  ∧ ∃ out1 out_rest w',
      generate_filled_pdf original_pdf_bytes objects w
        = (inr (pdf_write (out1 :: out_rest)), w')
      ∧ out1 = match page_ops objects 1 page1 with
               | [] => page1
               | ops => merge_page page1 ops
               end
      ∧ ∀ op, op ∈ element_ops page_height page_width o →
              op ∈ page_ops objects 1 page1
              ∧ OverlayContent (page_ops objects 1 page1) ∈ contents out1.
Proof.
  intros Hparse Hin Hpage page_height page_width.
  assert (Hiff : ∀ page_num : Z, o ∈ page_elements_of objects page_num ↔ page_num = 1).
  { intros page_num. unfold page_elements_of.
    rewrite list_elem_of_In, filter_In, <- list_elem_of_In.
    unfold get_d. rewrite Hpage. cbn [default py_eq_int]. rewrite Z.eqb_eq.
    intuition congruence. }
  split; [exact Hiff|]. split; [intros w0; apply guarded_element_adds|].
  unfold generate_filled_pdf, mbind, M_bind. rewrite Hparse.
  erewrite bind_inr by reflexivity.
  destruct (fill_page_ops objects 1 page1 w) as [w1 Hfirst].
  destruct (fill_pages_kept objects rest (1 + 1) w1) as (out_rest & w2 & Hrest & _).
  erewrite bind_inr by (simpl; unfold mbind, M_bind, bind; by rewrite Hfirst, Hrest).
  eexists _, out_rest, w2. split; [reflexivity|]. split; [reflexivity|].
  intros op Hop.
  assert (Hops : op ∈ page_ops objects 1 page1).
  { unfold page_ops. rewrite list_elem_of_In, in_flat_map. exists o.
    split; [apply list_elem_of_In; by apply Hiff|by apply list_elem_of_In]. }
  split; [exact Hops|].
  destruct (page_ops objects 1 page1) as [|op1 ops]; [by apply elem_of_nil in Hops|].
  cbn [merge_page contents]. apply elem_of_app. right. apply elem_of_cons. by left.
Qed.

End page_facts.

(** ** Where and in what colour an element is drawn *)

Section placement_facts.
Context `{Libs}.

#[local] Open Scope Q_scope.

Lemma Qltb_lt (a b : Q) : Qltb a b = true ↔ a < b.
Proof.
  unfold Qltb. rewrite negb_true_iff, <- not_true_iff_false, Qle_bool_iff.
  split; [apply Qnot_le_lt|apply Qlt_not_le].
Qed.

Lemma Qltb_ge (a b : Q) : Qltb a b = false ↔ b <= a.
Proof. unfold Qltb. by rewrite negb_false_iff, Qle_bool_iff. Qed.

Lemma anchored_at_proper (p q : Q) (op : DrawOp) : p == q → anchored_at p op → anchored_at q op.
Proof.
  intros Hpq. destruct op as [x y text font size fill|x y wd ht png]; simpl.
  - intros (i & Hi & Hy). exists i. split; [done|]. by rewrite Hy, Hpq.
  - intros Hy. by rewrite Hy.
Qed.

Lemma placed_from_proper (element : dict) (p q : Q) (op : DrawOp) :
  p == q → placed_from element p op → placed_from element q op.
Proof.
  intros Hpq. unfold placed_from. destruct (is_text_type element).
  - by apply anchored_at_proper.
  - intros Hy. by rewrite Hy.
Qed.

Lemma enumerate_from {A} (start : Z) (l : list A) :
  Forall (λ il, (start ≤ il.1)%Z) (enumerate start l).
Proof.
  revert start. induction l as [|a l IH]; intros start; simpl; constructor; simpl; [lia|].
  eapply Forall_impl; [apply IH|]. simpl. intros. lia.
Qed.

(** Every string [_draw_text] draws is a whole number of lines below the
    anchor, and in the colour it was given. *)
Lemma line_ops_anchored (x pdf_y fs : Q) (color : Color) (lines : list (Z * string)) :
  Forall (λ il, (0 ≤ il.1)%Z) lines →
  Forall (λ op, anchored_at pdf_y op ∧ filled_with color op) (line_ops x pdf_y fs color lines).
Proof.
  induction 1 as [|[i line] lines Hi _ IH]; simpl; [constructor|].
  destruct (negb _); simpl; [|done].
  constructor; [|done]. split; [|done]. exists i. split; [done|reflexivity].
Qed.

(** The mark of a checkbox is the one line of the text ["X"]. *)
Lemma checkbox_mark_ops (page_height : Q) (f : ElementFields) :
  line_ops (ef_x f) (element_pdf_y page_height f) (ef_font_size f)
           (text_color (ef_color_str f))
           (enumerate 0 (split_on newline (py_str (VStr "X"))))
  = [checkbox_mark page_height f].
Proof. reflexivity. Qed.

Lemma checkbox_mark_at (page_height : Q) (f : ElementFields) :
  op_y (checkbox_mark page_height f) == element_pdf_y page_height f.
Proof. simpl. unfold inject_Z. ring. Qed.

(** What placing an element adds to the canvas: the lines of a text, the
    mark of a checked box, at most one image of a signature, or nothing. *)
Lemma place_element_ops (element : dict) (f : ElementFields) (ph pw : Q) (w : World) :
  ∃ ops,
    code (canvas (place_element element f ph pw w).2) = (code (canvas w) ++ ops)%list
    ∧ Forall (placed_from element (element_pdf_y ph f)) ops
    ∧ Forall (filled_with (text_color (ef_color_str f))) ops
    ∧ (py_eq_str (get_d element "type" (VStr "")) "checkbox" = true →
       ops = if is_checked (get_d element "content" (VStr ""))
             then [checkbox_mark ph f] else []).
Proof.
  unfold place_element, placed_from, is_text_type.
  destruct (_ || _ || _) eqn:Htext.
  { rewrite draw_text_run. destruct (text_skipped _); simpl.
    - exists []. rewrite app_nil_r. repeat split; try constructor.
      intros Hcb. destruct (get_d element "type" (VStr "")) as [| | | |s| |]; try done.
      simpl in *. destruct (String.eqb_spec s "checkbox") as [->|]; done.
    - eexists. split; [reflexivity|].
      pose proof (line_ops_anchored (ef_x f) (element_pdf_y ph f) (ef_font_size f)
                    (text_color (ef_color_str f)) _
                    (enumerate_from 0 (split_on newline
                       (py_str (get_d element "content" (VStr "")))))) as Hops.
      repeat split.
      + eapply Forall_impl; [exact Hops|]. by intros op [? ?].
      + eapply Forall_impl; [exact Hops|]. by intros op [? ?].
      + intros Hcb. destruct (get_d element "type" (VStr "")) as [| | | |s| |]; try done.
        simpl in *. destruct (String.eqb_spec s "checkbox") as [->|]; done. }
  destruct (py_eq_str _ "checkbox") eqn:Hcb.
  { destruct (is_checked _).
    - rewrite draw_text_run, checkbox_mark_ops.
      change (text_skipped (VStr "X")) with false. cbn [snd canvas code Canvas_after_text].
      eexists. split; [reflexivity|].
      repeat split; try done; repeat constructor. apply checkbox_mark_at.
    - exists []. simpl. rewrite app_nil_r. repeat split; try done; constructor. }
  assert (Hnone : ∃ ops : list DrawOp,
            code (canvas w) = (code (canvas w) ++ ops)%list
            ∧ Forall (λ op, op_y op == element_pdf_y ph f) ops
            ∧ Forall (filled_with (text_color (ef_color_str f))) ops
            ∧ (false = true → ops = if is_checked (get_d element "content" (VStr ""))
                                    then [checkbox_mark ph f] else [])).
  { exists []. rewrite app_nil_r. repeat split; try done; constructor. }
  destruct (py_eq_str _ "signature"); [|exact Hnone].
  destruct (get_d element "content" (VStr "")) as [| | | |s| |]; try exact Hnone.
  destruct (_ && _ && _); [|exact Hnone].
  destruct (draw_signature_run s (ef_x f) (element_pdf_y ph f) (ef_width f) (ef_height f) pw w)
    as [(dw & dh & png & ->)|(e & ->)]; simpl.
  - eexists. split; [reflexivity|]. repeat split; try done; repeat constructor.
  - exists []. rewrite app_nil_r. repeat split; try done; constructor.
Qed.


(** The fields of an element that could be read are the values of its
    keys, or the defaults where a key is absent or falsy. *)
Lemma element_fields_inv (element : dict) (f : ElementFields) :
  element_fields element = inr f →
  (py_float (py_or (get element "x") (VInt 0)) tt).1 = inr (ef_x f)
  ∧ (py_float (py_or (get element "y") (VInt 0)) tt).1 = inr (ef_y f)
  ∧ (py_float (py_or (get element "width") (VInt 100)) tt).1 = inr (ef_width f)
  ∧ (py_float (py_or (get element "height") (VInt 20)) tt).1 = inr (ef_height f)
  ∧ (py_float (py_or (get element "fontSize") (VInt 11)) tt).1 = inr (ef_font_size f)
  ∧ (element_color_str element tt).1 = inr (ef_color_str f).
Proof.
  unfold element_fields, mbind, M_bind, bind.
  destruct (py_float (py_or (get element "x") _) tt) as [[?|x] []]; [done|].
  destruct (py_float (py_or (get element "y") _) tt) as [[?|y] []]; [done|].
  destruct (py_float (py_or (get element "width") _) tt) as [[?|wd] []]; [done|].
  destruct (py_float (py_or (get element "height") _) tt) as [[?|ht] []]; [done|].
  destruct (py_float (py_or (get element "fontSize") _) tt) as [[?|fs] []]; [done|].
  destruct (element_color_str element tt) as [[?|cs] []]; [done|].
  simpl. by intros [= <-].
Qed.


(** A number other than zero given for a field with a default is read as
    it is; zero is replaced by the default. *)
Lemma py_float_or_default (v : PyVal) (q : Q) (dflt : Z) :
  py_num v = Some q → ¬ q == 0 →
  (py_float (py_or v (VInt dflt)) tt).1 = inr q.
Proof.
  unfold py_or. destruct v as [|[]|n|r| | |]; simpl; intros [= <-] Hq; try done.
  - destruct (Z.eqb_spec n 0) as [->|]; simpl; [destruct Hq; reflexivity|done].
  - destruct (Qeq_bool r 0) eqn:Hr; simpl; [|done].
    apply Qeq_bool_eq in Hr. by destruct Hq.
Qed.

(** What rendering an element adds to the canvas. *)
Lemma render_element_ops (element : dict) (ph pw : Q) (w : World) :
  ∃ ops,
    code (canvas (render_element element ph pw w).2) = (code (canvas w) ++ ops)%list
    ∧ match element_fields element with
      | inl _ => ops = []
      | inr f =>
          Forall (placed_from element (element_pdf_y ph f)) ops
          ∧ Forall (filled_with (text_color (ef_color_str f))) ops
          ∧ (py_eq_str (get_d element "type" (VStr "")) "checkbox" = true →
             ops = if is_checked (get_d element "content" (VStr ""))
                   then [checkbox_mark ph f] else [])
      end.
Proof.
  rewrite render_element_read_place.
  destruct (element_fields element) as [e|f].
  - exists []. simpl. by rewrite app_nil_r.
  - apply place_element_ops.
Qed.

Lemma py_eq_str_true (v : PyVal) (s : string) : py_eq_str v s = true → v = VStr s.
Proof.
  destruct v as [| | | |s'| |]; simpl; try done. by intros ->%String.eqb_eq.
Qed.

(** A field with a default is the number given for it when that is not
    zero, and the default when the key is absent or its value falsy. *)
Lemma py_float_default (v : PyVal) (dflt : Z) (r : Q) :
  (py_float (py_or v (VInt dflt)) tt).1 = inr r →
  (∀ q, py_num v = Some q → ¬ q == 0 → r = q)
  ∧ (truthy v = false → r = inject_Z dflt).
Proof.
  intros Hr. split.
  - intros q Hq Hnz. rewrite (py_float_or_default v q dflt Hq Hnz) in Hr. by injection Hr.
  - intros Hfalsy. unfold py_or in Hr. rewrite Hfalsy in Hr. simpl in Hr. by injection Hr.
Qed.

(** C2 on the code: the mark of a checked box of height 0 at [y = 100] on
    a page 792 high is drawn at 673, the anchor of the default height 20,
    where the conversion with the height of the element gives 693. *)
Lemma zero_height_checkbox_is_drawn_at_673 :
  get zero_height_checkbox "y" = VInt 100
  ∧ get zero_height_checkbox "height" = VInt 0
  ∧ render_element (H:=example_libs) zero_height_checkbox 792 612 World_init
    = (inr tt,
       mkWorld []
         (mkCanvas (0, 0) black "Helvetica" 12
                   [DrawString 50 673 (VStr "X") "Helvetica" 12 black] []))
  ∧ 673 == pdf_y_of 792 100 20
  ∧ pdf_y_of 792 100 0 == 693
  ∧ ¬ 673 == 693.
Proof.
  split; [reflexivity|]. split; [reflexivity|]. split; [vm_compute; reflexivity|].
  split; [reflexivity|]. split; [reflexivity|]. by intros [=].
Qed.

(** What the [try] statement of the loop adds to the canvas. *)
Lemma guarded_element_ops (element : dict) (ph pw : Q) (w : World) :
  code (canvas (guarded_element ph pw element w).2)
  = code (canvas (render_element element ph pw w).2).
Proof.
  destruct (element_fields element) as [e|f] eqn:Hf.
  - rewrite (guarded_element_raises _ _ _ _ _ Hf), render_element_read_place, Hf. done.
  - rewrite (guarded_element_reads _ _ _ _ _ Hf), render_element_read_place, Hf. done.
Qed.

Lemma is_checked_iff (content : PyVal) :
  is_checked content = true
  ↔ content = VBool true ∨ content = VStr "true" ∨ content = VInt 1
    ∨ ∃ q, content = VFloat q ∧ q == 1.
Proof.
  unfold is_checked.
  destruct content as [|[]|n|q|s| |]; simpl;
    try (split; [done|by intros [|[|[|(? & ? & ?)]]]]).
  - split; [by left|done].
  - destruct (Z.eqb_spec n 1) as [->|Hn].
    + split; [by right; right; left|done].
    + split; [done|]. intros [|[|[[= ->]|(? & ? & ?)]]]; done.
  - split.
    + intros Hq%Qeq_bool_eq. right. right. right. by exists q.
    + intros [|[|[|(q' & [= <-] & Hq)]]]; try done. by apply Qeq_eq_bool.
  - destruct (String.eqb_spec s "true") as [->|Hs].
    + split; [by right; left|done].
    + split; [done|]. intros [|[[= ->]|[|(? & ? & ?)]]]; done.
Qed.

(** C4, as amended. The [try] statement never lets an error of a checkbox
    escape.  When the fields of the element can be read, the mark ["X"] is
    drawn at the anchor if its content is [True], ["true"] or a number
    equal to 1, and nothing is drawn otherwise; when they cannot be read
    nothing is drawn whatever the content.  None of [False], ["false"],
    [None], [0], [""] and ["yes"] is a checked content. *)
Theorem checkbox_mark_iff_checked (element : dict) (page_height page_width : Q)
    (w : World) :
  py_eq_str (get_d element "type" (VStr "")) "checkbox" = true →
  let content := get_d element "content" (VStr "") in
  let r := guarded_element page_height page_width element w in
  r.1 = inr tt
  ∧ code (canvas r.2)
    = (code (canvas w)
       ++ match element_fields element with
          | inr f => if is_checked content then [checkbox_mark page_height f] else []
          | inl _ => []
          end)%list
  ∧ (is_checked content = true
     ↔ content = VBool true ∨ content = VStr "true" ∨ content = VInt 1
       ∨ ∃ q, content = VFloat q ∧ q == 1)
  ∧ Forall (λ c, is_checked c = false)
           [VBool false; VStr "false"; VNone; VInt 0; VStr ""; VStr "yes"].
Proof.
  intros Hcb content r. split; [|split; [|split]].
  - subst r. by destruct (guarded_element_total page_height page_width element w) as [w' ->].
  - subst r. rewrite guarded_element_ops.
    destruct (render_element_ops element page_height page_width w) as (ops & -> & Hops).
    f_equal. destruct (element_fields element) as [e|f]; [done|].
    destruct Hops as (_ & _ & Hops). by apply Hops.
  - apply is_checked_iff.
  - repeat constructor.
Qed.

(** C4 as stated fails on a checked box whose [x] is not a number: its
    content is [True] and no mark is drawn. *)
Lemma unreadable_checkbox_draws_no_mark :
  get_d unreadable_checkbox "type" (VStr "") = VStr "checkbox"
  ∧ get_d unreadable_checkbox "content" (VStr "") = VBool true
  ∧ guarded_element (H:=example_libs) 792 612 unreadable_checkbox World_init
    = (inr tt, mkWorld [ElementRenderError (VStr "checkbox") ValueError]
                       (canvas World_init))
  ∧ code (canvas World_init) = [].
Proof. repeat split; vm_compute; reflexivity. Qed.

Lemma brand_blue_hex : HexColor "#1e3a8a" = Some brand_blue.
Proof. reflexivity. Qed.

(** The colour string of an element: the brand blue when there is no
    colour, the string given, with its [#], when there is one. *)
Lemma element_color_str_absent (element : dict) :
  element !! "color" = None → (element_color_str element tt).1 = inr "#1e3a8a".
Proof. intros Hnone. unfold element_color_str, get. by rewrite Hnone. Qed.

Lemma element_color_str_given (element : dict) (s : string) :
  element !! "color" = Some (VStr s) → s ≠ "" →
  (element_color_str element tt).1 = inr (hashed s).
Proof.
  intros Hs Hne. unfold element_color_str, get, py_or. rewrite Hs.
  cbn [default from_option id truthy].
  destruct (String.eqb_spec s "") as [->|_]; [done|reflexivity].
Qed.

(** C7, as amended. Every string drawn for an element with no ["color"]
    key is filled with the brand blue; every string drawn for an element
    whose colour is a string that does not parse as a hex colour is filled
    with black. *)
Theorem element_fill_color (element : dict) (page_height page_width : Q) (w : World)
    (expected : Color) :
  (element !! "color" = None ∧ expected = brand_blue)
  ∨ (∃ s, element !! "color" = Some (VStr s) ∧ s ≠ ""
          ∧ HexColor (hashed s) = None ∧ expected = black) →
  ∃ ops,
    code (canvas (render_element element page_height page_width w).2)
      = (code (canvas w) ++ ops)%list
    ∧ Forall (filled_with expected) ops.
Proof.
  intros Hcase.
  destruct (render_element_ops element page_height page_width w) as (ops & Hcode & Hops).
  exists ops. split; [done|].
  destruct (element_fields element) as [e|f] eqn:Hf; [subst ops; constructor|].
  destruct Hops as (_ & Hfill & _).
  apply element_fields_inv in Hf as (_ & _ & _ & _ & _ & Hcolor).
  replace expected with (text_color (ef_color_str f)); [done|].
  destruct Hcase as [[Hnone ->]|(s & Hs & Hne & Hhex & ->)].
  - rewrite (element_color_str_absent _ Hnone) in Hcolor. by injection Hcolor as <-.
  - rewrite (element_color_str_given _ _ Hs Hne) in Hcolor. injection Hcolor as <-.
    unfold text_color. by rewrite Hhex.
Qed.

(** C7 as stated fails on a text whose colour is ["#zzzzzz"]: the colour
    does not parse and the text is filled with black, which is not the
    brand blue. *)
Lemma malformed_color_is_drawn_black :
  ∃ op,
    code (canvas (render_element (H:=example_libs) malformed_color_element 792 612
                                 World_init).2) = [op]
    ∧ HexColor "#zzzzzz" = None
    ∧ op_fill op = Some black
    ∧ black ≠ brand_blue.
Proof.
  eexists. split; [vm_compute; reflexivity|].
  split; [reflexivity|]. split; [reflexivity|]. discriminate.
Qed.

End placement_facts.

(** ** The size of a signature *)

Section signature_facts.
Context `{Libs}.

#[local] Open Scope Q_scope.

Lemma inject_Z_pos (n : Z) : (0 < n)%Z → 0 < inject_Z n.
Proof. intros Hn. unfold Qlt, inject_Z. simpl. lia. Qed.

Lemma py_div_nonzero {W} (a b : Q) (w : W) : ¬ b == 0 → py_div a b w = (inr (a / b), w).
Proof.
  intros Hb. unfold py_div. destruct (Qeq_bool b 0) eqn:Hb0; [|done].
  by apply Qeq_bool_eq in Hb0.
Qed.

Lemma signature_size_fits {W} (img_w img_h : Z) (x width height page_width : Q)
    (w : W) :
  (0 < img_w)%Z → (0 < img_h)%Z →
  let img_ratio := inject_Z img_w / inject_Z img_h in
  let draw_width := py_min width (page_width - x - 10) in
  let draw_height := py_min height 60 in
  ∃ dw dh,
    _draw_signature_size img_w img_h x width height page_width w = (inr (dw, dh), w)
    ∧ dw * inject_Z img_h == dh * inject_Z img_w
    ∧ (if Qltb 0 draw_height && Qltb draw_height (draw_width / img_ratio)
       then dw == draw_height * img_ratio ∧ dh == draw_height
       else dw == draw_width ∧ dh == draw_width / img_ratio)
    ∧ dw <= draw_width
    ∧ draw_height <= 60
    ∧ (draw_height <= 0 ∨ dh <= draw_height).
Proof.
  intros Hw Hh img_ratio draw_width draw_height.
  pose proof (inject_Z_pos _ Hw) as Hw'. pose proof (inject_Z_pos _ Hh) as Hh'.
  assert (Hratio : 0 < img_ratio).
  { unfold img_ratio. apply Qlt_shift_div_l; [done|]. by rewrite Qmult_0_l. }
  assert (Hcap : draw_height <= 60).
  { unfold draw_height, py_min. destruct (Qltb 60 height) eqn:Hlt.
    - apply Qle_refl.
    - by apply Qltb_ge in Hlt. }
  unfold _draw_signature_size, mbind, M_bind, bind.
  rewrite (py_div_nonzero _ _ w); [|lra]. fold img_ratio draw_width draw_height.
  destruct (Qltb 0 draw_height) eqn:Hpos; simpl.
  - rewrite (py_div_nonzero _ _ w); [|lra].
    destruct (Qltb draw_height (draw_width / img_ratio)) eqn:Hex; simpl.
    + apply Qltb_lt in Hpos, Hex.
      exists (draw_height * img_ratio), draw_height. split; [done|].
      split; [unfold img_ratio; field; lra|]. split; [done|].
      split; [|split; [done|right; apply Qle_refl]].
      apply Qlt_le_weak.
      apply Qlt_le_trans with (draw_width / img_ratio * img_ratio);
        [by apply Qmult_lt_compat_r|].
      apply Qle_lteq. right. field. lra.
    + apply Qltb_ge in Hex.
      rewrite (proj2 (Qltb_lt 0 img_ratio) Hratio).
      rewrite (py_div_nonzero _ _ w); [|lra].
      exists draw_width, (draw_width / img_ratio). split; [done|].
      split; [unfold img_ratio; field; lra|]. split; [done|].
      split; [apply Qle_refl|]. split; [done|by right].
  - apply Qltb_ge in Hpos.
    rewrite (proj2 (Qltb_lt 0 img_ratio) Hratio).
    rewrite (py_div_nonzero _ _ w); [|lra].
    exists draw_width, (draw_width / img_ratio). split; [done|].
    split; [unfold img_ratio; field; lra|]. split; [done|].
    split; [apply Qle_refl|]. split; [done|by left].
Qed.

(** C6, as amended. A signature element whose fields can be read, whose
    height as it is read - the height given, or 20 when it is absent or
    zero - is positive, and whose image decodes with a positive width and
    height and is written as PNG, is drawn as one image at the anchor with
    its aspect ratio kept.  The width allowed is the lesser of the width
    read (the width given, or 100) and [page_width - x - 10]; the height
    allowed is the lesser of the height read and 60.  When the height at
    the width allowed would exceed the height allowed, the image is drawn
    at the height allowed with its width following from the ratio;
    otherwise it is drawn at the width allowed with its height following
    from the ratio. *)
Theorem signature_is_scaled_to_fit (element : dict) (f : ElementFields)
    (page_height page_width : Q) (w : World) (s : string)
    (img_bytes : list byte) (img : Image) (png : list byte) :
  py_eq_str (get_d element "type" (VStr "")) "signature" = true →
  get_d element "content" (VStr "") = VStr s →
  startswith s "data:image/" = true →
  element_fields element = inr f →
  b64decode (strip_data_uri s) = Some img_bytes →
  Image_open img_bytes = Some img →
  Image_save_png img = Some png →
  (0 < img_width img)%Z → (0 < img_height img)%Z →
  0 < ef_height f →
  let img_ratio := inject_Z (img_width img) / inject_Z (img_height img) in
  let draw_width := py_min (ef_width f) (page_width - ef_x f - 10) in
  let draw_height := py_min (ef_height f) 60 in
  ((∀ q, py_num (get element "height") = Some q → ¬ q == 0 → ef_height f = q)
   ∧ (truthy (get element "height") = false → ef_height f = 20))
  ∧ ((∀ q, py_num (get element "width") = Some q → ¬ q == 0 → ef_width f = q)
     ∧ (truthy (get element "width") = false → ef_width f = 100))
  ∧ ((∀ q, py_num (get element "x") = Some q → ¬ q == 0 → ef_x f = q)
     ∧ (truthy (get element "x") = false → ef_x f = 0))
  ∧ ∃ dw dh,
      render_element element page_height page_width w
        = (inr tt,
           mkWorld (stdout w)
                   (Canvas_drawImage (ef_x f) (element_pdf_y page_height f) dw dh png
                                     (canvas w)))
      ∧ dw * inject_Z (img_height img) == dh * inject_Z (img_width img)
      ∧ (if Qltb draw_height (draw_width / img_ratio)
         then dw == draw_height * img_ratio ∧ dh == draw_height
         else dw == draw_width ∧ dh == draw_width / img_ratio)
      ∧ dw <= draw_width
      ∧ dh <= draw_height
      ∧ draw_height <= 60.
Proof.
  intros Htype Hcontent Hprefix Hf Hb64 Hopen Hpng Hw Hh Hpos
         img_ratio draw_width draw_height.
  pose proof (element_fields_inv _ _ Hf) as (Hfx & _ & Hfw & Hfh & _).
  split; [exact (py_float_default _ 20 _ Hfh)|].
  split; [exact (py_float_default _ 100 _ Hfw)|].
  split; [exact (py_float_default _ 0 _ Hfx)|].
  destruct (signature_size_fits (img_width img) (img_height img) (ef_x f) (ef_width f)
              (ef_height f) page_width w Hw Hh)
    as (dw & dh & Hsize & Hratio & Hcase & Hwidth & Hcap & Hheight).
  fold img_ratio draw_width draw_height in Hcase, Hwidth, Hcap, Hheight.
  assert (Hdh : 0 < draw_height).
  { unfold draw_height, py_min. destruct (Qltb 60 (ef_height f)); [reflexivity|exact Hpos]. }
  rewrite (proj2 (Qltb_lt 0 draw_height) Hdh) in Hcase. cbn [andb] in Hcase.
  exists dw, dh. split.
  - rewrite render_element_read_place, Hf. unfold place_element.
    apply py_eq_str_true in Htype. rewrite Htype, Hcontent. cbn [py_eq_str String.eqb].
    cbn -[_draw_signature startswith].
    assert (Hne : truthy (VStr s) = true) by (by destruct s).
    cbn [truthy] in Hne. rewrite Hne, Hprefix. cbn [andb].
    unfold _draw_signature, try_except, mbind, M_bind, bind, or_raise.
    rewrite Hb64. simpl. rewrite Hopen. simpl. rewrite Hsize. simpl. rewrite Hpng. done.
  - split; [exact Hratio|]. split; [exact Hcase|]. split; [exact Hwidth|].
    split; [|exact Hcap]. destruct Hheight as [Hle|Hle]; [lra|exact Hle].
Qed.

(** C6 as stated fails on an image of 20 by 10 pixels in a box 150 wide
    and 50 high at [x = 100] on a page 612 wide: the height at the width
    allowed, 75, exceeds 60, and the image is drawn 50 high, not 60. *)
Lemma declared_height_caps_signature :
  ∃ dw dh,
    _draw_signature_size 20 10 100 150 50 612 tt = (inr (dw, dh), tt)
    ∧ 60 < py_min 150 (612 - 100 - 10) / (inject_Z 20 / inject_Z 10)
    ∧ dh == 50
    ∧ ¬ dh == 60.
Proof.
  eexists _, _. split; [vm_compute; reflexivity|].
  split; [reflexivity|]. split; [reflexivity|]. by intros [=].
Qed.

End signature_facts.

(** ** The named-field filler *)

Section backflow_facts.
Context `{Libs}.

(** A field takes the value given for it when the page has the field, and
    keeps its own otherwise. *)
Lemma update_page_lookup (page : Page) (values : gmap string PyVal) (k : string) :
  fields (update_page_form_field_values page values) !! k =
  match values !! k, fields page !! k with
  | Some v, Some _ => Some v
  | _, old => old
  end.
Proof.
  unfold update_page_form_field_values. simpl.
  rewrite lookup_union, lookup_intersection.
  destruct (values !! k) as [v|], (fields page !! k) as [old|]; done.
Qed.

Lemma drop_blank_lookup (text_values : gmap string PyVal) (k : string) (v : PyVal) :
  drop_blank text_values !! k = Some v ↔ text_values !! k = Some v ∧ truthy v = true.
Proof. unfold drop_blank. by rewrite map_lookup_filter_Some. Qed.

Lemma drop_blank_lookup_blank (text_values : gmap string PyVal) (k : string) (v : PyVal) :
  text_values !! k = Some v → truthy v = false → drop_blank text_values !! k = None.
Proof.
  intros Hk Hv. destruct (drop_blank text_values !! k) as [v'|] eqn:Hd; [|done].
  apply drop_blank_lookup in Hd as [Hk' Hv']. congruence.
Qed.

(** The checkboxes leave every field they do not name as it is. *)
Lemma apply_check_values_other (check_values : list (string * PyVal)) (page : Page)
    (k : string) :
  Forall (λ kv, kv.1 ≠ k) check_values →
  fields (apply_check_values page check_values) !! k = fields page !! k.
Proof.
  unfold apply_check_values. intros Hne. revert page.
  induction Hne as [|[field_name checked] rest Hk _ IH]; intros page; simpl; [done|].
  rewrite IH. destruct (truthy checked); [|done].
  rewrite update_page_lookup, lookup_singleton_ne; done.
Qed.


Lemma setitem_names (P : string → Prop) (k : string) (v : PyVal) (d : list (string * PyVal)) :
  P k → Forall (λ kv, P kv.1) d → Forall (λ kv, P kv.1) (setitem k v d).
Proof.
  intros Hk. induction 1 as [|[k' v'] d Hk' Hd IH]; simpl; [by repeat constructor|].
  destruct (String.eqb k' k); constructor; done.
Qed.

Ltac names_tac :=
  repeat first
    [ assumption
    | apply setitem_names; [reflexivity|]
    | match goal with |- Forall _ (if ?c then _ else _) => destruct c end ].

Ltac names_step :=
  lazymatch goal with
  | |- Forall ?P (let x := ?a in @?b x) =>
      let x' := fresh "cv" in
      change (let x := a in Forall P (b x)); intros x'; cbv beta;
      try (assert (Forall P x') by (subst x'; names_tac); clearbody x')
  end.

Lemma check_test_answers_names (test : dict) (gauge_type : PyVal)
    (check_values : list (string * PyVal)) :
  Forall (λ kv, check_name kv.1) check_values →
  Forall (λ kv, check_name kv.1) (check_test_answers test gauge_type check_values).
Proof.
  intros Hcv. cbv beta delta [check_test_answers]. repeat names_step. assumption.
Qed.

Lemma check_device_type_names {W} (device : dict) (w : W)
    (check_values : list (string * PyVal)) (w' : W) :
  check_device_type device [] w = (inr check_values, w') →
  w' = w ∧ Forall (λ kv, check_name kv.1) check_values.
Proof.
  unfold check_device_type.
  destruct (get_d device "typeMain" (VStr "")) as [| | | |s| |];
    unfold ret, raise; intros [= <- <-]; (split; [done|]); try constructor.
  destruct (type_checkbox_map !! s) as [box|] eqn:Hbox; [|constructor].
  constructor; [|constructor]. unfold check_name. simpl.
  unfold type_checkbox_map in Hbox. apply elem_of_list_to_map_2 in Hbox.
  repeat (apply elem_of_cons in Hbox as [[= _ ->]|Hbox]; [reflexivity|]).
  by apply elem_of_nil in Hbox.
Qed.

Lemma tceq_check_values_names {W} (device test : dict) (gauge_type : PyVal) (w : W)
    (check_values : list (string * PyVal)) (w' : W) :
  tceq_check_values device test gauge_type w = (inr check_values, w') →
  w' = w ∧ Forall (λ kv, check_name kv.1) check_values.
Proof.
  unfold tceq_check_values, mbind, M_bind, bind.
  destruct (check_device_type device [] w) as [[e|cv] w1] eqn:Hfirst; [done|].
  apply check_device_type_names in Hfirst as [-> Hcv].
  unfold ret. intros [= <- <-]. split; [done|].
  by apply check_test_answers_names.
Qed.


Lemma text_not_check (k k' : string) : text_name k → check_name k' → k' ≠ k.
Proof.
  unfold text_name, check_name. intros Hk Hk' ->.
  destruct k as [|a k]; [done|]. cbn [String.prefix] in Hk, Hk'.
  destruct (Ascii.ascii_dec "T" a) as [<-|]; [|done].
  by destruct (Ascii.ascii_dec "C" "T").
Qed.

Lemma tceq_text_values_names (device test technician company city_info : dict)
    (customer_name service_address : PyVal) (k : string) (v : PyVal) :
  tceq_text_values device test technician company city_info customer_name service_address
    !! k = Some v →
  text_name k.
Proof.
  unfold tceq_text_values. intros Hk. apply elem_of_list_to_map_2 in Hk.
  repeat (apply elem_of_cons in Hk as [[= -> _]|Hk]; [reflexivity|]).
  by apply elem_of_nil in Hk.
Qed.

Lemma bind_inr_inv {W A B} (m : M W A) (k : A → M W B) (w w' : W) (b : B) :
  bind m k w = (inr b, w') → ∃ a w1, m w = (inr a, w1) ∧ k a w1 = (inr b, w').
Proof.
  unfold bind. destruct (m w) as [[e|a] w1]; [done|]. intros Hk. by exists a, w1.
Qed.

Lemma stateless_bind {W A B} (m : M W A) (k : A → M W B) :
  stateless m → (∀ a, stateless (k a)) → stateless (bind m k).
Proof.
  intros Hm Hk w. unfold bind. specialize (Hm w).
  destruct (m w) as [[e|a] w1]; simpl in *; subst w1; [done|apply Hk].
Qed.

Lemma stateless_ret {W A} (a : A) : stateless (ret (W:=W) a).
Proof. done. Qed.

Lemma stateless_raise {W A} (e : PyExc) : stateless (raise (W:=W) (A:=A) e).
Proof. done. Qed.

Lemma stateless_or_raise {W A} (e : PyExc) (o : option A) : stateless (or_raise (W:=W) e o).
Proof. by destruct o. Qed.

Lemma stateless_gets {W A} (f : W → A) : stateless (gets f).
Proof. done. Qed.

Lemma stateless_as_dict {W} (v : PyVal) : stateless (as_dict (W:=W) v).
Proof. by destruct v. Qed.

Lemma stateless_find_gauge {W} (gauges : list PyVal) (gauge_type : PyVal) :
  stateless (find_gauge (W:=W) gauges gauge_type).
Proof.
  induction gauges as [|g rest IH]; simpl; [done|].
  apply stateless_bind; [apply stateless_as_dict|]. intros g_d. by destruct (py_eq _ _).
Qed.

Lemma stateless_find_gauge_in {W} (gauges gauge_type : PyVal) :
  stateless (find_gauge_in (W:=W) gauges gauge_type).
Proof.
  destruct gauges; simpl; try done; try apply stateless_find_gauge;
    by destruct (negb _).
Qed.

Lemma stateless_find_by_id {W} (l : list dict) (id : PyVal) :
  stateless (find_by_id (W:=W) l id).
Proof.
  induction l as [|d l IH]; simpl; [done|].
  apply stateless_bind; [apply stateless_or_raise|]. intros d_id. by destruct (py_eq _ _).
Qed.

Lemma stateless_get_city_info (city_code : PyVal) : stateless (get_city_info city_code).
Proof.
  unfold get_city_info. destruct (negb _); [done|]. by destruct city_code.
Qed.

Lemma stateless_check_device_type {W} (device : dict) (cv : list (string * PyVal)) :
  stateless (check_device_type (W:=W) device cv).
Proof. unfold check_device_type. by destruct (get_d _ _ _). Qed.

Lemma stateless_tceq_check_values {W} (device test : dict) (gauge_type : PyVal) :
  stateless (tceq_check_values (W:=W) device test gauge_type).
Proof.
  apply stateless_bind; [apply stateless_check_device_type|]. intros. apply stateless_ret.
Qed.

(** Filling the form prints nothing and changes no global. *)
Lemma stateless_fill_tceq_pdf (device test : dict) (technician company : PyVal)
    (city_info : dict) (customer_name service_address : PyVal) :
  stateless (_fill_tceq_pdf device test technician company city_info
                            customer_name service_address).
Proof.
  unfold _fill_tceq_pdf.
  apply stateless_bind; [apply stateless_gets|]. intros template.
  apply stateless_bind; [apply stateless_or_raise|]. intros template_bytes.
  apply stateless_bind; [apply stateless_or_raise|]. intros writer_pages.
  apply stateless_bind; [apply stateless_as_dict|]. intros technician_d.
  apply stateless_bind; [apply stateless_find_gauge_in|]. intros gauge.
  apply stateless_bind; [apply stateless_as_dict|]. intros company_d.
  destruct writer_pages as [|page0 rest]; [apply stateless_raise|].
  apply stateless_bind; [apply stateless_tceq_check_values|]. intros. apply stateless_ret.
Qed.

(** What a fill that returns has done: the first page of the template has
    taken the text values that are not blank, then the checkboxes. *)
(** A blank text value reaches neither update of the page. *)
Lemma blank_field_kept (text_values : gmap string PyVal) (page0 : Page)
    (check_values : list (string * PyVal)) (k : string) (v : PyVal) :
  text_values !! k = Some v → truthy v = false →
  text_name k → Forall (λ kv, check_name kv.1) check_values →
  fields (apply_check_values
            (update_page_form_field_values page0 (drop_blank text_values)) check_values) !! k
  = fields page0 !! k.
Proof.
  intros Hk Hv Htext Hnames. rewrite apply_check_values_other.
  - by rewrite update_page_lookup, (drop_blank_lookup_blank _ _ _ Hk Hv).
  - eapply Forall_impl; [exact Hnames|]. intros [k' v'] Hk'. by eapply text_not_check.
Qed.

#[local] Opaque tceq_text_values drop_blank update_page_form_field_values apply_check_values.

Lemma fill_tceq_pdf_inv (device test : dict) (technician company : PyVal)
    (city_info : dict) (customer_name service_address : PyVal) (w w' : Backflow)
    (out : list byte) :
  _fill_tceq_pdf device test technician company city_info customer_name service_address w
    = (inr out, w') →
  ∃ template page0 rest technician_d company_d check_values,
    TCEQ_pdf w = Some template
    ∧ pdf_parse template = Some (page0 :: rest)
    ∧ technician = VDict technician_d
    ∧ company = VDict company_d
    ∧ Forall (λ kv, check_name kv.1) check_values
    ∧ out = pdf_write
              (apply_check_values
                 (update_page_form_field_values page0
                    (drop_blank (tceq_text_values device test technician_d company_d
                                   city_info customer_name service_address)))
                 check_values :: rest).
Proof.
  unfold _fill_tceq_pdf, mbind, M_bind. intros Hrun.
  apply bind_inr_inv in Hrun as (o & w1 & Hgets & Hrun).
  injection Hgets as <- <-.
  apply bind_inr_inv in Hrun as (t & w1 & Htemplate & Hrun).
  destruct (TCEQ_pdf w) as [template|] eqn:Hfile; [|done]. injection Htemplate as <- <-.
  apply bind_inr_inv in Hrun as (ps & w1 & Hparse & Hrun).
  destruct (pdf_parse template) as [pages|] eqn:Hpages; [|done]. injection Hparse as <- <-.
  apply bind_inr_inv in Hrun as (d & w1 & Htech & Hrun).
  destruct technician as [| | | | | |td]; try discriminate Htech. injection Htech as <- <-.
  apply bind_inr_inv in Hrun as (gauge & w1 & Hgauge & Hrun).
  pose proof (stateless_find_gauge_in
                (py_or (get td "gauges") (VList []))
                (get_d test "differentialPressureGaugeType" (VStr "Potable")) w) as Hw1.
  rewrite Hgauge in Hw1. cbn [snd] in Hw1. subst w1. clear Hgauge.
  apply bind_inr_inv in Hrun as (d & w1 & Hcomp & Hrun).
  destruct company as [| | | | | |cd]; try discriminate Hcomp. injection Hcomp as <- <-.
  destruct pages as [|page0 rest]; [discriminate Hrun|].
  apply bind_inr_inv in Hrun as (check_values & w1 & Hcv & Hrun).
  apply tceq_check_values_names in Hcv as [-> Hnames].
  unfold ret in Hrun. injection Hrun as Hout _.
  exists template, page0, rest, td, cd, check_values.
  repeat (split; [reflexivity || assumption|]). symmetry. exact Hout.
Qed.

(** C8. In a fill that returns, a text field whose computed value is
    blank (empty, or absent from the data and so defaulted to the empty
    string) is not among the values written to the form: the field keeps
    the value the template has for it.  The values written are exactly the
    computed values that are not blank. *)
Theorem blank_text_fields_keep_their_value (device test technician company city_info : dict)
    (customer_name service_address : PyVal) (w w' : Backflow) (out : list byte)
    (k : string) (v : PyVal) :
  let text_values :=
    tceq_text_values device test technician company city_info
                     customer_name service_address in
  _fill_tceq_pdf device test (VDict technician) (VDict company) city_info
                 customer_name service_address w = (inr out, w') →
  text_values !! k = Some v →
  truthy v = false →
  drop_blank text_values !! k = None
  ∧ (∀ k' v', drop_blank text_values !! k' = Some v'
              ↔ text_values !! k' = Some v' ∧ truthy v' = true)
  ∧ ∃ template page0 rest page0',
      TCEQ_pdf w = Some template
      ∧ pdf_parse template = Some (page0 :: rest)
      ∧ out = pdf_write (page0' :: rest)
      ∧ fields page0' !! k = fields page0 !! k.
Proof.
  intros text_values Hfill Hk Hv.
  split; [exact (drop_blank_lookup_blank _ _ _ Hk Hv)|].
  split; [intros k' v'; apply drop_blank_lookup|].
  apply fill_tceq_pdf_inv in Hfill
    as (template & page0 & rest & td & cd & cvs & Ht & Hp & Htd & Hcd & Hnames & Hout).
  injection Htd as <-. injection Hcd as <-.
  exists template, page0, rest. eexists.
  split; [exact Ht|]. split; [exact Hp|]. split; [exact Hout|].
  apply (blank_field_kept _ _ _ _ _ Hk Hv); [|exact Hnames].
  exact (tceq_text_values_names _ _ _ _ _ _ _ _ _ Hk).
Qed.

End backflow_facts.

(** ** The reference sheet *)

Section reference_run.
Context `{Libs}.

(** A reading is formatted as a string that is not empty. *)
Lemma reading_not_blank (s : string) : s +:+ " PSI" ≠ "".
Proof. by destruct s. Qed.

Ltac sheet_text t :=
  destruct t as [| | | |?s| |];
  [reflexivity..| |reflexivity|reflexivity].

(** The reference sheet, or the exception of its first value that cannot
    be drawn. *)
Lemma generate_reference_pdf_run (device test city_info : dict) (city_code : PyVal) :
  _generate_reference_pdf device test city_info city_code
  = if forallb drawable (reference_values device test city_info city_code)
    then inr (canvas_getvalue letter
                [reference_sheet_ops device test city_info city_code])
    else inl AttributeError.
Proof.
  cbv beta delta [_generate_reference_pdf reference_sheet reference_values
                  reference_sheet_ops readings_of draw_reading draw_field field_ops
                  forallb drawable omap list_omap].
  cbv beta iota zeta.
  generalize (reading_not_blank (py_str (get test "firstCheckReadingInitial"))).
  generalize (py_str (get test "firstCheckReadingInitial") +:+ " PSI") as r1.
  generalize (reading_not_blank (py_str (get test "secondCheckReadingInitial"))).
  generalize (py_str (get test "secondCheckReadingInitial") +:+ " PSI") as r2.
  generalize (reading_not_blank (py_str (get test "reliefValveReadingInitial"))).
  generalize (py_str (get test "reliefValveReadingInitial") +:+ " PSI") as r3.
  generalize (truthy (get test "firstCheckReadingInitial")) as b1.
  generalize (truthy (get test "secondCheckReadingInitial")) as b2.
  generalize (truthy (get test "reliefValveReadingInitial")) as b3.
  generalize (py_str city_code) as cc.
  generalize (py_str (get_d device "serialMain" (VStr ""))) as serial.
  generalize (py_or (py_or (get city_info "pwsName") city_code) (VStr "N/A")) as t1.
  generalize (py_or (py_or (get city_info "pwsId") (VStr "")) (VStr "N/A")) as t2.
  generalize (py_or (py_or (get city_info "pwsAddress") (VStr "")) (VStr "N/A")) as t3.
  generalize (py_or (py_or (get city_info "pwsContact") (VStr "")) (VStr "N/A")) as t4.
  generalize (py_or (py_or (get device "typeMain") (VStr "")) (VStr "N/A")) as t5.
  generalize (py_or (py_or (get device "manufacturerMain") (VStr "")) (VStr "N/A")) as t6.
  generalize (py_or (py_or (get device "modelMain") (VStr "")) (VStr "N/A")) as t7.
  generalize (py_or (py_or (get device "serialMain") (VStr "")) (VStr "N/A")) as t8.
  generalize (py_or (py_or (get device "sizeMain") (VStr "")) (VStr "N/A")) as t9.
  generalize (py_or (py_or (get test "testDateInitial") (VStr "")) (VStr "N/A")) as t10.
  generalize (py_or (py_or (get test "testTimeInitial") (VStr "")) (VStr "N/A")) as t11.
  generalize (py_or (py_or (get test "testResult") (VStr "Not Tested")) (VStr "N/A")) as t12.
  clear device test city_info city_code.
  intros t12 t11 t10 t9 t8 t7 t6 t5 t4 t3 t2 t1 serial cc b3 b2 b1 r3 Hr3 r2 Hr2 r1 Hr1.
  destruct r1 as [|a1 r1]; [done|]. destruct r2 as [|a2 r2]; [done|].
  destruct r3 as [|a3 r3]; [done|]. clear Hr1 Hr2 Hr3.
  sheet_text t1. sheet_text t2. sheet_text t3. sheet_text t4. sheet_text t5. sheet_text t6.
  sheet_text t7. sheet_text t8. sheet_text t9. sheet_text t10. sheet_text t11.
  sheet_text t12.
  destruct b1, b2, b3; vm_compute; reflexivity.
Qed.

End reference_run.

(** ** The fallback of the handler *)

Section fallback_facts.
Context `{Libs}.

Lemma stateless_run {W A} (m : M W A) (w : W) : stateless m → m w = ((m w).1, w).
Proof. intros Hm. specialize (Hm w). destruct (m w) as [r w1]. simpl in *. by subst. Qed.

(** A dict found by its id has one. *)
Lemma find_by_id_found {W} (l : list dict) (id : PyVal) (w : W) (d : dict) :
  (find_by_id l id w).1 = inr (Some d) → d ∈ l ∧ is_Some (d !! "id").
Proof.
  induction l as [|d' l IH]; simpl; [done|].
  unfold mbind, M_bind, bind, or_raise.
  destruct (d' !! "id") as [d_id|] eqn:Hid; [|done]. unfold ret at 1.
  destruct (py_eq d_id id).
  - intros [= <-]. split; [apply elem_of_cons; by left|by eexists].
  - intros Hfind. destruct (IH Hfind) as [Hin Hsome]. split; [apply elem_of_cons; by right|done].
Qed.

Lemma truthy_dict_with_id (d : dict) : is_Some (d !! "id") → truthy (VDict d) = true.
Proof.
  intros [v Hv]. simpl. apply negb_true_iff, bool_decide_eq_false. intros ->.
  by rewrite lookup_empty in Hv.
Qed.

#[local] Opaque _generate_reference_pdf _fill_tceq_pdf reference_sheet_ops.

(** The [try] statement hands over to the reference renderer when the
    fill raises, and says so: its result is the sheet, or the exception of
    the renderer. *)
Lemma tceq_or_reference_falls_back (device test : dict) (technician company : PyVal)
    (city_info : dict) (customer_name service_address city_code : PyVal)
    (w : Backflow) (e : PyExc) :
  (_fill_tceq_pdf device test technician company city_info
                  customer_name service_address w).1 = inl e →
  tceq_or_reference device test technician company city_info
                    customer_name service_address city_code w
  = (_generate_reference_pdf device test city_info city_code,
     (bf_print (TceqFillError e) w).2).
Proof.
  intros Hfill. unfold tceq_or_reference, try_except.
  rewrite (stateless_run _ w (stateless_fill_tceq_pdf _ _ _ _ _ _ _)), Hfill.
  reflexivity.
Qed.

(** The handler from the [try] statement on, once the device and the
    test record are found and the city is looked up. *)
Lemma generate_pdf_found (body : dict) (w : Backflow) (device test : dict)
    (found : option dict) :
  let city_code := get_d body "cityCode" (VStr "") in
  let city_info :=
    match found with
    | Some d => if truthy (VDict d) then d else ∅
    | None => ∅
    end in
  (find_by_id (_devices w) (get body "deviceId") w).1 = inr (Some device) →
  (find_by_id (_test_records w) (get body "testRecordId") w).1 = inr (Some test) →
  (get_city_info city_code w).1 = inr found →
  generate_pdf body w
  = match tceq_or_reference device test
            (py_or (get body "technician") (VDict ∅)) (py_or (get body "company") (VDict ∅))
            city_info (get_d body "customerName" (VStr ""))
            (get_d body "serviceAddress" (VStr "")) city_code w with
    | (inl e, w1) => (inl e, w1)
    | (inr pdf_bytes, w1) =>
        let file_name :=
          "TCEQ_" +:+ py_str (get_d device "serialMain" (VStr "unknown")) +:+ "_"
          +:+ py_str (get_d test "testDateInitial" (VStr "unknown")) +:+ ".pdf" in
        let outcome := st_upload w1 (get body "jobId") file_name pdf_bytes in
        let pdf_record : dict :=
          list_to_map
            [("id", VStr ("pdf-" +:+ pretty (_pdf_counter w1)));
             ("deviceId", get body "deviceId");
             ("testRecordId", get body "testRecordId");
             ("jobId", get body "jobId");
             ("fileName", VStr file_name);
             ("cityCode", city_code);
             ("serviceTitanAttachmentId",
              match outcome with UploadDone id => id | _ => VNone end);
             ("createdAt", VStr (utcnow w1))] in
        (inr (list_to_map [("success", VBool true); ("data", VDict pdf_record)]),
         mkBackflow (_devices w1) (_test_records w1) (_generated_pdfs w1 ++ [pdf_record])
                    (_pdf_counter w1 + 1) (_cities w1) (TCEQ_pdf w1) (st_upload w1)
                    (utcnow w1) (bf_stdout w1 ++ [upload_log outcome]))
    end.
Proof.
  intros city_code city_info Hdev Htest Hcity.
  destruct (find_by_id_found _ _ _ _ Hdev) as [_ Hd%truthy_dict_with_id].
  destruct (find_by_id_found _ _ _ _ Htest) as [_ Ht%truthy_dict_with_id].
  unfold generate_pdf, mbind, M_bind.
  erewrite bind_inr by reflexivity.
  erewrite bind_inr;
    [|rewrite (stateless_run _ w (stateless_find_by_id _ _)), Hdev; reflexivity].
  erewrite bind_inr by reflexivity.
  erewrite bind_inr;
    [|rewrite (stateless_run _ w (stateless_find_by_id _ _)), Htest; reflexivity].
  cbv beta iota. rewrite Hd, Ht. cbn [negb orb].
  erewrite bind_inr;
    [|rewrite (stateless_run _ w (stateless_get_city_info _)); fold city_code;
      rewrite Hcity; reflexivity].
  cbv beta zeta. fold city_code city_info.
  unfold bind at 1.
  destruct (tceq_or_reference _ _ _ _ _ _ _ _ w) as [[e|pdf_bytes] w1]; reflexivity.
Qed.

(** C9, as amended. Once the device and the test record are found and
    the city looked up, a fill of the named fields that raises, whatever it
    raises, is caught: the handler prints the failure and hands over to
    the reference renderer.  When every value the sheet draws is a string,
    or is falsy, the renderer returns the reference sheet - its one page
    with the title, the line of the city and the device, the three
    sections and the readings - and the handler uploads that document and
    returns its record with [success] true. *)
Theorem tceq_fill_failure_falls_back (body : dict) (w : Backflow) (device test : dict)
    (found : option dict) (e : PyExc) :
  let device_id := get body "deviceId" in
  let test_record_id := get body "testRecordId" in
  let job_id := get body "jobId" in
  let city_code := get_d body "cityCode" (VStr "") in
  let technician := py_or (get body "technician") (VDict ∅) in
  let company := py_or (get body "company") (VDict ∅) in
  let customer_name := get_d body "customerName" (VStr "") in
  let service_address := get_d body "serviceAddress" (VStr "") in
  let city_info :=
    match found with
    | Some d => if truthy (VDict d) then d else ∅
    | None => ∅
    end in
  let reference :=
    canvas_getvalue letter [reference_sheet_ops device test city_info city_code] in
  let file_name :=
    "TCEQ_" +:+ py_str (get_d device "serialMain" (VStr "unknown")) +:+ "_"
    +:+ py_str (get_d test "testDateInitial" (VStr "unknown")) +:+ ".pdf" in
  (find_by_id (_devices w) device_id w).1 = inr (Some device) →
  (find_by_id (_test_records w) test_record_id w).1 = inr (Some test) →
  (get_city_info city_code w).1 = inr found →
  (_fill_tceq_pdf device test technician company city_info
                  customer_name service_address w).1 = inl e →
  forallb drawable (reference_values device test city_info city_code) = true →
  _generate_reference_pdf device test city_info city_code = inr reference
  ∧ tceq_or_reference device test technician company city_info
                      customer_name service_address city_code w
    = (inr reference, (bf_print (TceqFillError e) w).2)
  ∧ ∃ result w' pdf_record,
      generate_pdf body w = (inr result, w')
      ∧ result !! "success" = Some (VBool true)
      ∧ result !! "data" = Some (VDict pdf_record)
      ∧ pdf_record !! "fileName" = Some (VStr file_name)
      ∧ _generated_pdfs w' = _generated_pdfs w ++ [pdf_record]
      ∧ bf_stdout w'
        = bf_stdout w
          ++ [TceqFillError e; upload_log (st_upload w job_id file_name reference)].
Proof.
  intros device_id test_record_id job_id city_code technician company customer_name
         service_address city_info reference file_name Hdev Htest Hcity Hfill Hdrawable.
  assert (Hsheet : _generate_reference_pdf device test city_info city_code = inr reference).
  { by rewrite generate_reference_pdf_run, Hdrawable. }
  pose proof (tceq_or_reference_falls_back device test technician company city_info
                customer_name service_address city_code w e Hfill) as Htry.
  rewrite Hsheet in Htry.
  split; [exact Hsheet|]. split; [exact Htry|].
  pose proof (generate_pdf_found body w device test found Hdev Htest Hcity) as Hrun.
  cbv zeta in Hrun. fold city_code city_info technician company customer_name
                         service_address in Hrun.
  rewrite Htry in Hrun.
  eexists _, _, _. split; [exact Hrun|].
  split; [reflexivity|]. split; [reflexivity|]. split; [reflexivity|].
  split; [reflexivity|].
  cbn [bf_print modify snd bf_stdout st_upload]. rewrite <- app_assoc. reflexivity.
Qed.

End fallback_facts.

(** C9 as stated fails on a device whose type is the number 5 when the
    template is missing: the fill raises, the handler prints the failure,
    and the reference renderer raises on the number, so that the request
    fails. *)
Lemma number_in_device_fails_the_fallback :
  (find_by_id (H:=example_libs) (_devices numeric_type_backflow)
              (get example_body "deviceId") numeric_type_backflow).1
  = inr (Some numeric_type_device)
  ∧ (_fill_tceq_pdf (H:=example_libs) numeric_type_device example_test (VDict ∅) (VDict ∅)
                    ∅ (VStr "") (VStr "") numeric_type_backflow).1
    = inl FileNotFoundError
  ∧ _generate_reference_pdf (H:=example_libs) numeric_type_device example_test ∅ (VStr "")
    = inl AttributeError
  ∧ generate_pdf (H:=example_libs) example_body numeric_type_backflow
    = (inl AttributeError,
       (bf_print (TceqFillError FileNotFoundError) numeric_type_backflow).2).
Proof. repeat split; vm_compute; reflexivity. Qed.
(** ** The theorems at concrete inputs *)

Lemma generate_filled_pdf_keeps_pages_witness :
  pdf_parse (Libs:=example_libs) example_pdf = Some example_pages
  ∧ ∃ out_pages w',
      generate_filled_pdf (H:=example_libs) example_pdf
                          [hello_element; unreadable_checkbox] World_init
        = (inr (pdf_write (Libs:=example_libs) out_pages), w')
      ∧ length out_pages = length example_pages
      ∧ Forall2 page_kept example_pages out_pages.
Proof.
  split; [reflexivity|].
  apply (generate_filled_pdf_keeps_pages (H:=example_libs)). reflexivity.
Defined.

Lemma build_overlay_isolates_element_errors_witness :
  let start := mkWorld (stdout World_init) (Canvas_new (612, 792)%Q) in
  let wb := (for_each [hello_element] (guarded_element (H:=example_libs) 792 612) start).2 in
  let reported :=
    mkWorld (stdout wb ++ [ElementRenderError (get unreadable_checkbox "type") ValueError])
            (canvas wb) in
  let wa := (for_each [zero_height_checkbox] (guarded_element (H:=example_libs) 792 612)
                      reported).2 in
  (render_element (H:=example_libs) unreadable_checkbox 792 612 wb).1 = inl ValueError
  ∧ pdf_parse (Libs:=example_libs) example_pdf = Some example_pages
  ∧ _build_overlay (H:=example_libs)
      ([hello_element] ++ unreadable_checkbox :: [zero_height_checkbox]) 792 612 World_init
      = (inr (Canvas_save (canvas wa)), wa)
  ∧ ∃ out w',
      generate_filled_pdf (H:=example_libs) example_pdf
                          [hello_element; unreadable_checkbox] World_init = (inr out, w').
Proof.
  intros start wb reported wa.
  assert (Hbad : (render_element (H:=example_libs) unreadable_checkbox 792 612 wb).1
                 = inl ValueError) by (vm_compute; reflexivity).
  assert (Hparse : pdf_parse (Libs:=example_libs) example_pdf = Some example_pages)
    by reflexivity.
  split; [exact Hbad|]. split; [exact Hparse|].
  exact (build_overlay_isolates_element_errors (H:=example_libs)
           [hello_element] [zero_height_checkbox] unreadable_checkbox 792 612 ValueError
           World_init example_pdf example_pages [hello_element; unreadable_checkbox]
           Hbad Hparse).
Defined.

Lemma generate_filled_pdf_invalid_source_witness :
  pdf_parse (Libs:=example_libs) not_a_pdf = None
  ∧ resp_content (mkResponse true 200 not_a_pdf) = not_a_pdf
  ∧ is_success (mkResponse true 200 not_a_pdf) = true
  ∧ truthy (py_or (get example_save_body "editableElements") (VList [])) = true
  ∧ generate_filled_pdf (H:=example_libs) not_a_pdf [hello_element] World_init
    = (inl PdfReadError, World_init)
  ∧ save_attachment (H:=example_libs) example_save_body (mkResponse true 200 not_a_pdf)
                    World_init
    = (inl (HTTPException 500
              (if bool_decide (not_a_pdf = [])
                  || negb (bool_decide (take 4 not_a_pdf = PDF_MAGIC))
               then "Downloaded file is not a valid PDF"
               else "PDF generation failed")),
       World_init).
Proof.
  assert (Hparse : pdf_parse (Libs:=example_libs) not_a_pdf = None) by reflexivity.
  assert (Hels : truthy (py_or (get example_save_body "editableElements") (VList [])) = true)
    by (vm_compute; reflexivity).
  split; [exact Hparse|]. split; [reflexivity|]. split; [reflexivity|].
  split; [exact Hels|].
  exact (generate_filled_pdf_invalid_source (H:=example_libs) not_a_pdf [hello_element]
           example_save_body (mkResponse true 200 not_a_pdf) World_init
           Hparse eq_refl eq_refl Hels).
Defined.

Lemma element_without_page_is_on_page_1_witness :
  pdf_parse (Libs:=example_libs) example_pdf
  = Some [mkPage 612%Q 792%Q [SourceContent example_pdf] example_fields]
  ∧ no_page_element ∈ [off_page_element; no_page_element]
  ∧ no_page_element !! "page" = None
  ∧ element_ops (H:=example_libs) 792 612 no_page_element
    = [DrawString 100 673 (VStr "Hello World") "Helvetica" 12 black]
  ∧ ∃ out1 out_rest w',
      generate_filled_pdf (H:=example_libs) example_pdf
                          [off_page_element; no_page_element] World_init
        = (inr (pdf_write (Libs:=example_libs) (out1 :: out_rest)), w')
      ∧ ∀ op, op ∈ element_ops (H:=example_libs) 792 612 no_page_element →
              OverlayContent
                (page_ops (H:=example_libs) [off_page_element; no_page_element] 1
                   (mkPage 612%Q 792%Q [SourceContent example_pdf] example_fields))
              ∈ contents out1.
Proof.
  assert (Hparse : pdf_parse (Libs:=example_libs) example_pdf
                   = Some [mkPage 612%Q 792%Q [SourceContent example_pdf] example_fields])
    by reflexivity.
  assert (Hin : no_page_element ∈ [off_page_element; no_page_element])
    by (apply elem_of_cons; right; apply elem_of_cons; by left).
  assert (Hnone : no_page_element !! "page" = None) by (vm_compute; reflexivity).
  split; [exact Hparse|]. split; [exact Hin|]. split; [exact Hnone|].
  split; [vm_compute; reflexivity|].
  destruct (element_without_page_is_on_page_1 (H:=example_libs) example_pdf
              [off_page_element; no_page_element] no_page_element _ _ World_init
              Hparse Hin Hnone) as (_ & _ & out1 & out_rest & w' & Hrun & _ & Hops).
  exists out1, out_rest, w'. split; [exact Hrun|].
  intros op Hop. exact (proj2 (Hops op Hop)).
Defined.

Lemma checkbox_mark_iff_checked_witness :
  py_eq_str (get_d zero_height_checkbox "type" (VStr "")) "checkbox" = true
  ∧ let content := get_d zero_height_checkbox "content" (VStr "") in
    let r := guarded_element (H:=example_libs) 792 612 zero_height_checkbox World_init in
    r.1 = inr tt
    ∧ code (canvas r.2)
      = code (canvas World_init)
        ++ match element_fields (H:=example_libs) zero_height_checkbox with
           | inr f => if is_checked content then [checkbox_mark 792 f] else []
           | inl _ => []
           end
    ∧ (is_checked content = true
       ↔ content = VBool true ∨ content = VStr "true" ∨ content = VInt 1
         ∨ ∃ q, content = VFloat q ∧ (q == 1)%Q)
    ∧ Forall (λ c, is_checked c = false)
             [VBool false; VStr "false"; VNone; VInt 0; VStr ""; VStr "yes"].
Proof.
  assert (Hcb : py_eq_str (get_d zero_height_checkbox "type" (VStr "")) "checkbox" = true)
    by (vm_compute; reflexivity).
  split; [exact Hcb|].
  exact (checkbox_mark_iff_checked (H:=example_libs) zero_height_checkbox 792 612 World_init
           Hcb).
Defined.

Lemma signature_is_scaled_to_fit_witness :
  py_eq_str (get_d example_signature_element "type" (VStr "")) "signature" = true
  ∧ get_d example_signature_element "content" (VStr "") = VStr example_signature
  ∧ startswith example_signature "data:image/" = true
  ∧ element_fields (H:=example_libs) example_signature_element
    = inr (mkElementFields 100%Q 200%Q 150%Q 50%Q 11%Q "#1e3a8a")
  ∧ b64decode (Libs:=example_libs) (strip_data_uri example_signature)
    = Some [Byte.x14; Byte.x0a]
  ∧ Image_open (Libs:=example_libs) [Byte.x14; Byte.x0a] = Some example_image
  ∧ Image_save_png (Libs:=example_libs) example_image = Some []
  ∧ 0 < img_width example_image
  ∧ 0 < img_height example_image
  ∧ (0 < 50)%Q
  ∧ ∃ dw dh,
      render_element (H:=example_libs) example_signature_element 792 612 World_init
        = (inr tt,
           mkWorld [] (Canvas_drawImage 100 (pdf_y_of 792 200 50) dw dh []
                                        (canvas World_init)))
      ∧ (dw == 100)%Q ∧ (dh == 50)%Q.
Proof.
  assert (Htype : py_eq_str (get_d example_signature_element "type" (VStr "")) "signature"
                  = true) by (vm_compute; reflexivity).
  assert (Hcontent : get_d example_signature_element "content" (VStr "")
                     = VStr example_signature) by (vm_compute; reflexivity).
  assert (Hprefix : startswith example_signature "data:image/" = true)
    by (vm_compute; reflexivity).
  assert (Hf : element_fields (H:=example_libs) example_signature_element
               = inr (mkElementFields 100%Q 200%Q 150%Q 50%Q 11%Q "#1e3a8a"))
    by (vm_compute; reflexivity).
  assert (Hb64 : b64decode (Libs:=example_libs) (strip_data_uri example_signature)
                 = Some [Byte.x14; Byte.x0a]) by (vm_compute; reflexivity).
  assert (Hopen : Image_open (Libs:=example_libs) [Byte.x14; Byte.x0a] = Some example_image)
    by (vm_compute; reflexivity).
  assert (Hw : 0 < img_width example_image) by (simpl; lia).
  assert (Hh : 0 < img_height example_image) by (simpl; lia).
  assert (Hpos : (0 < 50)%Q) by reflexivity.
  split; [exact Htype|]. split; [exact Hcontent|]. split; [exact Hprefix|].
  split; [exact Hf|]. split; [exact Hb64|]. split; [exact Hopen|]. split; [reflexivity|].
  split; [exact Hw|]. split; [exact Hh|]. split; [exact Hpos|].
  destruct (signature_is_scaled_to_fit (H:=example_libs) example_signature_element
              (mkElementFields 100%Q 200%Q 150%Q 50%Q 11%Q "#1e3a8a") 792 612 World_init
              example_signature [Byte.x14; Byte.x0a] example_image []
              Htype Hcontent Hprefix Hf Hb64 Hopen eq_refl Hw Hh Hpos)
    as (_ & _ & _ & dw & dh & Hrun & _ & Hcase & _).
  exists dw, dh. split; [exact Hrun|].
  match type of Hcase with
  | (if ?c then _ else _) => assert (Hc : c = true) by (vm_compute; reflexivity)
  end.
  rewrite Hc in Hcase. destruct Hcase as [Hdw Hdh].
  split; [rewrite Hdw|rewrite Hdh]; reflexivity.
Defined.

Lemma element_fill_color_witness :
  ((no_color_element !! "color" = None ∧ brand_blue = brand_blue)
   ∨ (∃ s, no_color_element !! "color" = Some (VStr s) ∧ s ≠ ""
           ∧ HexColor (hashed s) = None ∧ brand_blue = black))
  ∧ ∃ ops,
      code (canvas (render_element (H:=example_libs) no_color_element 792 612 World_init).2)
        = code (canvas World_init) ++ ops
      ∧ Forall (filled_with brand_blue) ops.
Proof.
  assert (Hcase : (no_color_element !! "color" = None ∧ brand_blue = brand_blue)
                  ∨ (∃ s, no_color_element !! "color" = Some (VStr s) ∧ s ≠ ""
                          ∧ HexColor (hashed s) = None ∧ brand_blue = black)).
  { left. split; [vm_compute; reflexivity|reflexivity]. }
  split; [exact Hcase|].
  exact (element_fill_color (H:=example_libs) no_color_element 792 612 World_init
           brand_blue Hcase).
Defined.

Lemma blank_text_fields_keep_their_value_witness :
  let w := example_backflow (Some example_pdf) in
  let text_values :=
    tceq_text_values (H:=example_libs) example_device example_test ∅ ∅ ∅
                     (VStr "") (VStr "1 Main St") in
  _fill_tceq_pdf (H:=example_libs) example_device example_test (VDict ∅) (VDict ∅) ∅
                 (VStr "") (VStr "1 Main St") w = (inr PDF_MAGIC, w)
  ∧ text_values !! "Text Field_6_1_2" = Some (VStr "")
  ∧ truthy (VStr "") = false
  ∧ drop_blank text_values !! "Text Field_6_1_2" = None
  ∧ (∀ k' v', drop_blank text_values !! k' = Some v'
              ↔ text_values !! k' = Some v' ∧ truthy v' = true)
  ∧ ∃ template page0 rest page0',
      TCEQ_pdf w = Some template
      ∧ pdf_parse (Libs:=example_libs) template = Some (page0 :: rest)
      ∧ PDF_MAGIC = pdf_write (Libs:=example_libs) (page0' :: rest)
      ∧ fields page0' !! "Text Field_6_1_2" = fields page0 !! "Text Field_6_1_2".
Proof.
  intros w text_values.
  assert (Hfill : _fill_tceq_pdf (H:=example_libs) example_device example_test
                    (VDict ∅) (VDict ∅) ∅ (VStr "") (VStr "1 Main St") w
                  = (inr PDF_MAGIC, w)) by (vm_compute; reflexivity).
  assert (Hk : text_values !! "Text Field_6_1_2" = Some (VStr ""))
    by (vm_compute; reflexivity).
  split; [exact Hfill|]. split; [exact Hk|]. split; [reflexivity|].
  exact (blank_text_fields_keep_their_value (H:=example_libs) example_device example_test
           ∅ ∅ ∅ (VStr "") (VStr "1 Main St") w w PDF_MAGIC "Text Field_6_1_2" (VStr "")
           Hfill Hk eq_refl).
Defined.

Lemma tceq_fill_failure_falls_back_witness :
  let w := example_backflow None in
  let device_id := get example_body "deviceId" in
  let test_record_id := get example_body "testRecordId" in
  let job_id := get example_body "jobId" in
  let city_code := get_d example_body "cityCode" (VStr "") in
  let technician := py_or (get example_body "technician") (VDict ∅) in
  let company := py_or (get example_body "company") (VDict ∅) in
  let customer_name := get_d example_body "customerName" (VStr "") in
  let service_address := get_d example_body "serviceAddress" (VStr "") in
  let reference :=
    canvas_getvalue (Libs:=example_libs) letter
      [reference_sheet_ops (H:=example_libs) example_device example_test ∅ city_code] in
  let file_name :=
    "TCEQ_" +:+ py_str (H:=example_libs) (get_d example_device "serialMain" (VStr "unknown"))
    +:+ "_"
    +:+ py_str (H:=example_libs) (get_d example_test "testDateInitial" (VStr "unknown"))
    +:+ ".pdf" in
  (find_by_id (H:=example_libs) (_devices w) device_id w).1 = inr (Some example_device)
  ∧ (find_by_id (H:=example_libs) (_test_records w) test_record_id w).1
    = inr (Some example_test)
  ∧ (get_city_info city_code w).1 = inr None
  ∧ (_fill_tceq_pdf (H:=example_libs) example_device example_test technician company ∅
                    customer_name service_address w).1 = inl FileNotFoundError
  ∧ forallb drawable
            (reference_values example_device example_test ∅ city_code)
    = true
  ∧ _generate_reference_pdf (H:=example_libs) example_device example_test ∅ city_code
    = inr reference
  ∧ tceq_or_reference (H:=example_libs) example_device example_test technician company ∅
                      customer_name service_address city_code w
    = (inr reference, (bf_print (TceqFillError FileNotFoundError) w).2)
  ∧ ∃ result w' pdf_record,
      generate_pdf (H:=example_libs) example_body w = (inr result, w')
      ∧ result !! "success" = Some (VBool true)
      ∧ result !! "data" = Some (VDict pdf_record)
      ∧ pdf_record !! "fileName" = Some (VStr file_name)
      ∧ _generated_pdfs w' = _generated_pdfs w ++ [pdf_record]
      ∧ bf_stdout w'
        = bf_stdout w
          ++ [TceqFillError FileNotFoundError;
              upload_log (st_upload w job_id file_name reference)].
Proof.
  intros w device_id test_record_id job_id city_code technician company customer_name
         service_address reference file_name.
  assert (Hdev : (find_by_id (H:=example_libs) (_devices w) device_id w).1
                 = inr (Some example_device)) by (vm_compute; reflexivity).
  assert (Htest : (find_by_id (H:=example_libs) (_test_records w) test_record_id w).1
                  = inr (Some example_test)) by (vm_compute; reflexivity).
  assert (Hcity : (get_city_info city_code w).1 = inr None) by (vm_compute; reflexivity).
  assert (Hfill : (_fill_tceq_pdf (H:=example_libs) example_device example_test technician
                     company ∅ customer_name service_address w).1 = inl FileNotFoundError)
    by (vm_compute; reflexivity).
  assert (Hdrawable : forallb drawable
                        (reference_values example_device example_test ∅
                                          city_code) = true)
    by (vm_compute; reflexivity).
  split; [exact Hdev|]. split; [exact Htest|]. split; [exact Hcity|]. split; [exact Hfill|].
  split; [exact Hdrawable|].
  exact (tceq_fill_failure_falls_back (H:=example_libs) example_body w example_device
           example_test None FileNotFoundError Hdev Htest Hcity Hfill Hdrawable).
Defined.

(** * Further properties of the code *)

(** ** The overlay renderer and the compositor *)

Section more_pdf_service.
Context `{Libs}.

(** White space only strips to nothing. *)
Lemma lstrip_spaces (s : string) :
  Forall (λ a, is_space a = true) (list_ascii_of_string s) → lstrip s = "".
Proof.
  induction s as [|a s IH]; simpl; [done|].
  intros Hall. inversion Hall as [|? ? Ha Hs]; subst. rewrite Ha. by apply IH.
Qed.

Lemma strip_spaces (s : string) :
  Forall (λ a, is_space a = true) (list_ascii_of_string s) → strip s = "".
Proof. intros Hall. unfold strip. by rewrite lstrip_spaces. Qed.

(** X1. A text, date or timestamp whose content is falsy, or a string of
    white space only, is skipped: when its fields can be read, rendering it
    returns with nothing drawn and nothing printed. *)
Theorem blank_text_element_draws_nothing (element : dict) (f : ElementFields)
    (page_height page_width : Q) (w : World) :
  is_text_type element = true →
  element_fields element = inr f →
  truthy (get_d element "content" (VStr "")) = false
  ∨ (∃ s, get_d element "content" (VStr "") = VStr s
          ∧ Forall (λ a, is_space a = true) (list_ascii_of_string s)) →
  render_element element page_height page_width w = (inr tt, w).
Proof.
  intros Htype Hf Hblank. rewrite render_element_read_place, Hf.
  unfold place_element. unfold is_text_type in Htype. rewrite Htype.
  rewrite draw_text_run.
  replace (text_skipped (get_d element "content" (VStr ""))) with true; [done|].
  symmetry. unfold text_skipped. destruct Hblank as [Hfalsy|(s & Hs & Hall)].
  - by rewrite Hfalsy.
  - rewrite Hs. cbn [py_str]. rewrite (strip_spaces _ Hall). apply orb_true_r.
Qed.

(** X3. A signature whose content is not a string that starts with
    [data:image/] is skipped: when its fields can be read, rendering it
    returns with nothing drawn and nothing printed. *)
Theorem signature_without_data_uri_is_skipped (element : dict) (f : ElementFields)
    (page_height page_width : Q) (w : World) :
  py_eq_str (get_d element "type" (VStr "")) "signature" = true →
  element_fields element = inr f →
  (∀ s, get_d element "content" (VStr "") = VStr s → startswith s "data:image/" = false) →
  render_element element page_height page_width w = (inr tt, w).
Proof.
  intros Htype Hf Hcontent. rewrite render_element_read_place, Hf.
  unfold place_element.
  destruct (get_d element "type" (VStr "")) as [| | | |t| |]; try done.
  simpl in Htype. apply String.eqb_eq in Htype as ->. cbn.
  destruct (get_d element "content" (VStr "")) as [| | | |s| |]; try done.
  rewrite (Hcontent s eq_refl). by rewrite andb_false_r.
Qed.


Lemma enumerate_lookup {A} (l : list A) (start i : Z) (a : A) :
  (i, a) ∈ enumerate start l ↔ ∃ k : nat, i = start + Z.of_nat k ∧ l !! k = Some a.
Proof.
  revert start. induction l as [|b l IH]; intros start; simpl.
  - split; [by intros ?%elem_of_nil|by intros (k & _ & ?)].
  - rewrite elem_of_cons, IH. split.
    + intros [[= -> ->]|(k & -> & Hk)].
      * exists 0%nat. split; [lia|done].
      * exists (S k). split; [lia|done].
    + intros ([|k] & -> & Hk).
      * left. simpl in Hk. injection Hk as ->. f_equal. lia.
      * right. exists k. split; [lia|done].
Qed.

Lemma line_ops_elem (x pdf_y fs : Q) (color : Color) (lines : list (Z * string))
    (op : DrawOp) :
  op ∈ line_ops x pdf_y fs color lines
  ↔ ∃ i line, (i, line) ∈ lines ∧ strip line ≠ ""
              ∧ op = DrawString x (pdf_y - inject_Z i * fs)%Q (VStr (strip line))
                                "Helvetica" fs color.
Proof.
  unfold line_ops. rewrite list_elem_of_In, in_flat_map. split.
  - intros ([i line] & Hin%list_elem_of_In & Hop). exists i, line. split; [done|].
    destruct (String.eqb_spec (strip line) "") as [Heq|Hne]; simpl in Hop; [done|].
    destruct Hop as [<-|[]]. done.
  - intros (i & line & Hin%list_elem_of_In & Hne & ->). exists (i, line). split; [done|].
    destruct (String.eqb_spec (strip line) "") as [Heq|_]; simpl; [done|by left].
Qed.

(** X2. The lines of a text stack downward from the anchor, each in its
    own slot: the strings [_draw_text] adds to the canvas are exactly, for
    every line number [k] (from 0) whose line is not blank, that line
    stripped, at [pdf_y - k * font_size], in Helvetica at the font size and
    in the colour of the text.  A blank line draws nothing and keeps its
    slot. *)
Theorem text_lines_stack_downward (content : PyVal) (x pdf_y font_size : Q)
    (color_str : string) (w : World) :
  text_skipped content = false →
  ∃ added,
    code (canvas (_draw_text content x pdf_y font_size color_str w).2)
      = code (canvas w) ++ added
    ∧ ∀ op, op ∈ added
            ↔ ∃ (k : nat) (line : string),
                split_on newline (py_str content) !! k = Some line
                ∧ strip line ≠ ""
                ∧ op = DrawString x (pdf_y - inject_Z (Z.of_nat k) * font_size)%Q
                                  (VStr (strip line)) "Helvetica" font_size
                                  (text_color color_str).
Proof.
  intros Hdrawn. rewrite draw_text_run, Hdrawn. eexists. split; [reflexivity|].
  intros op. rewrite line_ops_elem. split.
  - intros (i & line & Hin & Hne & ->). apply enumerate_lookup in Hin as (k & -> & Hk).
    exists k, line. by rewrite Z.add_0_l.
  - intros (k & line & Hk & Hne & ->). exists (Z.of_nat k), line.
    split; [|done]. apply enumerate_lookup. exists k. by rewrite Z.add_0_l.
Qed.

(** X4. [_draw_signature] never raises, and does one of two things: it
    adds one image at [(x, pdf_y)] to the canvas and prints nothing, or it
    prints one signature error and leaves the canvas as it was. *)
Theorem draw_signature_draws_or_reports (content : string)
    (x pdf_y width height page_width : Q) (w : World) :
  let r := _draw_signature content x pdf_y width height page_width w in
  r.1 = inr tt
  ∧ ((stdout r.2 = stdout w
      ∧ ∃ dw dh png, canvas r.2 = Canvas_drawImage x pdf_y dw dh png (canvas w))
     ∨ (canvas r.2 = canvas w
        ∧ ∃ e, stdout r.2 = stdout w ++ [SignatureRenderError e])).
Proof.
  intros r. subst r.
  destruct (draw_signature_run content x pdf_y width height page_width w)
    as [(dw & dh & png & ->)|(e & ->)]; simpl; (split; [done|]).
  - left. split; [done|]. by exists dw, dh, png.
  - right. split; [done|]. by exists e.
Qed.

(** A page none of the elements is on passes through. *)
Lemma fill_page_untouched (objects : list dict) (page_num : Z) (page : Page) (w : World) :
  page_elements_of objects page_num = [] →
  fill_page objects page_num page w = (inr page, w).
Proof. intros Hnone. unfold fill_page. by rewrite Hnone. Qed.

Lemma fill_pages_untouched (objects : list dict) (pages : list Page) (start : Z) (w : World) :
  (∀ k : nat, (k < length pages)%nat → page_elements_of objects (start + Z.of_nat k) = []) →
  fill_pages objects start pages w = (inr pages, w).
Proof.
  revert start. induction pages as [|page rest IH]; intros start Hnone; simpl; [done|].
  unfold mbind, M_bind, bind.
  rewrite fill_page_untouched.
  2:{ specialize (Hnone 0%nat). rewrite Z.add_0_r in Hnone. apply Hnone. simpl. lia. }
  rewrite IH; [done|]. intros k Hk.
  replace (start + 1 + Z.of_nat k) with (start + Z.of_nat (S k)) by lia.
  apply Hnone. simpl. lia.
Qed.

(** X5. When no element is on a page of the document - the list is empty,
    or every page value is past the last page, or is not a number - the
    fill hands the pages of the source to the writer as they are, and
    prints nothing. *)
Theorem elements_off_the_document_are_ignored (original_pdf_bytes : list byte)
    (objects : list dict) (src_pages : list Page) (w : World) :
  pdf_parse original_pdf_bytes = Some src_pages →
  (∀ o (k : nat), o ∈ objects → (k < length src_pages)%nat →
     py_eq_int (get_d o "page" (VInt 1)) (1 + Z.of_nat k) = false) →
  generate_filled_pdf original_pdf_bytes objects w = (inr (pdf_write src_pages), w).
Proof.
  intros Hparse Hoff. unfold generate_filled_pdf, mbind, M_bind, bind, or_raise.
  rewrite Hparse. simpl. rewrite fill_pages_untouched; [done|].
  intros k Hk. unfold page_elements_of.
  induction objects as [|o objects IH]; simpl; [done|].
  rewrite (Hoff o k); [|apply elem_of_cons; by left|done].
  apply IH. intros o' k' Ho'. apply Hoff. apply elem_of_cons. by right.
Qed.

End more_pdf_service.

Section more_pdf_service_2.
Context `{Libs}.

(** What one turn of the loop does to a page: nothing when no element is
    on it; otherwise an overlay is built from the elements on it, and its
    first page, when it has one, is merged onto the page. *)
Lemma fill_page_cases (objects : list dict) (page_num : Z) (page : Page) (w : World) :
  ∃ page' w',
    fill_page objects page_num page w = (inr page', w')
    ∧ ((page_elements_of objects page_num = [] ∧ page' = page ∧ w' = w)
       ∨ (page_elements_of objects page_num ≠ []
          ∧ ∃ overlay,
              _build_overlay (page_elements_of objects page_num)
                             (mediabox_height page) (mediabox_width page) w
                = (inr overlay, w')
              ∧ page' = match overlay with
                        | ops :: _ => merge_page page ops
                        | [] => page
                        end)).
Proof.
  unfold fill_page.
  destruct (page_elements_of objects page_num) as [|o els] eqn:Hels.
  { exists page, w. split; [done|]. by left. }
  unfold mbind, M_bind, bind. rewrite build_overlay_run.
  set (w' := (for_each _ _ _).2).
  exists (match Canvas_save (canvas w') with
          | ops :: _ => merge_page page ops
          | [] => page
          end), w'.
  split; [by destruct (Canvas_save _)|].
  right. split; [done|]. by exists (Canvas_save (canvas w')).
Qed.

(** X6. Pages are filled independently and in place: the page at position
    [k] of the output comes from the page at position [k] of the source
    and from the elements whose page is [k + 1] alone.  With no such
    element it is the source page itself; otherwise it is the source page
    with the first page of the overlay built from those elements, at the
    size of that page, merged onto it. *)
Theorem pages_are_filled_independently (objects : list dict) (pages : list Page)
    (start : Z) (w : World) (k : nat) (page : Page) :
  pages !! k = Some page →
  ∃ out w' page',
    fill_pages objects start pages w = (inr out, w')
    ∧ out !! k = Some page'
    ∧ ((page_elements_of objects (start + Z.of_nat k) = [] ∧ page' = page)
       ∨ (page_elements_of objects (start + Z.of_nat k) ≠ []
          ∧ ∃ w1 w2 overlay,
              _build_overlay (page_elements_of objects (start + Z.of_nat k))
                             (mediabox_height page) (mediabox_width page) w1
                = (inr overlay, w2)
              ∧ page' = match overlay with
                        | ops :: _ => merge_page page ops
                        | [] => page
                        end)).
Proof.
  revert start w k. induction pages as [|p rest IH]; intros start w k Hk; [done|].
  simpl. unfold mbind, M_bind, bind.
  destruct (fill_page_cases objects start p w) as (p' & w1 & -> & Hcases).
  destruct k as [|k].
  - injection Hk as ->. rewrite Z.add_0_r.
    destruct (fill_pages_kept objects rest (start + 1) w1) as (rest' & w2 & -> & _).
    exists (p' :: rest'), w2, p'. split; [done|]. split; [done|].
    destruct Hcases as [(Hnone & -> & ->)|(Hsome & overlay & Hrun & ->)].
    + by left.
    + right. split; [done|]. by exists w, w1, overlay.
  - destruct (IH (start + 1) w1 k Hk) as (rest' & w2 & page' & -> & Hout & Hpage).
    exists (p' :: rest'), w2, page'. split; [done|]. split; [done|].
    by replace (start + Z.of_nat (S k)) with (start + 1 + Z.of_nat k) by lia.
Qed.

Lemma page_kept_trans (a b c : Page) : page_kept a b → page_kept b c → page_kept a c.
Proof.
  intros (Hw1 & Hh1 & Hf1 & ovs1 & Hc1) (Hw2 & Hh2 & Hf2 & ovs2 & Hc2).
  repeat split; try congruence.
  exists (ovs1 ++ ovs2). by rewrite Hc2, Hc1, map_app, app_assoc.
Qed.

(** X7. Fills compose: filling the pages of a first fill again keeps, on
    every page, what the first fill had put there and adds to it; the
    result is still the source page by page, with the overlays of both
    fills after its own content. *)
Theorem fills_compose (objects1 objects2 : list dict) (pages : list Page) (w : World) :
  ∃ pages1 w1 pages2 w2,
    fill_pages objects1 1 pages w = (inr pages1, w1)
    ∧ fill_pages objects2 1 pages1 w1 = (inr pages2, w2)
    ∧ Forall2 page_kept pages1 pages2
    ∧ Forall2 page_kept pages pages2
    ∧ length pages2 = length pages.
Proof.
  destruct (fill_pages_kept objects1 pages 1 w) as (pages1 & w1 & Hrun1 & Hk1).
  destruct (fill_pages_kept objects2 pages1 1 w1) as (pages2 & w2 & Hrun2 & Hk2).
  exists pages1, w1, pages2, w2. split; [done|]. split; [done|]. split; [done|].
  assert (Hk : Forall2 page_kept pages pages2).
  { clear Hrun1 Hrun2. revert pages2 Hk2.
    induction Hk1 as [|a b l1 l2 Hab _ IH]; intros pages2 Hk2.
    - inversion Hk2. constructor.
    - inversion Hk2 as [|? c ? l3 Hbc Hrest]; subst. constructor.
      + by eapply page_kept_trans.
      + by apply IH. }
  split; [done|]. symmetry. by eapply Forall2_length.
Qed.

(** X8. Once the download of step 1 has answered - the token and the
    request of lines 137 to 141 are not part of this, and what they raise
    is not caught - the checks of step 1 and the fill of step 2 raise
    nothing but an HTTP error 400 or 500, with nothing printed; and they
    hand back filled bytes only for a body with elements, a successful
    download and bytes that start with [%PDF] and parse as a document. *)
Theorem save_attachment_outcomes (body : dict) (pdf_response : Response) (w : World) :
  match save_attachment body pdf_response w with
  | (inl e, w') =>
      w' = w ∧ ∃ detail, e = HTTPException 400 detail ∨ e = HTTPException 500 detail
  | (inr filled, w') =>
      truthy (py_or (get body "editableElements") (VList [])) = true
      ∧ is_success pdf_response = true
      ∧ take 4 (resp_content pdf_response) = PDF_MAGIC
      ∧ ∃ pages, pdf_parse (resp_content pdf_response) = Some pages
  end.
Proof.
  unfold save_attachment.
  destruct (truthy (py_or _ _)) eqn:Hels; simpl; [|split; [done|]; by eexists; left].
  destruct (is_success pdf_response) eqn:Hok; simpl; [|split; [done|]; by eexists; right].
  destruct (bool_decide (resp_content pdf_response = [])) eqn:Hempty; simpl;
    [split; [done|]; by eexists; right|].
  destruct (bool_decide (take 4 (resp_content pdf_response) = PDF_MAGIC)) eqn:Hmagic; simpl;
    [|split; [done|]; by eexists; right].
  apply bool_decide_eq_true in Hmagic.
  unfold try_except.
  assert (Hof : ∀ v,
            match generate_filled_pdf_of (resp_content pdf_response) v w with
            | (inl e, w') => w' = w
            | (inr filled, w') => ∃ pages, pdf_parse (resp_content pdf_response) = Some pages
            end).
  { intros v. unfold generate_filled_pdf_of, generate_filled_pdf, mbind, M_bind, bind, or_raise.
    destruct (pdf_parse (resp_content pdf_response)) as [pages|] eqn:Hparse.
    - assert (Hfill : ∀ objs, ∃ out w', fill_pages objs 1 pages w = (inr out, w')).
      { intros objs. destruct (fill_pages_kept objs pages 1 w) as (out & w' & Hrun & _).
        by exists out, w'. }
      destruct v as [| | | | |l|]; simpl;
        try (destruct pages; simpl; by eauto).
      destruct (as_objects l) as [objs|]; simpl.
      + destruct (Hfill objs) as (out & w' & ->). simpl. by eauto.
      + destruct pages; simpl; by eauto.
    - destruct v as [| | | | |l|]; simpl; try done. by destruct (as_objects l). }
  specialize (Hof (py_or (get body "editableElements") (VList []))).
  destruct (generate_filled_pdf_of _ _ w) as [[e|filled] w'].
  - simpl. split; [done|]. by eexists; right.
  - done.
Qed.

End more_pdf_service_2.

Section more_placement.
Context `{Libs}.
#[local] Open Scope Q_scope.


End more_placement.



Lemma blank_text_element_draws_nothing_witness :
  is_text_type blank_element = true
  ∧ element_fields (H:=example_libs) blank_element = inr hello_fields
  ∧ (truthy (get_d blank_element "content" (VStr "")) = false
     ∨ (∃ s, get_d blank_element "content" (VStr "") = VStr s
             ∧ Forall (λ a, is_space a = true) (list_ascii_of_string s)))
  ∧ render_element (H:=example_libs) blank_element 792 612 World_init = (inr tt, World_init).
Proof.
  assert (Htype : is_text_type blank_element = true) by (vm_compute; reflexivity).
  assert (Hf : element_fields (H:=example_libs) blank_element = inr hello_fields)
    by (vm_compute; reflexivity).
  assert (Hblank : truthy (get_d blank_element "content" (VStr "")) = false
                   ∨ (∃ s, get_d blank_element "content" (VStr "") = VStr s
                           ∧ Forall (λ a, is_space a = true) (list_ascii_of_string s))).
  { right. exists "   ". split; [vm_compute; reflexivity|]. repeat constructor. }
  split; [exact Htype|]. split; [exact Hf|]. split; [exact Hblank|].
  exact (blank_text_element_draws_nothing (H:=example_libs) blank_element hello_fields
           792 612 World_init Htype Hf Hblank).
Defined.

Lemma text_lines_stack_downward_witness :
  text_skipped (H:=example_libs) (VStr two_lines) = false
  ∧ ∃ added,
      code (canvas (_draw_text (H:=example_libs) (VStr two_lines) 100 673 12 "#000000"
                               World_init).2)
        = code (canvas World_init) ++ added
      ∧ ∀ op, op ∈ added
              ↔ ∃ (k : nat) (line : string),
                  split_on newline (py_str (H:=example_libs) (VStr two_lines)) !! k
                    = Some line
                  ∧ strip line ≠ ""
                  ∧ op = DrawString 100 (673 - inject_Z (Z.of_nat k) * 12)%Q
                                    (VStr (strip line)) "Helvetica" 12
                                    (text_color "#000000").
Proof.
  assert (Hdrawn : text_skipped (H:=example_libs) (VStr two_lines) = false)
    by (vm_compute; reflexivity).
  split; [exact Hdrawn|].
  exact (text_lines_stack_downward (H:=example_libs) (VStr two_lines) 100 673 12 "#000000"
           World_init Hdrawn).
Defined.

Lemma signature_without_data_uri_is_skipped_witness :
  py_eq_str (get_d typed_signature "type" (VStr "")) "signature" = true
  ∧ element_fields (H:=example_libs) typed_signature
    = inr (mkElementFields 100%Q 200%Q 150%Q 50%Q 11%Q "#1e3a8a")
  ∧ (∀ s, get_d typed_signature "content" (VStr "") = VStr s →
          startswith s "data:image/" = false)
  ∧ render_element (H:=example_libs) typed_signature 792 612 World_init
    = (inr tt, World_init).
Proof.
  assert (Htype : py_eq_str (get_d typed_signature "type" (VStr "")) "signature" = true)
    by (vm_compute; reflexivity).
  assert (Hf : element_fields (H:=example_libs) typed_signature
               = inr (mkElementFields 100%Q 200%Q 150%Q 50%Q 11%Q "#1e3a8a"))
    by (vm_compute; reflexivity).
  assert (Hcontent : ∀ s, get_d typed_signature "content" (VStr "") = VStr s →
                          startswith s "data:image/" = false).
  { intros s Hs. vm_compute in Hs. injection Hs as <-. reflexivity. }
  split; [exact Htype|]. split; [exact Hf|]. split; [exact Hcontent|].
  exact (signature_without_data_uri_is_skipped (H:=example_libs) typed_signature _
           792 612 World_init Htype Hf Hcontent).
Defined.

Lemma elements_off_the_document_are_ignored_witness :
  pdf_parse (Libs:=example_libs) example_pdf = Some example_pages
  ∧ (∀ o (k : nat), o ∈ [off_page_element] → (k < length example_pages)%nat →
       py_eq_int (get_d o "page" (VInt 1)) (1 + Z.of_nat k) = false)
  ∧ generate_filled_pdf (H:=example_libs) example_pdf [off_page_element] World_init
    = (inr (pdf_write (Libs:=example_libs) example_pages), World_init).
Proof.
  assert (Hparse : pdf_parse (Libs:=example_libs) example_pdf = Some example_pages)
    by reflexivity.
  assert (Hoff : ∀ o (k : nat), o ∈ [off_page_element] → (k < length example_pages)%nat →
                   py_eq_int (get_d o "page" (VInt 1)) (1 + Z.of_nat k) = false).
  { intros o k Ho Hk. apply list_elem_of_singleton in Ho as ->.
    destruct k as [|k]; [vm_compute; reflexivity|simpl in Hk; lia]. }
  split; [exact Hparse|]. split; [exact Hoff|].
  exact (elements_off_the_document_are_ignored (H:=example_libs) example_pdf
           [off_page_element] example_pages World_init Hparse Hoff).
Defined.

Lemma pages_are_filled_independently_witness :
  example_pages !! 0%nat = Some (mkPage 612%Q 792%Q [SourceContent example_pdf] example_fields)
  ∧ ∃ out w' page',
      fill_pages (H:=example_libs) [hello_element; off_page_element] 1 example_pages
                 World_init = (inr out, w')
      ∧ out !! 0%nat = Some page'
      ∧ ((page_elements_of [hello_element; off_page_element] (1 + Z.of_nat 0) = []
          ∧ page' = mkPage 612%Q 792%Q [SourceContent example_pdf] example_fields)
         ∨ (page_elements_of [hello_element; off_page_element] (1 + Z.of_nat 0) ≠ []
            ∧ ∃ w1 w2 overlay,
                _build_overlay (H:=example_libs)
                  (page_elements_of [hello_element; off_page_element] (1 + Z.of_nat 0))
                  (mediabox_height (mkPage 612%Q 792%Q [SourceContent example_pdf]
                                           example_fields))
                  (mediabox_width (mkPage 612%Q 792%Q [SourceContent example_pdf]
                                          example_fields)) w1
                  = (inr overlay, w2)
                ∧ page' = match overlay with
                          | ops :: _ =>
                              merge_page (mkPage 612%Q 792%Q [SourceContent example_pdf]
                                                 example_fields) ops
                          | [] => mkPage 612%Q 792%Q [SourceContent example_pdf]
                                         example_fields
                          end)).
Proof.
  split; [reflexivity|].
  exact (pages_are_filled_independently (H:=example_libs) [hello_element; off_page_element]
           example_pages 1 World_init 0%nat _ eq_refl).
Defined.

(** ** The handler that generates the form *)

Section handler_facts.
Context `{Libs}.

#[local] Opaque _generate_reference_pdf _fill_tceq_pdf reference_sheet_ops.

Lemma find_by_id_raises {W} (l : list dict) (id : PyVal) (w : W) (e : PyExc) :
  (find_by_id l id w).1 = inl e → e = KeyError.
Proof.
  induction l as [|d l IH]; simpl; [done|].
  unfold mbind, M_bind, bind, or_raise.
  destruct (d !! "id") as [d_id|]; [|by intros [= <-]]. unfold ret at 1.
  destruct (py_eq d_id id); [done|exact IH].
Qed.

Lemma get_city_info_raises (city_code : PyVal) (w : Backflow) (e : PyExc) :
  (get_city_info city_code w).1 = inl e → e = AttributeError.
Proof.
  unfold get_city_info. destruct (negb _); [done|].
  destruct city_code; simpl; try done; by intros [= <-].
Qed.

(** The reference renderer raises nothing but the [AttributeError] of a
    value that is not a string. *)
Lemma generate_reference_pdf_raises (device test city_info : dict) (city_code : PyVal)
    (e : PyExc) :
  _generate_reference_pdf device test city_info city_code = inl e →
  e = AttributeError
  ∧ forallb drawable (reference_values device test city_info city_code) = false.
Proof.
  rewrite generate_reference_pdf_run.
  destruct (forallb _ _); [done|]. by intros [= <-].
Qed.

(** The [try] statement of the handler: the filled form with nothing
    printed, or the failure printed and then whatever the reference
    renderer does. *)
Lemma tceq_or_reference_run (device test : dict) (technician company : PyVal)
    (city_info : dict) (customer_name service_address city_code : PyVal) (w : Backflow) :
  tceq_or_reference device test technician company city_info
                    customer_name service_address city_code w
  = match (_fill_tceq_pdf device test technician company city_info
                          customer_name service_address w).1 with
    | inr out => (inr out, w)
    | inl e => (_generate_reference_pdf device test city_info city_code,
                (bf_print (TceqFillError e) w).2)
    end.
Proof.
  unfold tceq_or_reference, try_except.
  rewrite (stateless_run _ w (stateless_fill_tceq_pdf _ _ _ _ _ _ _)).
  by destruct (_fill_tceq_pdf _ _ _ _ _ _ _ w).1.
Qed.

(** The handler once both lookups have returned. *)
Lemma generate_pdf_lookups (body : dict) (w : Backflow) (device test : option dict) :
  (find_by_id (_devices w) (get body "deviceId") w).1 = inr device →
  (find_by_id (_test_records w) (get body "testRecordId") w).1 = inr test →
  device = None ∨ test = None →
  generate_pdf body w = (inl (HTTPException 404 "Device or test not found"), w).
Proof.
  intros Hdev Htest Hnone. unfold generate_pdf, mbind, M_bind.
  erewrite bind_inr by reflexivity.
  erewrite bind_inr;
    [|rewrite (stateless_run _ w (stateless_find_by_id _ _)), Hdev; reflexivity].
  erewrite bind_inr by reflexivity.
  erewrite bind_inr;
    [|rewrite (stateless_run _ w (stateless_find_by_id _ _)), Htest; reflexivity].
  destruct Hnone as [-> | ->]; [reflexivity|by destruct device].
Qed.

(** Every run of the handler: an error before anything is changed; or
    the fill fails, is printed, and the reference renderer raises; or one
    document, uploaded and recorded. *)
Lemma generate_pdf_cases (body : dict) (w : Backflow) :
  (∃ e, generate_pdf body w = (inl e, w)
        ∧ ((e = KeyError
            ∧ ((find_by_id (_devices w) (get body "deviceId") w).1 = inl KeyError
               ∨ (find_by_id (_test_records w) (get body "testRecordId") w).1
                 = inl KeyError))
           ∨ (e = AttributeError
              ∧ (get_city_info (get_d body "cityCode" (VStr "")) w).1 = inl AttributeError)
           ∨ (e = HTTPException 404 "Device or test not found"
              ∧ ((find_by_id (_devices w) (get body "deviceId") w).1 = inr None
                 ∨ (find_by_id (_test_records w) (get body "testRecordId") w).1
                   = inr None))))
  ∨ (∃ device test found e0,
       (find_by_id (_devices w) (get body "deviceId") w).1 = inr (Some device)
       ∧ (find_by_id (_test_records w) (get body "testRecordId") w).1 = inr (Some test)
       ∧ (get_city_info (get_d body "cityCode" (VStr "")) w).1 = inr found
       ∧ forallb drawable
           (reference_values device test
              (match found with
               | Some d => if truthy (VDict d) then d else ∅
               | None => ∅
               end)
              (get_d body "cityCode" (VStr ""))) = false
       ∧ generate_pdf body w = (inl AttributeError, (bf_print (TceqFillError e0) w).2))
  ∨ (∃ device test found pdf_bytes w1,
       (find_by_id (_devices w) (get body "deviceId") w).1 = inr (Some device)
       ∧ (find_by_id (_test_records w) (get body "testRecordId") w).1 = inr (Some test)
       ∧ (get_city_info (get_d body "cityCode" (VStr "")) w).1 = inr found
       ∧ tceq_or_reference device test
           (py_or (get body "technician") (VDict ∅)) (py_or (get body "company") (VDict ∅))
           (match found with
            | Some d => if truthy (VDict d) then d else ∅
            | None => ∅
            end)
           (get_d body "customerName" (VStr "")) (get_d body "serviceAddress" (VStr ""))
           (get_d body "cityCode" (VStr "")) w = (inr pdf_bytes, w1)
       ∧ (w1 = w ∨ ∃ e, w1 = (bf_print (TceqFillError e) w).2)
       ∧ let file_name :=
           "TCEQ_" +:+ py_str (get_d device "serialMain" (VStr "unknown")) +:+ "_"
           +:+ py_str (get_d test "testDateInitial" (VStr "unknown")) +:+ ".pdf" in
         let outcome := st_upload w (get body "jobId") file_name pdf_bytes in
         let pdf_record : dict :=
           list_to_map
             [("id", VStr ("pdf-" +:+ pretty (_pdf_counter w)));
              ("deviceId", get body "deviceId");
              ("testRecordId", get body "testRecordId");
              ("jobId", get body "jobId");
              ("fileName", VStr file_name);
              ("cityCode", get_d body "cityCode" (VStr ""));
              ("serviceTitanAttachmentId",
               match outcome with UploadDone id => id | _ => VNone end);
              ("createdAt", VStr (utcnow w))] in
         generate_pdf body w
         = (inr (list_to_map [("success", VBool true); ("data", VDict pdf_record)]),
            mkBackflow (_devices w) (_test_records w) (_generated_pdfs w ++ [pdf_record])
                       (_pdf_counter w + 1) (_cities w) (TCEQ_pdf w) (st_upload w)
                       (utcnow w) (bf_stdout w1 ++ [upload_log outcome]))).
Proof.
  destruct (find_by_id (_devices w) (get body "deviceId") w).1 as [e|device] eqn:Hdev.
  { left. exists e. pose proof (find_by_id_raises _ _ _ _ Hdev) as ->.
    split; [|left; split; [reflexivity|by left]].
    unfold generate_pdf, mbind, M_bind. erewrite bind_inr by reflexivity.
    erewrite bind_inl; [reflexivity|].
    by rewrite (stateless_run _ w (stateless_find_by_id _ _)), Hdev. }
  destruct (find_by_id (_test_records w) (get body "testRecordId") w).1 as [e|test] eqn:Htest.
  { left. exists e. pose proof (find_by_id_raises _ _ _ _ Htest) as ->.
    split; [|left; split; [reflexivity|by right]].
    unfold generate_pdf, mbind, M_bind. erewrite bind_inr by reflexivity.
    erewrite bind_inr;
      [|rewrite (stateless_run _ w (stateless_find_by_id _ _)), Hdev; reflexivity].
    erewrite bind_inr by reflexivity.
    erewrite bind_inl; [reflexivity|].
    by rewrite (stateless_run _ w (stateless_find_by_id _ _)), Htest. }
  destruct device as [device|];
    [|left; eexists; split;
      [by eapply generate_pdf_lookups; [exact Hdev|exact Htest|left]
      |right; right; split; [reflexivity|by left]]].
  destruct test as [test|];
    [|left; eexists; split;
      [by eapply generate_pdf_lookups; [exact Hdev|exact Htest|right]
      |right; right; split; [reflexivity|by right]]].
  destruct (find_by_id_found _ _ _ _ Hdev) as [_ Hd%truthy_dict_with_id].
  destruct (find_by_id_found _ _ _ _ Htest) as [_ Ht%truthy_dict_with_id].
  destruct (get_city_info (get_d body "cityCode" (VStr "")) w).1 as [e|found] eqn:Hcity.
  { left. exists e. pose proof (get_city_info_raises _ _ _ Hcity) as ->.
    split; [|right; left; by split].
    unfold generate_pdf, mbind, M_bind. erewrite bind_inr by reflexivity.
    erewrite bind_inr;
      [|rewrite (stateless_run _ w (stateless_find_by_id _ _)), Hdev; reflexivity].
    erewrite bind_inr by reflexivity.
    erewrite bind_inr;
      [|rewrite (stateless_run _ w (stateless_find_by_id _ _)), Htest; reflexivity].
    cbv beta iota. rewrite Hd, Ht. cbn [negb orb].
    erewrite bind_inl; [reflexivity|].
    by rewrite (stateless_run _ w (stateless_get_city_info _)), Hcity. }
  right.
  pose proof (generate_pdf_found body w device test found Hdev Htest Hcity) as Hrun.
  cbv zeta in Hrun. rewrite tceq_or_reference_run in Hrun.
  set (city_info := match found with
                    | Some d => if truthy (VDict d) then d else ∅
                    | None => ∅
                    end) in *.
  destruct (_fill_tceq_pdf device test _ _ city_info _ _ w).1 as [e0|out] eqn:Hfill.
  - destruct (_generate_reference_pdf device test city_info
                (get_d body "cityCode" (VStr ""))) as [e|sheet] eqn:Hsheet.
    + left. destruct (generate_reference_pdf_raises _ _ _ _ _ Hsheet) as [-> Hvalues].
      exists device, test, found, e0. fold city_info. by repeat (split; [done|]).
    + right. exists device, test, found, sheet, (bf_print (TceqFillError e0) w).2.
      fold city_info. split; [reflexivity|]. split; [reflexivity|]. split; [reflexivity|].
      split; [by rewrite tceq_or_reference_run, Hfill, Hsheet|].
      split; [right; by exists e0|]. exact Hrun.
  - right. exists device, test, found, out, w. fold city_info.
    split; [reflexivity|]. split; [reflexivity|]. split; [reflexivity|].
    split; [by rewrite tceq_or_reference_run, Hfill|].
    split; [by left|]. exact Hrun.
Qed.

(** X9. When both lookups of the handler return and the device or the
    test record is not there, the request is answered 404 and nothing is
    generated, uploaded, printed or recorded. *)
Theorem missing_device_or_test_is_not_found (body : dict) (w : Backflow)
    (device test : option dict) :
  (find_by_id (_devices w) (get body "deviceId") w).1 = inr device →
  (find_by_id (_test_records w) (get body "testRecordId") w).1 = inr test →
  device = None ∨ test = None →
  generate_pdf body w = (inl (HTTPException 404 "Device or test not found"), w).
Proof.
  intros Hdev Htest Hnone. unfold generate_pdf, mbind, M_bind.
  erewrite bind_inr by reflexivity.
  erewrite bind_inr;
    [|rewrite (stateless_run _ w (stateless_find_by_id _ _)), Hdev; reflexivity].
  erewrite bind_inr by reflexivity.
  erewrite bind_inr;
    [|rewrite (stateless_run _ w (stateless_find_by_id _ _)), Htest; reflexivity].
  destruct Hnone as [-> | ->]; [reflexivity|by destruct device].
Qed.

(** X10. A request to generate that fails has recorded nothing: no
    record is appended, the counter is not advanced, the devices and the
    test records are as before.  Either nothing at all has changed and the
    error is the 404 of the handler, the [KeyError] of a stored dict
    without [id] or the [AttributeError] of a city code that is not a
    string; or the fill had failed and was printed, and the error is the
    [AttributeError] of the reference renderer on a value that is not a
    string. *)
Theorem generate_pdf_errors_record_nothing (body : dict) (w w' : Backflow) (e : PyExc) :
  generate_pdf body w = (inl e, w') →
  _devices w' = _devices w
  ∧ _test_records w' = _test_records w
  ∧ _generated_pdfs w' = _generated_pdfs w
  ∧ _pdf_counter w' = _pdf_counter w
  ∧ ((w' = w
      ∧ (e = KeyError ∨ e = AttributeError
         ∨ e = HTTPException 404 "Device or test not found"))
     ∨ (e = AttributeError
        ∧ ∃ e0 device test city_info,
            bf_stdout w' = bf_stdout w ++ [TceqFillError e0]
            ∧ device ∈ _devices w
            ∧ test ∈ _test_records w
            ∧ forallb drawable
                (reference_values device test city_info
                                  (get_d body "cityCode" (VStr ""))) = false)).
Proof.
  intros Hrun.
  destruct (generate_pdf_cases body w)
    as [(e' & He' & Hkind)
       |[(device & test & found & e0 & Hdev & Htest & _ & Hvalues & Hraise)
        |(device & test & found & pdf_bytes & w1 & _ & _ & _ & _ & _ & Hok)]].
  - rewrite He' in Hrun. injection Hrun as <- <-. repeat (split; [reflexivity|]).
    left. split; [reflexivity|]. destruct Hkind as [[-> _]|[[-> _]|[-> _]]]; auto.
  - rewrite Hraise in Hrun. injection Hrun as <- <-. repeat (split; [reflexivity|]).
    right. split; [reflexivity|]. eexists e0, device, test, _.
    split; [reflexivity|].
    split; [exact (proj1 (find_by_id_found _ _ _ _ Hdev))|].
    split; [exact (proj1 (find_by_id_found _ _ _ _ Htest))|exact Hvalues].
  - cbv zeta in Hok. rewrite Hok in Hrun. discriminate Hrun.
Qed.

(** X11. A request to generate that succeeds has appended exactly one
    record and advanced the counter by one; the devices, the test records
    and the cities are as before.  The record carries the counter as its
    id, and the id of the attachment when the upload was accepted, [None]
    when the upload was refused or raised: a failed upload does not fail
    the request.  The document uploaded is the one of the [try] statement,
    the last line printed is the outcome of the upload. *)
Theorem generate_pdf_records_one_document (body : dict) (w w' : Backflow) (result : dict) :
  generate_pdf body w = (inr result, w') →
  ∃ pdf_record device test found pdf_bytes w1 file_name,
    result !! "success" = Some (VBool true)
    ∧ result !! "data" = Some (VDict pdf_record)
    ∧ _generated_pdfs w' = _generated_pdfs w ++ [pdf_record]
    ∧ _pdf_counter w' = _pdf_counter w + 1
    ∧ _devices w' = _devices w
    ∧ _test_records w' = _test_records w
    ∧ _cities w' = _cities w
    ∧ pdf_record !! "id" = Some (VStr ("pdf-" +:+ pretty (_pdf_counter w)))
    ∧ pdf_record !! "fileName" = Some (VStr file_name)
    ∧ file_name
      = "TCEQ_" +:+ py_str (get_d device "serialMain" (VStr "unknown")) +:+ "_"
        +:+ py_str (get_d test "testDateInitial" (VStr "unknown")) +:+ ".pdf"
    ∧ tceq_or_reference device test
        (py_or (get body "technician") (VDict ∅)) (py_or (get body "company") (VDict ∅))
        (match found with
         | Some d => if truthy (VDict d) then d else ∅
         | None => ∅
         end)
        (get_d body "customerName" (VStr "")) (get_d body "serviceAddress" (VStr ""))
        (get_d body "cityCode" (VStr "")) w = (inr pdf_bytes, w1)
    ∧ pdf_record !! "serviceTitanAttachmentId"
      = Some (match st_upload w (get body "jobId") file_name pdf_bytes with
              | UploadDone id => id
              | _ => VNone
              end)
    ∧ bf_stdout w'
      = bf_stdout w1 ++ [upload_log (st_upload w (get body "jobId") file_name pdf_bytes)].
Proof.
  intros Hrun.
  destruct (generate_pdf_cases body w)
    as [(e' & He' & _)
       |[(device & test & found & e0 & _ & _ & _ & _ & Hraise)
        |(device & test & found & pdf_bytes & w1 & _ & _ & _ & Htry & _ & Hok)]].
  { rewrite He' in Hrun. discriminate Hrun. }
  { rewrite Hraise in Hrun. discriminate Hrun. }
  cbv zeta in Hok. rewrite Hok in Hrun. injection Hrun as <- <-.
  eexists _, device, test, found, pdf_bytes, w1, _.
  split; [reflexivity|]. split; [reflexivity|]. split; [reflexivity|].
  split; [reflexivity|]. split; [reflexivity|]. split; [reflexivity|].
  split; [reflexivity|]. split; [reflexivity|]. split; [reflexivity|].
  split; [reflexivity|]. split; [exact Htry|]. split; reflexivity.
Qed.

End handler_facts.

Lemma missing_device_or_test_is_not_found_witness :
  (find_by_id (H:=example_libs) (_devices (example_backflow None))
              (get example_body "deviceId") (example_backflow None)).1
  = inr (Some example_device)
  ∧ (find_by_id (H:=example_libs) (_test_records (example_backflow None))
                (get (delete "testRecordId" example_body) "testRecordId")
                (example_backflow None)).1 = inr None
  ∧ (Some example_device = None ∨ @None dict = None)
  ∧ generate_pdf (H:=example_libs) (delete "testRecordId" example_body)
                 (example_backflow None)
    = (inl (HTTPException 404 "Device or test not found"), example_backflow None).
Proof.
  assert (Hdev : (find_by_id (H:=example_libs) (_devices (example_backflow None))
                    (get (delete "testRecordId" example_body) "deviceId")
                    (example_backflow None)).1
                 = inr (Some example_device)) by (vm_compute; reflexivity).
  assert (Htest : (find_by_id (H:=example_libs) (_test_records (example_backflow None))
                     (get (delete "testRecordId" example_body) "testRecordId")
                     (example_backflow None)).1 = inr None) by (vm_compute; reflexivity).
  assert (Hnone : Some example_device = None ∨ @None dict = None) by (right; reflexivity).
  split; [vm_compute; reflexivity|]. split; [exact Htest|]. split; [exact Hnone|].
  exact (missing_device_or_test_is_not_found (H:=example_libs)
           (delete "testRecordId" example_body) (example_backflow None)
           (Some example_device) None Hdev Htest Hnone).
Defined.

Lemma generate_pdf_errors_record_nothing_witness :
  generate_pdf (H:=example_libs) example_body numeric_type_backflow
  = (inl AttributeError, (bf_print (TceqFillError FileNotFoundError) numeric_type_backflow).2)
  ∧ _generated_pdfs (bf_print (TceqFillError FileNotFoundError) numeric_type_backflow).2
    = _generated_pdfs numeric_type_backflow
  ∧ _pdf_counter (bf_print (TceqFillError FileNotFoundError) numeric_type_backflow).2
    = _pdf_counter numeric_type_backflow.
Proof.
  assert (Hrun : generate_pdf (H:=example_libs) example_body numeric_type_backflow
                 = (inl AttributeError,
                    (bf_print (TceqFillError FileNotFoundError) numeric_type_backflow).2))
    by (vm_compute; reflexivity).
  split; [exact Hrun|].
  destruct (generate_pdf_errors_record_nothing (H:=example_libs) example_body
              numeric_type_backflow _ _ Hrun) as (_ & _ & Hrecords & Hcounter & _).
  split; [exact Hrecords|exact Hcounter].
Defined.

Lemma generate_pdf_records_one_document_witness :
  ∃ result w',
    generate_pdf (H:=example_libs) example_body (example_backflow None) = (inr result, w')
    ∧ _generated_pdfs w' = [default ∅ (match result !! "data" with
                                       | Some (VDict d) => Some d
                                       | _ => None
                                       end)]
    ∧ _pdf_counter w' = 2.
Proof.
  destruct (generate_pdf (H:=example_libs) example_body (example_backflow None))
    as [[e|result] w'] eqn:Hrun.
  { apply (f_equal (λ r, match r.1 with inl _ => true | inr _ => false end)) in Hrun.
    vm_compute in Hrun. discriminate Hrun. }
  exists result, w'. split; [reflexivity|].
  destruct (generate_pdf_records_one_document (H:=example_libs) example_body
              (example_backflow None) w' result Hrun)
    as (pdf_record & device & test & found & pdf_bytes & w1 & file_name
        & _ & Hdata & Hrecords & Hcounter & _).
  rewrite Hdata, Hrecords, Hcounter. split; reflexivity.
Defined.

(** ** The named-field filler, field by field *)

Section form_facts.
Context `{Libs}.

Lemma setitem_Forall (P : string * PyVal → Prop) (k : string) (v : PyVal)
    (d : list (string * PyVal)) :
  P (k, v) → Forall P d → Forall P (setitem k v d).
Proof.
  intros Hk. induction 1 as [|[k' v'] d Hk' Hd IH]; simpl; [by repeat constructor|].
  destruct (String.eqb k' k); constructor; done.
Qed.

(** Assigning to a key adds it to the keys and removes none. *)
Lemma elem_of_setitem_keys (k0 k : string) (v : PyVal) (d : list (string * PyVal)) :
  k0 ∈ (setitem k v d).*1 ↔ k0 = k ∨ k0 ∈ d.*1.
Proof.
  induction d as [|[k' v'] d IH]; simpl.
  - rewrite elem_of_cons, elem_of_nil. tauto.
  - destruct (String.eqb k' k) eqn:Heq; simpl.
    + apply String.eqb_eq in Heq as ->. rewrite !elem_of_cons. tauto.
    + rewrite !elem_of_cons, IH. tauto.
Qed.

Lemma setitem_other (k0 k : string) (v : PyVal) (d : list (string * PyVal)) (Q : Prop) :
  k0 ≠ k → (k0 ∈ d.*1 ↔ Q) → (k0 ∈ (setitem k v d).*1 ↔ Q).
Proof. intros Hne <-. rewrite elem_of_setitem_keys. intuition congruence. Qed.

Ltac true_tac :=
  repeat first
    [ assumption
    | apply setitem_Forall; [reflexivity|]
    | match goal with |- Forall _ (if ?c then _ else _) => destruct c end ].

Ltac true_step :=
  lazymatch goal with
  | |- Forall ?P (let x := ?a in @?b x) =>
      let x' := fresh "cv" in
      change (let x := a in Forall P (b x)); intros x'; cbv beta;
      try (assert (Forall P x') by (subst x'; true_tac); clearbody x')
  end.

(** Every entry of [check_values] is [True]: the test [if checked] of the
    loop that applies them never skips one. *)
Lemma check_test_answers_true (test : dict) (gauge_type : PyVal)
    (check_values : list (string * PyVal)) :
  Forall (λ kv, kv.2 = VBool true) check_values →
  Forall (λ kv, kv.2 = VBool true) (check_test_answers test gauge_type check_values).
Proof.
  intros Hcv. cbv beta delta [check_test_answers]. repeat true_step. assumption.
Qed.

(** The entry of the device type is a box of [type_checkbox_map]. *)
Lemma check_device_type_inv {W} (device : dict) (w : W)
    (check_values : list (string * PyVal)) (w' : W) :
  check_device_type device [] w = (inr check_values, w') →
  Forall (λ kv, kv.2 = VBool true
                ∧ ∃ s, get_d device "typeMain" (VStr "") = VStr s
                       ∧ type_checkbox_map !! s = Some kv.1) check_values.
Proof.
  unfold check_device_type.
  destruct (get_d device "typeMain" (VStr "")) as [| | | |s| |];
    unfold ret, raise; intros [= <- _]; try constructor.
  destruct (type_checkbox_map !! s) as [box|] eqn:Hbox; [|constructor].
  constructor; [|constructor]. split; [reflexivity|]. by exists s.
Qed.

Lemma type_checkbox_map_boxes (s box : string) :
  type_checkbox_map !! s = Some box →
  box ∈ ["Check Box_2"; "Check Box_2_1"; "Check Box_2_4"; "Check Box_2_5"; "Check Box_2_7";
         "Check Box_2_8"; "Check Box_2_3"; "Check Box_2_6"].
Proof.
  unfold type_checkbox_map. intros Hbox. apply elem_of_list_to_map_2 in Hbox.
  repeat (apply elem_of_cons in Hbox as [[= _ ->]|Hbox];
          [repeat first [apply list_elem_of_here | apply list_elem_of_further]|]).
  by apply elem_of_nil in Hbox.
Qed.

Ltac keys_other Hcur :=
  repeat first
    [ exact Hcur
    | apply setitem_other; [discriminate|]
    | match goal with |- (_ ∈ fst <$> (if ?c then _ else _)) ↔ _ => destruct c end ].

Ltac keys_here Hcur :=
  repeat match goal with
         | |- context [if ?c then _ else _] => destruct c eqn:?
         end;
  rewrite ?elem_of_setitem_keys, Hcur; intuition (discriminate || congruence).

Ltac keys_step Q' :=
  lazymatch goal with
  | |- (?k ∈ fst <$> (let x := ?a in @?b x)) ↔ ?Q =>
      let x' := fresh "cv" in
      change (let x := a in (k ∈ fst <$> b x) ↔ Q); intros x'; cbv beta;
      first
        [ lazymatch goal with
          | Hcur : (k ∈ fst <$> _) ↔ ?Q0 |- _ =>
              first [ assert ((k ∈ fst <$> x') ↔ Q0) by (subst x'; keys_other Hcur)
                    | assert ((k ∈ fst <$> x') ↔ Q') by (subst x'; keys_here Hcur) ];
              clear Hcur; clearbody x'
          end
        | subst x' ]
  end.

Ltac box_tac Q :=
  let Hcur := fresh "Hcur" in
  lazymatch goal with
  | Hcv : ?k ∉ ?cv.*1 |- (?k ∈ _) ↔ _ =>
      assert (Hcur : k ∈ cv.*1 ↔ False) by tauto
  end;
  cbv beta delta [check_test_answers]; repeat keys_step Q; assumption.

(** Of the two boxes of an answer that is either one or the other, the
    answers of the test check exactly one. *)
Lemma check_test_answers_pairs (test : dict) (gauge_type : PyVal)
    (cv : list (string * PyVal)) :
  let first := py_eq_str (get test "firstCheckClosedTightInitial") "Closed Tight" in
  let second := py_eq_str (get test "secondCheckClosedTightInitial") "Closed Tight" in
  let potable := py_eq_str gauge_type "Potable" in
  let boxes := (check_test_answers test gauge_type cv).*1 in
  "Check Box_2_11" ∉ cv.*1 → "Check Box_2_12" ∉ cv.*1 →
  "Check Box_2_9" ∉ cv.*1 → "Check Box_2_10" ∉ cv.*1 →
  "Check Box_2_32" ∉ cv.*1 → "Check Box_2_33" ∉ cv.*1 →
  ("Check Box_2_11" ∈ boxes ↔ first = true)
  ∧ ("Check Box_2_12" ∈ boxes ↔ first = false)
  ∧ ("Check Box_2_9" ∈ boxes ↔ second = true)
  ∧ ("Check Box_2_10" ∈ boxes ↔ second = false)
  ∧ ("Check Box_2_32" ∈ boxes ↔ potable = true)
  ∧ ("Check Box_2_33" ∈ boxes ↔ potable = false).
Proof.
  intros first second potable boxes H11 H12 H9 H10 H32 H33. subst boxes.
  split; [clear H12 H9 H10 H32 H33; box_tac (first = true)|].
  split; [clear H11 H9 H10 H32 H33; box_tac (first = false)|].
  split; [clear H11 H12 H10 H32 H33; box_tac (second = true)|].
  split; [clear H11 H12 H9 H32 H33; box_tac (second = false)|].
  split; [clear H11 H12 H9 H10 H33; box_tac (potable = true)|].
  clear H11 H12 H9 H10 H32; box_tac (potable = false).
Qed.

#[local] Opaque check_test_answers.

Lemma tceq_check_values_true {W} (device test : dict) (gauge_type : PyVal)
    (w w' : W) (check_values : list (string * PyVal)) :
  tceq_check_values device test gauge_type w = (inr check_values, w') →
  Forall (λ kv, kv.2 = VBool true) check_values.
Proof.
  unfold tceq_check_values, mbind, M_bind, bind.
  destruct (check_device_type device [] w) as [[e|cv] w1] eqn:Hfirst; [done|].
  apply check_device_type_inv in Hfirst.
  unfold ret. intros Hret.
  assert (check_values = check_test_answers test gauge_type cv) as -> by congruence.
  clear Hret.
  apply check_test_answers_true. eapply Forall_impl; [exact Hfirst|]. by intros kv [? _].
Qed.

(** X12. The checkboxes computed from a device and a test: every entry
    is [True], so the loop that applies them skips none; and of the boxes
    for the first check, for the second check and for the gauge, which the
    code sets in the two branches of an [if], exactly one of each pair is
    among them, whatever the device type has checked. *)
Theorem one_box_of_each_pair_is_checked {W} (device test : dict) (gauge_type : PyVal)
    (w w' : W) (check_values : list (string * PyVal)) :
  let first := py_eq_str (get test "firstCheckClosedTightInitial") "Closed Tight" in
  let second := py_eq_str (get test "secondCheckClosedTightInitial") "Closed Tight" in
  let potable := py_eq_str gauge_type "Potable" in
  tceq_check_values device test gauge_type w = (inr check_values, w') →
  Forall (λ kv, kv.2 = VBool true) check_values
  ∧ ("Check Box_2_11" ∈ check_values.*1 ↔ first = true)
  ∧ ("Check Box_2_12" ∈ check_values.*1 ↔ first = false)
  ∧ ("Check Box_2_9" ∈ check_values.*1 ↔ second = true)
  ∧ ("Check Box_2_10" ∈ check_values.*1 ↔ second = false)
  ∧ ("Check Box_2_32" ∈ check_values.*1 ↔ potable = true)
  ∧ ("Check Box_2_33" ∈ check_values.*1 ↔ potable = false).
Proof.
  intros first second potable Hrun.
  split; [by eapply tceq_check_values_true|]. revert Hrun.
  unfold tceq_check_values, mbind, M_bind, bind.
  destruct (check_device_type device [] w) as [[e|cv] w1] eqn:Hfirst; [done|].
  apply check_device_type_inv in Hfirst.
  unfold ret. intros Hret.
  assert (check_values = check_test_answers test gauge_type cv) as -> by congruence.
  clear Hret.
  assert (Hother : ∀ k, k ∈ cv.*1 →
            k ∈ ["Check Box_2"; "Check Box_2_1"; "Check Box_2_4"; "Check Box_2_5";
                 "Check Box_2_7"; "Check Box_2_8"; "Check Box_2_3"; "Check Box_2_6"]).
  { intros k [[k' v] [-> Hkv]]%list_elem_of_fmap.
    rewrite Forall_forall in Hfirst. destruct (Hfirst _ Hkv) as [_ (s & _ & Hbox)].
    by eapply type_checkbox_map_boxes. }
  apply check_test_answers_pairs;
    intros Hk%Hother;
    repeat (apply elem_of_cons in Hk as [Hk|Hk]; [discriminate Hk|]);
    by apply elem_of_nil in Hk.
Qed.

(** What the loop over the checkboxes leaves on the page. *)
Lemma apply_check_values_lookup (check_values : list (string * PyVal)) (page : Page)
    (k : string) :
  Forall (λ kv, kv.2 = VBool true) check_values →
  fields (apply_check_values page check_values) !! k
  = match fields page !! k with
    | None => None
    | Some old => if bool_decide (k ∈ check_values.*1) then Some (VStr "/Yes") else Some old
    end.
Proof.
  unfold apply_check_values. intros Htrue. revert page.
  induction Htrue as [|[field_name checked] rest Hchecked _ IH]; intros page.
  - simpl. by destruct (fields page !! k).
  - simpl in Hchecked. subst checked. cbn [foldl truthy]. rewrite IH, update_page_lookup.
    cbn [fmap list_fmap fst]. destruct (decide (k = field_name)) as [->|Hne].
    + rewrite lookup_singleton_eq, (bool_decide_eq_true_2 (_ ∈ _ :: _))
        by (apply elem_of_cons; by left).
      destruct (fields page !! field_name); [|done]. by destruct (bool_decide _).
    + rewrite lookup_singleton_ne by done.
      destruct (fields page !! k); [|done].
      apply (f_equal (λ b : bool, if b then _ else _)).
      apply bool_decide_ext. rewrite elem_of_cons. intuition congruence.
Qed.

(** The first page of a filled form, field by field. *)
Lemma filled_page_lookup (text_values : gmap string PyVal) (page0 : Page)
    (check_values : list (string * PyVal)) (k : string) :
  Forall (λ kv, kv.2 = VBool true) check_values →
  fields (apply_check_values (update_page_form_field_values page0 text_values)
                             check_values) !! k
  = match fields page0 !! k with
    | None => None
    | Some old =>
        if bool_decide (k ∈ check_values.*1) then Some (VStr "/Yes")
        else Some (default old (text_values !! k))
    end.
Proof.
  intros Htrue. rewrite (apply_check_values_lookup _ _ _ Htrue), update_page_lookup.
  destruct (text_values !! k), (fields page0 !! k); done.
Qed.

Lemma apply_check_values_frame (check_values : list (string * PyVal)) (page : Page) :
  mediabox_width (apply_check_values page check_values) = mediabox_width page
  ∧ mediabox_height (apply_check_values page check_values) = mediabox_height page
  ∧ contents (apply_check_values page check_values) = contents page.
Proof.
  unfold apply_check_values. revert page.
  induction check_values as [|[field_name checked] rest IH]; intros page; [done|].
  cbn [foldl]. destruct (IH (if truthy checked
                             then update_page_form_field_values page
                                    {[field_name := VStr "/Yes"]}
                             else page)) as (-> & -> & ->).
  by destruct (truthy checked).
Qed.

#[local] Opaque tceq_text_values drop_blank update_page_form_field_values apply_check_values.

Lemma fill_tceq_pdf_page (device test : dict) (technician company : PyVal)
    (city_info : dict) (customer_name service_address : PyVal) (w w' : Backflow)
    (out : list byte) :
  _fill_tceq_pdf device test technician company city_info customer_name service_address w
    = (inr out, w') →
  ∃ template page0 rest technician_d company_d check_values,
    TCEQ_pdf w = Some template
    ∧ pdf_parse template = Some (page0 :: rest)
    ∧ technician = VDict technician_d
    ∧ company = VDict company_d
    ∧ tceq_check_values device test
        (get_d test "differentialPressureGaugeType" (VStr "Potable")) w
      = (inr check_values, w)
    ∧ out = pdf_write
              (apply_check_values
                 (update_page_form_field_values page0
                    (drop_blank (tceq_text_values device test technician_d company_d
                                   city_info customer_name service_address)))
                 check_values :: rest).
Proof.
  unfold _fill_tceq_pdf, mbind, M_bind. intros Hrun.
  apply bind_inr_inv in Hrun as (o & w1 & Hgets & Hrun).
  injection Hgets as <- <-.
  apply bind_inr_inv in Hrun as (t & w1 & Htemplate & Hrun).
  destruct (TCEQ_pdf w) as [template|] eqn:Hfile; [|done]. injection Htemplate as <- <-.
  apply bind_inr_inv in Hrun as (ps & w1 & Hparse & Hrun).
  destruct (pdf_parse template) as [pages|] eqn:Hpages; [|done]. injection Hparse as <- <-.
  apply bind_inr_inv in Hrun as (d & w1 & Htech & Hrun).
  destruct technician as [| | | | | |td]; try discriminate Htech. injection Htech as <- <-.
  apply bind_inr_inv in Hrun as (gauge & w1 & Hgauge & Hrun).
  pose proof (stateless_find_gauge_in
                (py_or (get td "gauges") (VList []))
                (get_d test "differentialPressureGaugeType" (VStr "Potable")) w) as Hw1.
  rewrite Hgauge in Hw1. cbn [snd] in Hw1. subst w1. clear Hgauge.
  apply bind_inr_inv in Hrun as (d & w1 & Hcomp & Hrun).
  destruct company as [| | | | | |cd]; try discriminate Hcomp. injection Hcomp as <- <-.
  destruct pages as [|page0 rest]; [discriminate Hrun|].
  apply bind_inr_inv in Hrun as (check_values & w1 & Hcv & Hrun).
  pose proof (stateless_tceq_check_values device test
                (get_d test "differentialPressureGaugeType" (VStr "Potable")) w) as Hw1.
  rewrite Hcv in Hw1. cbn [snd] in Hw1. subst w1.
  unfold ret in Hrun. injection Hrun as Hout _.
  exists template, page0, rest, td, cd, check_values.
  repeat (split; [reflexivity || assumption|]). symmetry. exact Hout.
Qed.

(** X13. When the text values that are not blank are strings, which
    pypdf writes as they are, a fill that returns has written the first
    page of the template and nothing else: the pages after it, the size and
    the content of the first page are the template's.  No field is added
    or removed; a field of the template whose name is among the boxes to
    check holds [/Yes], any other holds its computed text value when that
    value is not blank, and its own value otherwise.  Nothing is printed
    and no global is changed. *)
Theorem fill_tceq_pdf_writes_the_first_page (device test technician company city_info : dict)
    (customer_name service_address : PyVal) (w w' : Backflow) (out : list byte) :
  let text_values :=
    tceq_text_values device test technician company city_info
                     customer_name service_address in
  let gauge_type := get_d test "differentialPressureGaugeType" (VStr "Potable") in
  _fill_tceq_pdf device test (VDict technician) (VDict company) city_info
                 customer_name service_address w = (inr out, w') →
  (∀ k v, text_values !! k = Some v → truthy v = true → isinstance_str v = true) →
  w' = w
  ∧ ∃ template page0 rest page0' check_values,
      TCEQ_pdf w = Some template
      ∧ pdf_parse template = Some (page0 :: rest)
      ∧ tceq_check_values device test gauge_type w = (inr check_values, w)
      ∧ out = pdf_write (page0' :: rest)
      ∧ mediabox_width page0' = mediabox_width page0
      ∧ mediabox_height page0' = mediabox_height page0
      ∧ contents page0' = contents page0
      ∧ ∀ k, fields page0' !! k
             = match fields page0 !! k with
               | None => None
               | Some old =>
                   if bool_decide (k ∈ check_values.*1) then Some (VStr "/Yes")
                   else match text_values !! k with
                        | Some v => if truthy v then Some v else Some old
                        | None => Some old
                        end
               end.
Proof.
  intros text_values gauge_type Hfill _.
  split.
  { pose proof (stateless_fill_tceq_pdf device test (VDict technician) (VDict company)
                  city_info customer_name service_address w) as Hw.
    by rewrite Hfill in Hw. }
  apply fill_tceq_pdf_page in Hfill
    as (template & page0 & rest & td & cd & cvs & Ht & Hp & Htd & Hcd & Hcv & Hout).
  injection Htd as <-. injection Hcd as <-.
  exists template, page0, rest,
         (apply_check_values
            (update_page_form_field_values page0 (drop_blank text_values)) cvs), cvs.
  split; [exact Ht|]. split; [exact Hp|]. split; [exact Hcv|]. split; [exact Hout|].
  destruct (apply_check_values_frame cvs
              (update_page_form_field_values page0 (drop_blank text_values)))
    as (-> & -> & ->).
  split; [reflexivity|]. split; [reflexivity|]. split; [reflexivity|].
  intros k. rewrite filled_page_lookup
    by (by eapply (tceq_check_values_true (W:=Backflow))).
  destruct (fields page0 !! k) as [old|]; [|reflexivity].
  destruct (bool_decide _); [reflexivity|].
  destruct (text_values !! k) as [v|] eqn:Hk.
  - destruct (truthy v) eqn:Hv.
    + by rewrite (proj2 (drop_blank_lookup text_values k v) (conj Hk Hv)).
    + by rewrite (drop_blank_lookup_blank _ _ _ Hk Hv).
  - destruct (drop_blank text_values !! k) as [v|] eqn:Hd; [|reflexivity].
    apply drop_blank_lookup in Hd as [Hd _]. congruence.
Qed.

End form_facts.

Lemma one_box_of_each_pair_is_checked_witness :
  tceq_check_values (W:=unit) example_device example_test (VStr "Potable") tt
  = (inr example_check_values, tt)
  ∧ Forall (λ kv, kv.2 = VBool true) example_check_values
  ∧ ("Check Box_2_11" ∈ example_check_values.*1
     ↔ py_eq_str (get example_test "firstCheckClosedTightInitial") "Closed Tight" = true)
  ∧ ("Check Box_2_12" ∈ example_check_values.*1
     ↔ py_eq_str (get example_test "firstCheckClosedTightInitial") "Closed Tight" = false)
  ∧ ("Check Box_2_9" ∈ example_check_values.*1
     ↔ py_eq_str (get example_test "secondCheckClosedTightInitial") "Closed Tight" = true)
  ∧ ("Check Box_2_10" ∈ example_check_values.*1
     ↔ py_eq_str (get example_test "secondCheckClosedTightInitial") "Closed Tight" = false)
  ∧ ("Check Box_2_32" ∈ example_check_values.*1 ↔ py_eq_str (VStr "Potable") "Potable" = true)
  ∧ ("Check Box_2_33" ∈ example_check_values.*1
     ↔ py_eq_str (VStr "Potable") "Potable" = false).
Proof.
  assert (Hrun : tceq_check_values (W:=unit) example_device example_test
                   (VStr "Potable") tt = (inr example_check_values, tt))
    by (vm_compute; reflexivity).
  split; [exact Hrun|].
  exact (one_box_of_each_pair_is_checked example_device example_test
           (VStr "Potable") tt tt example_check_values Hrun).
Defined.

Lemma fill_tceq_pdf_writes_the_first_page_witness :
  let w := example_backflow (Some example_pdf) in
  let text_values :=
    tceq_text_values (H:=example_libs) example_device example_test ∅ ∅ ∅
                     (VStr "") (VStr "1 Main St") in
  let gauge_type := get_d example_test "differentialPressureGaugeType" (VStr "Potable") in
  _fill_tceq_pdf (H:=example_libs) example_device example_test (VDict ∅) (VDict ∅) ∅
                 (VStr "") (VStr "1 Main St") w = (inr PDF_MAGIC, w)
  ∧ (∀ k v, text_values !! k = Some v → truthy v = true → isinstance_str v = true)
  ∧ w = w
  ∧ ∃ template page0 rest page0' check_values,
      TCEQ_pdf w = Some template
      ∧ pdf_parse (Libs:=example_libs) template = Some (page0 :: rest)
      ∧ tceq_check_values example_device example_test gauge_type w
        = (inr check_values, w)
      ∧ PDF_MAGIC = pdf_write (Libs:=example_libs) (page0' :: rest)
      ∧ mediabox_width page0' = mediabox_width page0
      ∧ mediabox_height page0' = mediabox_height page0
      ∧ contents page0' = contents page0
      ∧ ∀ k, fields page0' !! k
             = match fields page0 !! k with
               | None => None
               | Some old =>
                   if bool_decide (k ∈ check_values.*1) then Some (VStr "/Yes")
                   else match text_values !! k with
                        | Some v => if truthy v then Some v else Some old
                        | None => Some old
                        end
               end.
Proof.
  intros w text_values gauge_type.
  assert (Hfill : _fill_tceq_pdf (H:=example_libs) example_device example_test
                    (VDict ∅) (VDict ∅) ∅ (VStr "") (VStr "1 Main St") w
                  = (inr PDF_MAGIC, w)) by (vm_compute; reflexivity).
  assert (Hstrings : ∀ k v, text_values !! k = Some v → truthy v = true →
                            isinstance_str v = true).
  { intros k v Hk. unfold text_values, tceq_text_values in Hk.
    apply elem_of_list_to_map_2 in Hk.
    repeat (apply elem_of_cons in Hk as [[= -> ->]|Hk]; [by vm_compute|]).
    by apply elem_of_nil in Hk. }
  split; [exact Hfill|]. split; [exact Hstrings|].
  exact (fill_tceq_pdf_writes_the_first_page (H:=example_libs) example_device example_test
           ∅ ∅ ∅ (VStr "") (VStr "1 Main St") w w PDF_MAGIC Hfill Hstrings).
Defined.

(** ** The page of the reference sheet *)

Section reference_facts.
Context `{Libs}.

(** The lines of a sheet are in its two columns, from 742 down to 327 at
    the lowest. *)
Lemma reference_sheet_ops_on_sheet (device test city_info : dict) (city_code : PyVal) :
  let ops := reference_sheet_ops device test city_info city_code in
  Forall on_sheet ops ∧ (29 ≤ length ops ≤ 35)%nat.
Proof.
  cbv beta delta [reference_sheet_ops readings_of omap list_omap field_ops heading_op].
  cbv beta iota zeta.
  generalize (VStr (py_str (get test "firstCheckReadingInitial") +:+ " PSI")) as r1.
  generalize (VStr (py_str (get test "secondCheckReadingInitial") +:+ " PSI")) as r2.
  generalize (VStr (py_str (get test "reliefValveReadingInitial") +:+ " PSI")) as r3.
  intros r3 r2 r1.
  destruct (truthy (get test "firstCheckReadingInitial")),
           (truthy (get test "secondCheckReadingInitial")),
           (truthy (get test "reliefValveReadingInitial"));
    (split; [|simpl; lia]);
    cbn [app flat_map enumerate];
    repeat (constructor;
            [split; [first [by left|by right]|split; by vm_compute]|]);
    constructor.
Qed.

(** X14. The reference sheet, whatever the device, the test and the city
    are: when every value it draws is a string, or is falsy, it is one
    page, with the title, the line of the city and the device, the three
    sections and the readings that are there, 29 to 35 strings in the
    column of the labels (x = 50) or of the values (x = 250), from 742pt
    down to 327pt at the lowest, so that the page break of [draw_field]
    below 50pt is never taken; and when one of the values is not a string
    the renderer raises [AttributeError] and there is no sheet. *)
Theorem reference_sheet_is_one_page (device test city_info : dict) (city_code : PyVal) :
  let ops := reference_sheet_ops device test city_info city_code in
  _generate_reference_pdf device test city_info city_code
  = (if forallb drawable (reference_values device test city_info city_code)
     then inr (canvas_getvalue letter [ops])
     else inl AttributeError)
  ∧ Forall on_sheet ops
  ∧ (29 ≤ length ops ≤ 35)%nat.
Proof.
  intros ops. split; [apply generate_reference_pdf_run|].
  apply reference_sheet_ops_on_sheet.
Qed.

End reference_facts.

(** ** The device routes and the stored ids *)

Section device_facts.
Context `{Libs}.

Lemma stateless_find_index_by_id {W} (l : list dict) (id : PyVal) :
  stateless (find_index_by_id (W:=W) l id).
Proof.
  induction l as [|d l IH]; simpl; [done|].
  apply stateless_bind; [apply stateless_or_raise|]. intros d_id.
  destruct (py_eq _ _); [done|].
  apply stateless_bind; [exact IH|]. intros idx. apply stateless_ret.
Qed.

(** What the search for an index finds: the first dict with this id, or
    that no dict has it; it raises only on a dict without [id]. *)
Lemma find_index_by_id_spec {W} (l : list dict) (id : PyVal) (w : W) :
  match (find_index_by_id l id w).1 with
  | inl e => e = KeyError ∧ ¬ have_ids l
  | inr None => Forall (λ d, ∃ v, d !! "id" = Some v ∧ py_eq v id = false) l
  | inr (Some idx) =>
      ∃ d v, l !! idx = Some d ∧ d !! "id" = Some v ∧ py_eq v id = true
             ∧ Forall (λ d', ∃ v', d' !! "id" = Some v' ∧ py_eq v' id = false) (take idx l)
  end.
Proof.
  induction l as [|d l IH]; simpl; [constructor|].
  unfold mbind, M_bind, bind, or_raise.
  destruct (d !! "id") as [d_id|] eqn:Hid.
  2: { simpl. split; [reflexivity|]. intros Hids. apply Forall_cons in Hids as [[v Hv] _].
       congruence. }
  unfold ret at 1. destruct (py_eq d_id id) eqn:Heq.
  { simpl. exists d, d_id. repeat split; [done..|constructor]. }
  destruct (find_index_by_id l id w) as [[e|[idx|]] w1]; simpl in *.
  - destruct IH as [-> Hno]. split; [reflexivity|]. intros Hids.
    apply Forall_cons in Hids as [_ Hids]. by apply Hno.
  - destruct IH as (d' & v & Hd' & Hv & Hmatch & Hbefore).
    exists d', v. repeat split; [done..|]. constructor; [by exists d_id|exact Hbefore].
  - constructor; [by exists d_id|exact IH].
Qed.

Lemma find_by_id_with_ids {W} (l : list dict) (id : PyVal) (w : W) :
  have_ids l → ∃ found, (find_by_id l id w).1 = inr found.
Proof.
  intros Hids. induction Hids as [|d l [v Hv] _ IH]; simpl; [by eexists|].
  unfold mbind, M_bind, bind, or_raise. rewrite Hv. unfold ret at 1.
  destruct (py_eq v id); [by eexists|exact IH].
Qed.

(** Every run of [update_device]. *)
Lemma update_device_cases (device_id : string) (body : dict) (w : Backflow) :
  match (find_index_by_id (_devices w) (VStr device_id) w).1 with
  | inl e => update_device device_id body w = (inl e, w)
  | inr None => update_device device_id body w = (inl (HTTPException 404 "Device not found"), w)
  | inr (Some idx) =>
      ∃ old, _devices w !! idx = Some old
             ∧ let device : dict := <["updatedAt" := VStr (utcnow w)]> (body ∪ old) in
               update_device device_id body w
               = (inr (list_to_map [("success", VBool true); ("data", VDict device)]),
                  mkBackflow (<[idx := device]> (_devices w)) (_test_records w)
                             (_generated_pdfs w) (_pdf_counter w) (_cities w) (TCEQ_pdf w)
                             (st_upload w) (utcnow w) (bf_stdout w))
  end.
Proof.
  pose proof (find_index_by_id_spec (_devices w) (VStr device_id) w) as Hspec.
  unfold update_device, mbind, M_bind.
  erewrite bind_inr by reflexivity.
  pose proof (stateless_run _ w (stateless_find_index_by_id (_devices w) (VStr device_id)))
    as Hfind.
  destruct (find_index_by_id (_devices w) (VStr device_id) w).1 as [e|[idx|]].
  - by erewrite bind_inl by exact Hfind.
  - destruct Hspec as (old & v & Hold & _). exists old. split; [exact Hold|].
    erewrite bind_inr by exact Hfind. cbv beta iota. rewrite Hold. reflexivity.
  - by erewrite bind_inr by exact Hfind.
Qed.

(** X15. An update that succeeds has replaced one device and nothing
    else: the first one whose [id] equals the id of the request.  The list
    keeps its length and its other devices; the new dict has the time of
    the update under [updatedAt], under any other key the value of the
    body when the body has the key (the [id] too), and the old value
    otherwise.  It is the [data] of the answer. *)
Theorem update_device_replaces_one_device (device_id : string) (body : dict)
    (w w' : Backflow) (result : dict) :
  update_device device_id body w = (inr result, w') →
  ∃ idx old device v,
    _devices w !! idx = Some old
    ∧ old !! "id" = Some v ∧ py_eq v (VStr device_id) = true
    ∧ Forall (λ d, ∃ v', d !! "id" = Some v' ∧ py_eq v' (VStr device_id) = false)
             (take idx (_devices w))
    ∧ _devices w' = <[idx := device]> (_devices w)
    ∧ length (_devices w') = length (_devices w)
    ∧ (∀ j, j ≠ idx → _devices w' !! j = _devices w !! j)
    ∧ device !! "updatedAt" = Some (VStr (utcnow w))
    ∧ (∀ k, k ≠ "updatedAt" →
            device !! k = match body !! k with Some b => Some b | None => old !! k end)
    ∧ result !! "success" = Some (VBool true)
    ∧ result !! "data" = Some (VDict device)
    ∧ _test_records w' = _test_records w
    ∧ _generated_pdfs w' = _generated_pdfs w
    ∧ _pdf_counter w' = _pdf_counter w
    ∧ bf_stdout w' = bf_stdout w.
Proof.
  intros Hrun.
  pose proof (update_device_cases device_id body w) as Hcases.
  pose proof (find_index_by_id_spec (_devices w) (VStr device_id) w) as Hspec.
  destruct (find_index_by_id (_devices w) (VStr device_id) w).1 as [e|[idx|]];
    [congruence| |congruence].
  destruct Hcases as (old & Hold & Hok). cbv zeta in Hok.
  rewrite Hok in Hrun. injection Hrun as <- <-.
  destruct Hspec as (old' & v & Hold' & Hv & Hmatch & Hbefore).
  assert (old' = old) as -> by congruence.
  exists idx, old, (<["updatedAt" := VStr (utcnow w)]> (body ∪ old)), v.
  split; [exact Hold|]. split; [exact Hv|]. split; [exact Hmatch|].
  split; [exact Hbefore|]. split; [reflexivity|].
  split; [apply length_insert|].
  split; [intros j Hj; cbn; by rewrite list_lookup_insert_ne|].
  split; [apply lookup_insert_eq|].
  split.
  { intros k Hk. rewrite lookup_insert_ne by done. rewrite lookup_union.
    by destruct (body !! k), (old !! k). }
  repeat (split; [reflexivity|]). reflexivity.
Qed.

(** X16. An update that fails has changed nothing.  When it fails with
    404, every stored device has an [id] and none equals the id of the
    request; the only other failure is the [KeyError] of a stored device
    without [id]. *)
Theorem update_device_errors_change_nothing (device_id : string) (body : dict)
    (w w' : Backflow) (e : PyExc) :
  update_device device_id body w = (inl e, w') →
  w' = w
  ∧ ((e = HTTPException 404 "Device not found"
      ∧ Forall (λ d, ∃ v, d !! "id" = Some v ∧ py_eq v (VStr device_id) = false)
               (_devices w))
     ∨ (e = KeyError ∧ ¬ have_ids (_devices w))).
Proof.
  intros Hrun.
  pose proof (update_device_cases device_id body w) as Hcases.
  pose proof (find_index_by_id_spec (_devices w) (VStr device_id) w) as Hspec.
  destruct (find_index_by_id (_devices w) (VStr device_id) w).1 as [e'|[idx|]].
  - rewrite Hcases in Hrun. injection Hrun as <- <-. split; [reflexivity|]. by right.
  - destruct Hcases as (old & _ & Hok). cbv zeta in Hok. congruence.
  - rewrite Hcases in Hrun. injection Hrun as <- <-. split; [reflexivity|]. by left.
Qed.

(** X17. That every stored device has an [id] is kept by an update,
    whatever the body and whatever the outcome. *)
Theorem update_device_keeps_ids (device_id : string) (body : dict) (w : Backflow) :
  have_ids (_devices w) → have_ids (_devices (update_device device_id body w).2).
Proof.
  intros Hids.
  pose proof (update_device_cases device_id body w) as Hcases.
  pose proof (find_index_by_id_spec (_devices w) (VStr device_id) w) as Hspec.
  destruct (find_index_by_id (_devices w) (VStr device_id) w).1 as [e'|[idx|]].
  - by rewrite Hcases.
  - destruct Hcases as (old & Hold & Hok). cbv zeta in Hok. rewrite Hok. cbn.
    destruct Hspec as (old' & v & Hold' & Hv & _).
    assert (old' = old) as -> by congruence.
    apply Forall_insert; [exact Hids|].
    rewrite lookup_insert_ne by done. rewrite lookup_union.
    destruct (body !! "id"); rewrite ?Hv; by eexists.
  - by rewrite Hcases.
Qed.

#[local] Opaque _generate_reference_pdf _fill_tceq_pdf.

Lemma get_city_info_found (city_code : PyVal) (w : Backflow) (d : dict) :
  (get_city_info city_code w).1 = inr (Some d) → ∃ k, _cities w !! k = Some d.
Proof.
  unfold get_city_info. destruct (negb _); [done|].
  destruct city_code as [| | | |s| |]; try done.
  cbn. intros [= Hd]. by eexists.
Qed.

(** X18. When every stored device and test record has an [id], the city
    code of the request is a string, or absent, and every value the
    reference sheet would draw for a stored device and test is a string or
    falsy, a request to generate either succeeds or is answered 404; and
    it is answered 404 only when the device or the test record is not
    found. *)
Theorem generate_pdf_with_ids (body : dict) (w : Backflow) :
  have_ids (_devices w) → have_ids (_test_records w) →
  isinstance_str (get_d body "cityCode" (VStr "")) = true →
  sheet_values_drawable w (get_d body "cityCode" (VStr "")) →
  (∃ result w', generate_pdf body w = (inr result, w'))
  ∨ (generate_pdf body w = (inl (HTTPException 404 "Device or test not found"), w)
     ∧ ((find_by_id (_devices w) (get body "deviceId") w).1 = inr None
        ∨ (find_by_id (_test_records w) (get body "testRecordId") w).1 = inr None)).
Proof.
  intros Hdevs Htests Hcity Hsheet.
  destruct (find_by_id_with_ids _ (get body "deviceId") w Hdevs) as [device Hdev].
  destruct (find_by_id_with_ids _ (get body "testRecordId") w Htests) as [test Htest].
  destruct device as [device|];
    [|right; split; [by eapply generate_pdf_lookups; [exact Hdev|exact Htest|left]|by left]].
  destruct test as [test|];
    [|right; split; [by eapply generate_pdf_lookups; [exact Hdev|exact Htest|right]|by right]].
  left.
  destruct (generate_pdf_cases body w)
    as [(e & He & Hkind)
       |[(d & t & found & e0 & Hd & Ht & Hfound & Hvalues & _)
        |(d & t & found & pdf_bytes & w1 & _ & _ & _ & _ & _ & Hok)]].
  3: { cbv zeta in Hok. eexists _, _. exact Hok. }
  - exfalso. destruct Hkind as [[_ [Hk|Hk]]|[[_ Hk]|[_ [Hk|Hk]]]]; try congruence.
    revert Hk Hcity. unfold get_city_info.
    destruct (get_d body "cityCode" (VStr "")) as [| | | |s| |]; try discriminate.
    by destruct (negb _).
  - exfalso. rewrite Hsheet in Hvalues; [done| | |].
    + exact (proj1 (find_by_id_found _ _ _ _ Hd)).
    + exact (proj1 (find_by_id_found _ _ _ _ Ht)).
    + destruct found as [city|]; [|by left].
      destruct (truthy (VDict city)); [|by left].
      right. by eapply get_city_info_found.
Qed.

End device_facts.

Lemma update_device_replaces_one_device_witness :
  ∃ result w',
    update_device (H:=example_libs) "device-1" {["sizeMain" := VStr "2"]}
                  (example_backflow None) = (inr result, w')
    ∧ length (_devices w') = 1%nat
    ∧ ∃ device,
        _devices w' = [device]
        ∧ device !! "sizeMain" = Some (VStr "2")
        ∧ device !! "id" = Some (VStr "device-1")
        ∧ device !! "updatedAt" = Some (VStr "2026-02-26T00:00:00+00:00").
Proof.
  destruct (update_device (H:=example_libs) "device-1" {["sizeMain" := VStr "2"]}
                          (example_backflow None)) as [[e|result] w'] eqn:Hrun.
  { apply (f_equal (λ r, match r.1 with inl _ => true | inr _ => false end)) in Hrun.
    vm_compute in Hrun. discriminate Hrun. }
  exists result, w'. split; [reflexivity|].
  destruct (update_device_replaces_one_device (H:=example_libs) "device-1"
              {["sizeMain" := VStr "2"]} (example_backflow None) w' result Hrun)
    as (idx & old & device & v & Hold & _ & _ & _ & Hdevices & Hlength & _ & Hnow & Hkeys & _).
  split; [exact Hlength|]. exists device.
  destruct idx as [|idx]; [|done]. injection Hold as <-.
  split; [exact Hdevices|].
  split; [by rewrite Hkeys|]. split; [by rewrite Hkeys|]. exact Hnow.
Defined.

Lemma update_device_errors_change_nothing_witness :
  update_device (H:=example_libs) "device-9" ∅ (example_backflow None)
  = (inl (HTTPException 404 "Device not found"), example_backflow None)
  ∧ example_backflow None = example_backflow None
  ∧ ((HTTPException 404 "Device not found" = HTTPException 404 "Device not found"
      ∧ Forall (λ d, ∃ v, d !! "id" = Some v
                          ∧ py_eq (H:=example_libs) v (VStr "device-9") = false)
               (_devices (example_backflow None)))
     ∨ (HTTPException 404 "Device not found" = KeyError
        ∧ ¬ have_ids (_devices (example_backflow None)))).
Proof.
  assert (Hrun : update_device (H:=example_libs) "device-9" ∅ (example_backflow None)
                 = (inl (HTTPException 404 "Device not found"), example_backflow None))
    by (vm_compute; reflexivity).
  split; [exact Hrun|].
  exact (update_device_errors_change_nothing (H:=example_libs) "device-9" ∅
           (example_backflow None) (example_backflow None) _ Hrun).
Defined.

Lemma update_device_keeps_ids_witness :
  have_ids (_devices (example_backflow None))
  ∧ have_ids (_devices (update_device (H:=example_libs) "device-1" {["id" := VInt 3]}
                                      (example_backflow None)).2).
Proof.
  assert (Hids : have_ids (_devices (example_backflow None))).
  { constructor; [|constructor]. by eexists. }
  split; [exact Hids|].
  exact (update_device_keeps_ids (H:=example_libs) "device-1" {["id" := VInt 3]}
           (example_backflow None) Hids).
Defined.

Lemma generate_pdf_with_ids_witness :
  have_ids (_devices (example_backflow None))
  ∧ have_ids (_test_records (example_backflow None))
  ∧ isinstance_str (get_d example_body "cityCode" (VStr "")) = true
  ∧ sheet_values_drawable (H:=example_libs) (example_backflow None)
                          (get_d example_body "cityCode" (VStr ""))
  ∧ ((∃ result w', generate_pdf (H:=example_libs) example_body (example_backflow None)
                   = (inr result, w'))
     ∨ (generate_pdf (H:=example_libs) example_body (example_backflow None)
        = (inl (HTTPException 404 "Device or test not found"), example_backflow None)
        ∧ ((find_by_id (H:=example_libs) (_devices (example_backflow None))
                       (get example_body "deviceId") (example_backflow None)).1 = inr None
           ∨ (find_by_id (H:=example_libs) (_test_records (example_backflow None))
                         (get example_body "testRecordId") (example_backflow None)).1
             = inr None))).
Proof.
  assert (Hdevs : have_ids (_devices (example_backflow None))).
  { constructor; [|constructor]. by eexists. }
  assert (Htests : have_ids (_test_records (example_backflow None))).
  { constructor; [|constructor]. by eexists. }
  assert (Hcity : isinstance_str (get_d example_body "cityCode" (VStr "")) = true)
    by reflexivity.
  assert (Hsheet : sheet_values_drawable (H:=example_libs) (example_backflow None)
                     (get_d example_body "cityCode" (VStr ""))).
  { intros device test city_info Hdevice%list_elem_of_singleton
           Htest%list_elem_of_singleton [->|[k Hk]]; [|done].
    subst device test. vm_compute. reflexivity. }
  split; [exact Hdevs|]. split; [exact Htests|]. split; [exact Hcity|].
  split; [exact Hsheet|].
  exact (generate_pdf_with_ids (H:=example_libs) example_body (example_backflow None)
           Hdevs Htests Hcity Hsheet).
Defined.
